(** * LACT-PLC-1: a shallow embedding of the scan engine and its modules

    The development follows the Python sources under [plc/]:
    - [plc/core/data_store.py]     the tag database ([DataStore]);
    - [plc/config/setpoints.py]    the tunable setpoints ([Setpoints]);
    - [plc/config/alarms.py]       alarm definitions and [AlarmState];
    - [plc/core/state_machine.py]  [LACTStateMachine];
    - [plc/core/safety.py]         [SafetyManager];
    - [plc/modules/*.py]           the process modules;
    - [plc/drivers/io_handler.py]  [IOHandler];
    - [plc/core/controller.py]     [PLCController] and its scan.

    Conventions of the embedding.
    - Python [float]s are modelled by exact rationals ([Q]); Python [int]s by
      [Z].  Rounding ([round(x, n)]) is round-half-even on the exact value.
    - A tag cell holds a dynamically typed value: [Value] is the tagged union
      of the scalar types the program stores.
    - Every method of a class owning private state is a function in the
      state-and-exception monad [M X], where [X] is the private state of the
      object ([self]) and the shared [DataStore] travels next to it.  An
      uncaught Python exception ([TypeError] on [None < 1.0], ...) is the
      result [Raised]; the mutations made before it are kept, as in Python.
    - [time.time()] is an input: a method receives the instant [now] at which
      it runs.
    - [math.exp] is an input as well ([libm_exp]). *)

From Stdlib Require Import ZArith QArith Qround Qabs Qminmax Lqa Lia String List Bool DecimalString.
From stdpp Require Import base option gmap strings list fin_maps.

Local Open Scope string_scope.
Local Open Scope list_scope.
Local Open Scope Q_scope.

(** ** Rational helpers (Python float operations on exact values) *)

Definition Qlt_bool (x y : Q) : bool := negb (Qle_bool y x).
Definition Qgt_bool (x y : Q) : bool := Qlt_bool y x.
Definition Qge_bool (x y : Q) : bool := Qle_bool y x.

(** [round(x)] to an integer, ties to even. *)
Definition Qround_half_even (x : Q) : Z :=
  let f := Qfloor x in
  let r := x - inject_Z f in
  if Qlt_bool r (1 # 2) then f
  else if Qlt_bool (1 # 2) r then (f + 1)%Z
  else if Z.even f then f else (f + 1)%Z.

(** [round(x, n)] for a float [x] and [n >= 0] digits. *)
Definition py_round (x : Q) (n : nat) : Q :=
  let scale := inject_Z (10 ^ Z.of_nat n) in
  Qred (inject_Z (Qround_half_even (x * scale)) / scale).

(** [x % m] on floats, for [m > 0]. *)
Definition py_fmod (x m : Q) : Q := x - m * inject_Z (Qfloor (x / m)).

(** [int(x)]: truncation toward zero. *)
Definition py_int (x : Q) : Z :=
  if Qle_bool 0 x then Qfloor x else Qceiling x.

(** ** plc/core/data_store.py *)

Inductive Value : Type :=
| VBool (b : bool)
| VInt (z : Z)
| VFloat (q : Q)
| VStr (s : string).

(** Truth value of [ds.read(tag)] in a condition; [None] is falsy. *)
Definition truthy (v : option Value) : bool :=
  match v with
  | None => false
  | Some (VBool b) => b
  | Some (VInt z) => negb (z =? 0)%Z
  | Some (VFloat q) => negb (Qeq_bool q 0)
  | Some (VStr s) => negb (String.eqb s "")
  end.

(** The number a value stands for in arithmetic and ordering; [None] and
    strings raise [TypeError] there. *)
Definition as_num (v : option Value) : option Q :=
  match v with
  | Some (VBool b) => Some (if b then 1 else 0)
  | Some (VInt z) => Some (inject_Z z)
  | Some (VFloat q) => Some q
  | Some (VStr _) | None => None
  end.

(** Python [==] between two values read from the store. *)
Definition py_eq (a b : option Value) : bool :=
  match a, b with
  | None, None => true
  | Some (VStr s), Some (VStr t) => String.eqb s t
  | _, _ =>
      match as_num a, as_num b with
      | Some x, Some y => Qeq_bool x y
      | _, _ => false
      end
  end.

Inductive Quality : Type := GOOD | BAD | UNCERTAIN | STALE.

Record TagValue : Type := mkTagValue {
  value : Value;
  timestamp : Q;
  quality : Quality;
}.
Abbreviation DS_timestamp := timestamp.
Abbreviation DS_quality := quality.

(** [DataStore._tags]: a dict from tag names to cells. *)
Abbreviation DataStore := (gmap string TagValue).

Module DS.

Definition tv (v : Value) : TagValue := mkTagValue v 0 GOOD.

(** [DataStore._init_tags] *)
Definition init : DataStore :=
  list_to_map
    (((fun t => (t, tv (VBool false))) <$>
       ["DI_INLET_VLV_OPEN"; "DI_INLET_VLV_CLOSED"; "DI_STRAINER_HI_DP";
        "DI_PUMP_RUNNING"; "DI_PUMP_OVERLOAD"; "DI_DIVERT_SALES";
        "DI_DIVERT_DIVERT"; "DI_SAMPLE_POT_HI"; "DI_SAMPLE_POT_LO";
        "DI_PROVER_VLV_OPEN"; "DI_AIR_ELIM_FLOAT"; "DI_OUTLET_VLV_OPEN";
        "DI_ESTOP";
        "DO_PUMP_START"; "DO_DIVERT_CMD"; "DO_SAMPLE_SOL";
        "DO_SAMPLE_MIX_PUMP"; "DO_PROVER_VLV_CMD"; "DO_ALARM_BEACON";
        "DO_ALARM_HORN"; "DO_STATUS_GREEN"])
     ++ [("AI_INLET_PRESS", tv (VFloat 0)); ("AI_LOOP_HI_PRESS", tv (VFloat 0));
         ("AI_STRAINER_DP", tv (VFloat 0)); ("AI_BSW_PROBE", tv (VFloat 0));
         ("AI_METER_TEMP", tv (VFloat 60)); ("AI_TEST_THERMO", tv (VFloat 60));
         ("AI_OUTLET_PRESS", tv (VFloat 0));
         ("PI_METER_PULSE", tv (VInt 0));
         ("AO_BP_SALES_SP", tv (VFloat 50)); ("AO_BP_DIVERT_SP", tv (VFloat 50));
         ("FLOW_RATE_BPH", tv (VFloat 0)); ("FLOW_TOTAL_BBL", tv (VFloat 0));
         ("FLOW_NET_BBL", tv (VFloat 0)); ("BSW_PCT", tv (VFloat 0));
         ("TEMP_CORRECTED_F", tv (VFloat 60)); ("METER_FACTOR", tv (VFloat 1));
         ("CTL_FACTOR", tv (VFloat 1)); ("NET_VOLUME_BBL", tv (VFloat 0));
         ("SAMPLE_TOTAL_GRABS", tv (VInt 0)); ("SAMPLE_TOTAL_ML", tv (VFloat 0));
         ("BATCH_START_TIME", tv (VFloat 0)); ("BATCH_ELAPSED_SEC", tv (VFloat 0));
         ("BATCH_GROSS_BBL", tv (VFloat 0)); ("BATCH_NET_BBL", tv (VFloat 0));
         ("LACT_STATE", tv (VStr "IDLE")); ("PREV_STATE", tv (VStr "IDLE"));
         ("DIVERT_REASON", tv (VStr ""));
         ("ALARM_ACTIVE_COUNT", tv (VInt 0)); ("ALARM_UNACK_COUNT", tv (VInt 0));
         ("HIGHEST_ALARM_PRI", tv (VInt 0))]).

(** [DataStore.read] *)
Definition read (ds : DataStore) (tag : string) : option Value :=
  value <$> (ds !! tag).

(** [DataStore.read_with_quality] *)
Definition read_with_quality (ds : DataStore) (tag : string) : option TagValue :=
  ds !! tag.

(** [DataStore.write]: value, timestamp and quality are set together; an
    unknown tag is created. *)
Definition write (now : Q) (tag : string) (v : Value) (q : Quality)
    (ds : DataStore) : DataStore :=
  <[tag := mkTagValue v now q]> ds.

(** [DataStore.read_multiple]: the tags of the list that exist, with their
    values. *)
Definition read_multiple (ds : DataStore) (tags : list string)
    : gmap string Value :=
  foldl (fun acc t =>
           match ds !! t with
           | Some cell => <[t := value cell]> acc
           | None => acc
           end) empty tags.

(** [DataStore.write_multiple]; [values] lists the items of the dict in
    order. *)
Definition write_multiple (now : Q) (values : list (string * Value))
    (q : Quality) (ds : DataStore) : DataStore :=
  foldl (fun ds '(t, v) => write now t v q ds) ds values.

(** [DataStore.tag_exists] *)
Definition tag_exists (ds : DataStore) (tag : string) : bool :=
  bool_decide (is_Some (ds !! tag)).

End DS.

(** ** plc/config/setpoints.py *)

Record Setpoints : Type := mkSetpoints {
  bsw_divert_pct : Q;
  bsw_alarm_pct : Q;
  bsw_sample_delay_sec : Q;
  bsw_divert_delay_sec : Q;
  meter_k_factor : Q;
  meter_min_flow_bph : Q;
  meter_max_flow_bph : Q;
  meter_no_flow_timeout_sec : Q;
  temp_base_deg_f : Q;
  temp_lo_alarm_f : Q;
  temp_hi_alarm_f : Q;
  temp_max_delta_f : Q;
  inlet_press_lo_psi : Q;
  inlet_press_hi_psi : Q;
  loop_press_hi_psi : Q;
  outlet_press_lo_psi : Q;
  backpressure_sales_psi : Q;
  backpressure_divert_psi : Q;
  strainer_dp_hi_psi : Q;
  pump_start_delay_sec : Q;
  pump_stop_delay_sec : Q;
  pump_restart_lockout_sec : Q;
  pump_max_starts_per_hour : Z;
  sample_rate_sec : Q;
  sample_volume_ml : Q;
  sample_mix_time_sec : Q;
  sample_pot_full_gal : Q;
  prove_num_runs : Z;
  prove_repeatability_pct : Q;
  prove_meter_factor_min : Q;
  prove_meter_factor_max : Q;
  divert_travel_timeout_sec : Q;
  divert_confirm_delay_sec : Q;
  scan_rate_ms : Z;
  alarm_horn_silence_sec : Q;
  watchdog_timeout_sec : Q;
}.

(** The defaults of the dataclass. *)
Definition default_setpoints : Setpoints := {|
  bsw_divert_pct := 1;
  bsw_alarm_pct := 1 # 2;
  bsw_sample_delay_sec := 5;
  bsw_divert_delay_sec := 3;
  meter_k_factor := 100;
  meter_min_flow_bph := 30;
  meter_max_flow_bph := 750;
  meter_no_flow_timeout_sec := 60;
  temp_base_deg_f := 60;
  temp_lo_alarm_f := 20;
  temp_hi_alarm_f := 150;
  temp_max_delta_f := 2;
  inlet_press_lo_psi := 5;
  inlet_press_hi_psi := 250;
  loop_press_hi_psi := 250;
  outlet_press_lo_psi := 5;
  backpressure_sales_psi := 50;
  backpressure_divert_psi := 50;
  strainer_dp_hi_psi := 15;
  pump_start_delay_sec := 5;
  pump_stop_delay_sec := 3;
  pump_restart_lockout_sec := 30;
  pump_max_starts_per_hour := 6;
  sample_rate_sec := 15;
  sample_volume_ml := 5;
  sample_mix_time_sec := 30;
  sample_pot_full_gal := 15;
  prove_num_runs := 5;
  prove_repeatability_pct := 5 # 100;
  prove_meter_factor_min := 98 # 100;
  prove_meter_factor_max := 102 # 100;
  divert_travel_timeout_sec := 15;
  divert_confirm_delay_sec := 2;
  scan_rate_ms := 100;
  alarm_horn_silence_sec := 300;
  watchdog_timeout_sec := 5;
|}.


(** [Setpoints.update(key, value)] for the keys changed in this
    development. *)
Definition update_meter_k_factor v (s : Setpoints) : Setpoints :=
  mkSetpoints (bsw_divert_pct s) (bsw_alarm_pct s) (bsw_sample_delay_sec s)
    (bsw_divert_delay_sec s) v (meter_min_flow_bph s) (meter_max_flow_bph s)
    (meter_no_flow_timeout_sec s) (temp_base_deg_f s) (temp_lo_alarm_f s)
    (temp_hi_alarm_f s) (temp_max_delta_f s) (inlet_press_lo_psi s)
    (inlet_press_hi_psi s) (loop_press_hi_psi s) (outlet_press_lo_psi s)
    (backpressure_sales_psi s) (backpressure_divert_psi s) (strainer_dp_hi_psi
    s) (pump_start_delay_sec s) (pump_stop_delay_sec s)
    (pump_restart_lockout_sec s) (pump_max_starts_per_hour s) (sample_rate_sec
    s) (sample_volume_ml s) (sample_mix_time_sec s) (sample_pot_full_gal s)
    (prove_num_runs s) (prove_repeatability_pct s) (prove_meter_factor_min s)
    (prove_meter_factor_max s) (divert_travel_timeout_sec s)
    (divert_confirm_delay_sec s) (scan_rate_ms s) (alarm_horn_silence_sec s)
    (watchdog_timeout_sec s).

Definition update_pump_max_starts_per_hour v (s : Setpoints) : Setpoints :=
  mkSetpoints (bsw_divert_pct s) (bsw_alarm_pct s) (bsw_sample_delay_sec s)
    (bsw_divert_delay_sec s) (meter_k_factor s) (meter_min_flow_bph s)
    (meter_max_flow_bph s) (meter_no_flow_timeout_sec s) (temp_base_deg_f s)
    (temp_lo_alarm_f s) (temp_hi_alarm_f s) (temp_max_delta_f s)
    (inlet_press_lo_psi s) (inlet_press_hi_psi s) (loop_press_hi_psi s)
    (outlet_press_lo_psi s) (backpressure_sales_psi s)
    (backpressure_divert_psi s) (strainer_dp_hi_psi s) (pump_start_delay_sec
    s) (pump_stop_delay_sec s) (pump_restart_lockout_sec s) v (sample_rate_sec
    s) (sample_volume_ml s) (sample_mix_time_sec s) (sample_pot_full_gal s)
    (prove_num_runs s) (prove_repeatability_pct s) (prove_meter_factor_min s)
    (prove_meter_factor_max s) (divert_travel_timeout_sec s)
    (divert_confirm_delay_sec s) (scan_rate_ms s) (alarm_horn_silence_sec s)
    (watchdog_timeout_sec s).

Definition update_prove_meter_factor_min v (s : Setpoints) : Setpoints :=
  mkSetpoints (bsw_divert_pct s) (bsw_alarm_pct s) (bsw_sample_delay_sec s)
    (bsw_divert_delay_sec s) (meter_k_factor s) (meter_min_flow_bph s)
    (meter_max_flow_bph s) (meter_no_flow_timeout_sec s) (temp_base_deg_f s)
    (temp_lo_alarm_f s) (temp_hi_alarm_f s) (temp_max_delta_f s)
    (inlet_press_lo_psi s) (inlet_press_hi_psi s) (loop_press_hi_psi s)
    (outlet_press_lo_psi s) (backpressure_sales_psi s)
    (backpressure_divert_psi s) (strainer_dp_hi_psi s) (pump_start_delay_sec
    s) (pump_stop_delay_sec s) (pump_restart_lockout_sec s)
    (pump_max_starts_per_hour s) (sample_rate_sec s) (sample_volume_ml s)
    (sample_mix_time_sec s) (sample_pot_full_gal s) (prove_num_runs s)
    (prove_repeatability_pct s) v (prove_meter_factor_max s)
    (divert_travel_timeout_sec s) (divert_confirm_delay_sec s) (scan_rate_ms
    s) (alarm_horn_silence_sec s) (watchdog_timeout_sec s).

(** ** Methods: state of [self], the shared store, exceptions *)

Inductive Result (A : Type) : Type :=
| Ok (a : A)
| Raised.
Arguments Ok {A} a.
Arguments Raised {A}.

Record Ctx (X : Type) : Type := mkCtx {
  self : X;
  store : DataStore;
}.
Arguments mkCtx {X} self store.
Arguments self {X} c.
Arguments store {X} c.

Definition M (X A : Type) : Type := Ctx X -> Result A * Ctx X.

Definition ret {X A} (a : A) : M X A := fun c => (Ok a, c).

Definition bind {X A B} (m : M X A) (k : A -> M X B) : M X B :=
  fun c =>
    match m c with
    | (Ok a, c') => k a c'
    | (Raised, c') => (Raised, c')
    end.

Definition raise {X A} : M X A := fun c => (Raised, c).

Declare Scope method_scope.
Delimit Scope method_scope with method.
Notation "x <- c1 ;; c2" := (bind c1 (fun x => c2))
  (at level 100, c1 at next level, c2 at level 200, right associativity)
  : method_scope.
Notation "c1 ;; c2" := (bind c1 (fun _ => c2))
  (at level 100, c2 at level 200, right associativity) : method_scope.
Bind Scope method_scope with M.
Local Open Scope method_scope.

(** [self.field] and [self.field = v] *)
Definition gets {X A} (f : X -> A) : M X A := fun c => (Ok (f (self c)), c).
Definition modify {X} (f : X -> X) : M X unit :=
  fun c => (Ok tt, mkCtx (f (self c)) (store c)).

(** [self.ds.read(tag)], [self.ds.read_with_quality(tag)], [self.ds.write] *)
Definition ds_read {X} (tag : string) : M X (option Value) :=
  fun c => (Ok (DS.read (store c) tag), c).
Definition ds_read_with_quality {X} (tag : string) : M X (option TagValue) :=
  fun c => (Ok (DS.read_with_quality (store c) tag), c).
Definition ds_write_q {X} (now : Q) (tag : string) (v : Value) (q : Quality) : M X unit :=
  fun c => (Ok tt, mkCtx (self c) (DS.write now tag v q (store c))).
Definition ds_write {X} (now : Q) (tag : string) (v : Value) : M X unit :=
  ds_write_q now tag v GOOD.

(** Use of a value read from the store as a number. *)
Definition num {X} (v : option Value) : M X Q :=
  match as_num v with
  | Some q => ret q
  | None => raise
  end.

(** [v or d] followed by arithmetic on the result. *)
Definition num_or {X} (v : option Value) (d : Q) : M X Q :=
  if truthy v then num v else ret d.

(** ** plc/core/state_machine.py *)

Module state_machine.

Inductive LACTState : Type :=
| IDLE | STARTUP | RUNNING | DIVERT | PROVING | SHUTDOWN | E_STOP.

Definition LACTState_eqb (a b : LACTState) : bool :=
  match a, b with
  | IDLE, IDLE | STARTUP, STARTUP | RUNNING, RUNNING | DIVERT, DIVERT
  | PROVING, PROVING | SHUTDOWN, SHUTDOWN | E_STOP, E_STOP => true
  | _, _ => false
  end.

(** [LACTState.value] *)
Definition state_value (s : LACTState) : string :=
  match s with
  | IDLE => "IDLE" | STARTUP => "STARTUP" | RUNNING => "RUNNING"
  | DIVERT => "DIVERT" | PROVING => "PROVING" | SHUTDOWN => "SHUTDOWN"
  | E_STOP => "E_STOP"
  end.

(** Permitted transitions *)
Definition _TRANSITIONS (s : LACTState) : list LACTState :=
  match s with
  | IDLE => [STARTUP; E_STOP]
  | STARTUP => [RUNNING; IDLE; E_STOP]
  | RUNNING => [DIVERT; PROVING; SHUTDOWN; E_STOP]
  | DIVERT => [RUNNING; SHUTDOWN; E_STOP]
  | PROVING => [RUNNING; SHUTDOWN; E_STOP]
  | SHUTDOWN => [IDLE; E_STOP]
  | E_STOP => [IDLE]
  end.

(** What [_transition] hands to the logger. *)
Inductive LogRecord : Type :=
| LogIllegal (from to : LACTState)      (* logger.warning("Illegal transition ...") *)
| LogTransition (prev target : LACTState). (* logger.info("State transition: ...") *)

Record LACTStateMachine : Type := mkSM {
  state : LACTState;
  _state_entry_time : Q;
  _startup_step : Z;
  _shutdown_step : Z;
  _request_state : option LACTState;
  logged : list LogRecord;   (* records emitted so far, oldest first *)
}.

(** [LACTStateMachine.__init__] *)
Definition init (now : Q) : LACTStateMachine :=
  mkSM IDLE now 0 0 None [].

Definition set_state v (s : LACTStateMachine) :=
  mkSM v (_state_entry_time s) (_startup_step s) (_shutdown_step s) (_request_state s) (logged s).
Definition set_state_entry_time v (s : LACTStateMachine) :=
  mkSM (state s) v (_startup_step s) (_shutdown_step s) (_request_state s) (logged s).
Definition set_startup_step v (s : LACTStateMachine) :=
  mkSM (state s) (_state_entry_time s) v (_shutdown_step s) (_request_state s) (logged s).
Definition set_shutdown_step v (s : LACTStateMachine) :=
  mkSM (state s) (_state_entry_time s) (_startup_step s) v (_request_state s) (logged s).
Definition set_request_state v (s : LACTStateMachine) :=
  mkSM (state s) (_state_entry_time s) (_startup_step s) (_shutdown_step s) v (logged s).
Definition log (r : LogRecord) (s : LACTStateMachine) :=
  mkSM (state s) (_state_entry_time s) (_startup_step s) (_shutdown_step s)
       (_request_state s) (logged s ++ [r]).

Definition time_in_state (now : Q) (s : LACTStateMachine) : Q :=
  now - _state_entry_time s.

(** [request_transition] *)
Definition request_transition (target : LACTState) (s : LACTStateMachine)
    : LACTStateMachine :=
  set_request_state (Some target) s.

(** [_transition] *)
Definition _transition (now : Q) (target : LACTState) : M LACTStateMachine bool :=
  cur <- gets state ;;
  if negb (existsb (LACTState_eqb target) (_TRANSITIONS cur)) then
    modify (log (LogIllegal cur target)) ;;
    ret false
  else
    modify (log (LogTransition cur target)) ;;
    ds_write now "PREV_STATE" (VStr (state_value cur)) ;;
    modify (set_state target) ;;
    modify (set_state_entry_time now) ;;
    modify (set_startup_step 0%Z) ;;
    modify (set_shutdown_step 0%Z) ;;
    ds_write now "LACT_STATE" (VStr (state_value target)) ;;
    ret true.

(** *** State handlers *)

Definition _handle_idle (now : Q) : M LACTStateMachine unit :=
  ds_write now "DO_PUMP_START" (VBool false) ;;
  ds_write now "DO_SAMPLE_SOL" (VBool false) ;;
  ds_write now "DO_SAMPLE_MIX_PUMP" (VBool false) ;;
  ds_write now "DO_STATUS_GREEN" (VBool false).

Definition _handle_startup (sp : Setpoints) (now : Q) : M LACTStateMachine unit :=
  step <- gets _startup_step ;;
  if (step =? 0)%Z then
    inlet_open <- ds_read "DI_INLET_VLV_OPEN" ;;
    outlet_open <- ds_read "DI_OUTLET_VLV_OPEN" ;;
    if negb (truthy inlet_open) || negb (truthy outlet_open) then
      _transition now IDLE ;; ret tt
    else modify (set_startup_step 1%Z)
  else if (step =? 1)%Z then
    ds_write now "DO_DIVERT_CMD" (VBool true) ;;
    modify (set_startup_step 2%Z)
  else if (step =? 2)%Z then
    at_divert <- ds_read "DI_DIVERT_DIVERT" ;;
    if truthy at_divert then modify (set_startup_step 3%Z)
    else
      t <- gets (time_in_state now) ;;
      if Qgt_bool t (divert_travel_timeout_sec sp) then
        _transition now IDLE ;; ret tt
      else ret tt
  else if (step =? 3)%Z then
    t <- gets (time_in_state now) ;;
    if Qgt_bool t (pump_start_delay_sec sp) then
      ds_write now "DO_PUMP_START" (VBool true) ;;
      modify (set_startup_step 4%Z)
    else ret tt
  else if (step =? 4)%Z then
    running <- ds_read "DI_PUMP_RUNNING" ;;
    if truthy running then modify (set_startup_step 5%Z)
    else
      t <- gets (time_in_state now) ;;
      if Qgt_bool t (pump_start_delay_sec sp + 10) then
        ds_write now "DO_PUMP_START" (VBool false) ;;
        _transition now IDLE ;; ret tt
      else ret tt
  else if (step =? 5)%Z then
    t <- gets (time_in_state now) ;;
    if Qgt_bool t (pump_start_delay_sec sp + bsw_sample_delay_sec sp + 10) then
      v <- ds_read "AI_BSW_PROBE" ;;
      bsw <- num v ;;
      if Qlt_bool bsw (bsw_divert_pct sp) then
        ds_write now "DO_DIVERT_CMD" (VBool false) ;;
        ds_write now "DO_STATUS_GREEN" (VBool true) ;;
        ds_write now "BATCH_START_TIME" (VFloat now) ;;
        _transition now RUNNING ;; ret tt
      else
        _transition now DIVERT ;; ret tt
    else ret tt
  else ret tt.

Definition _handle_running (now : Q) : M LACTStateMachine unit :=
  ds_write now "DO_STATUS_GREEN" (VBool true) ;;
  batch_start <- ds_read "BATCH_START_TIME" ;;
  if truthy batch_start then
    b <- num batch_start ;;
    ds_write now "BATCH_ELAPSED_SEC" (VFloat (now - b))
  else ret tt.

Definition _handle_divert (sp : Setpoints) (now : Q) : M LACTStateMachine unit :=
  ds_write now "DO_DIVERT_CMD" (VBool true) ;;
  ds_write now "DO_STATUS_GREEN" (VBool false) ;;
  v <- ds_read "AI_BSW_PROBE" ;;
  bsw <- num v ;;
  if Qlt_bool bsw (bsw_divert_pct sp) then
    t <- gets (time_in_state now) ;;
    if Qgt_bool t (bsw_divert_delay_sec sp) then
      ds_write now "DO_DIVERT_CMD" (VBool false) ;;
      _transition now RUNNING ;; ret tt
    else ret tt
  else ret tt.

Definition _handle_proving (now : Q) : M LACTStateMachine unit :=
  ds_write now "DO_STATUS_GREEN" (VBool true).

Definition _handle_shutdown (sp : Setpoints) (now : Q) : M LACTStateMachine unit :=
  step <- gets _shutdown_step ;;
  if (step =? 0)%Z then
    ds_write now "DO_DIVERT_CMD" (VBool true) ;;
    ds_write now "DO_SAMPLE_SOL" (VBool false) ;;
    ds_write now "DO_SAMPLE_MIX_PUMP" (VBool false) ;;
    modify (set_shutdown_step 1%Z)
  else if (step =? 1)%Z then
    t <- gets (time_in_state now) ;;
    if Qgt_bool t (pump_stop_delay_sec sp) then
      ds_write now "DO_PUMP_START" (VBool false) ;;
      modify (set_shutdown_step 2%Z)
    else ret tt
  else if (step =? 2)%Z then
    running <- ds_read "DI_PUMP_RUNNING" ;;
    if negb (truthy running) then
      ds_write now "DO_STATUS_GREEN" (VBool false) ;;
      _transition now IDLE ;; ret tt
    else
      t <- gets (time_in_state now) ;;
      if Qgt_bool t (pump_stop_delay_sec sp + 15) then
        ds_write now "DO_STATUS_GREEN" (VBool false) ;;
        _transition now IDLE ;; ret tt
      else ret tt
  else ret tt.

Definition _handle_estop (now : Q) : M LACTStateMachine unit :=
  ds_write now "DO_PUMP_START" (VBool false) ;;
  ds_write now "DO_DIVERT_CMD" (VBool true) ;;
  ds_write now "DO_SAMPLE_SOL" (VBool false) ;;
  ds_write now "DO_SAMPLE_MIX_PUMP" (VBool false) ;;
  ds_write now "DO_PROVER_VLV_CMD" (VBool false) ;;
  ds_write now "DO_STATUS_GREEN" (VBool false) ;;
  ds_write now "DO_ALARM_BEACON" (VBool true) ;;
  ds_write now "DO_ALARM_HORN" (VBool true) ;;
  estop <- ds_read "DI_ESTOP" ;;
  if negb (truthy estop) then
    t <- gets (time_in_state now) ;;
    if Qgt_bool t 2 then
      _transition now IDLE ;; ret tt
    else ret tt
  else ret tt.

(** The dispatch table of [execute]. *)
Definition handler (sp : Setpoints) (now : Q) (s : LACTState)
    : M LACTStateMachine unit :=
  match s with
  | IDLE => _handle_idle now
  | STARTUP => _handle_startup sp now
  | RUNNING => _handle_running now
  | DIVERT => _handle_divert sp now
  | PROVING => _handle_proving now
  | SHUTDOWN => _handle_shutdown sp now
  | E_STOP => _handle_estop now
  end.

(** [execute]: one scan of the state machine. *)
Definition execute (sp : Setpoints) (now : Q) : M LACTStateMachine unit :=
  req <- gets _request_state ;;
  transitioned <-
    match req with
    | Some target =>
        r <- _transition now target ;;
        modify (set_request_state None) ;;
        ret r
    | None => ret false
    end ;;
  estop <- ds_read "DI_ESTOP" ;;
  cur <- gets state ;;
  transitioned <-
    (if truthy estop && negb (LACTState_eqb cur E_STOP)
     then _transition now E_STOP
     else ret transitioned) ;;
  if transitioned : bool then ret tt
  else
    cur <- gets state ;;
    handler sp now cur.

End state_machine.

(** ** plc/config/alarms.py *)

Module alarms.

Inductive AlarmPriority : Type := INFO | LOW | MEDIUM | HIGH | CRITICAL.

Definition priority_value (p : AlarmPriority) : Z :=
  match p with INFO => 0 | LOW => 1 | MEDIUM => 2 | HIGH => 3 | CRITICAL => 4 end.

Inductive AlarmAction : Type :=
| LOG_ONLY | ANNUNCIATE | DIVERT | SHUTDOWN | EMERGENCY_STOP.

Definition action_value (a : AlarmAction) : Z :=
  match a with
  | LOG_ONLY => 0 | ANNUNCIATE => 1 | DIVERT => 2 | SHUTDOWN => 3
  | EMERGENCY_STOP => 4
  end.

Record AlarmDefinition : Type := mkAlarmDefinition {
  tag : string;
  description : string;
  priority : AlarmPriority;
  action : AlarmAction;
  auto_acknowledge : bool;
  latching : bool;
}.

(** A definition written with the dataclass defaults
    ([auto_acknowledge=False], [latching=True]). *)
Definition defn (t d : string) (p : AlarmPriority) (a : AlarmAction) :=
  mkAlarmDefinition t d p a false true.

Record AlarmState : Type := mkAlarmState {
  definition : AlarmDefinition;
  active : bool;
  acknowledged : bool;
  timestamp : Q;
  value : Q;
}.

(** [AlarmState(definition=defn)] *)
Definition new_state (d : AlarmDefinition) : AlarmState :=
  mkAlarmState d false false 0 0.

(** [AlarmState.activate] *)
Definition activate (now : Q) (v : Q) (s : AlarmState) : AlarmState :=
  if negb (active s) then mkAlarmState (definition s) true false now v
  else s.

(** [AlarmState.deactivate] *)
Definition deactivate (s : AlarmState) : AlarmState :=
  if negb (latching (definition s)) || acknowledged s then
    mkAlarmState (definition s) false false (timestamp s) (value s)
  else s.

(** [AlarmState.acknowledge] *)
Definition acknowledge (s : AlarmState) : AlarmState :=
  let s1 := mkAlarmState (definition s) (active s) true (timestamp s) (value s) in
  if negb (active s1) || negb (latching (definition s1)) then
    mkAlarmState (definition s1) false (acknowledged s1) (timestamp s1) (value s1)
  else s1.

(** [s.active and not s.acknowledged], the test of
    [get_unacknowledged_alarms]. *)
Definition is_unacknowledged (s : AlarmState) : bool :=
  active s && negb (acknowledged s).

(** [AlarmConfig.definitions], the default table. *)
Definition default_definitions : gmap string AlarmDefinition :=
  list_to_map ((fun d => (tag d, d)) <$>
    [ defn "ALM_ESTOP" "Emergency stop activated" CRITICAL EMERGENCY_STOP;
      defn "ALM_PUMP_OVERLOAD" "Transfer pump motor overload trip" CRITICAL SHUTDOWN;
      defn "ALM_PUMP_FAIL_START" "Pump failed to start (no run feedback)" HIGH SHUTDOWN;
      defn "ALM_PUMP_MAX_STARTS" "Pump exceeded maximum starts per hour" HIGH ANNUNCIATE;
      defn "ALM_BSW_HIGH" "BS&W high alarm (approaching divert)" MEDIUM ANNUNCIATE;
      defn "ALM_BSW_DIVERT" "BS&W exceeded divert setpoint" HIGH DIVERT;
      defn "ALM_BSW_PROBE_FAIL" "BS&W probe signal out of range (4528-5 detector)" HIGH DIVERT;
      defn "ALM_INLET_PRESS_LO" "Inlet pressure low (loss of feed)" HIGH SHUTDOWN;
      defn "ALM_INLET_PRESS_HI" "Inlet pressure high" HIGH SHUTDOWN;
      defn "ALM_LOOP_PRESS_HI" "Loop high-point pressure high" HIGH SHUTDOWN;
      defn "ALM_OUTLET_PRESS_LO" "Outlet pressure low" MEDIUM ANNUNCIATE;
      defn "ALM_STRAINER_DP_HI" "Strainer differential pressure high (plugged screen)" MEDIUM ANNUNCIATE;
      defn "ALM_TEMP_LO" "Process temperature low" MEDIUM ANNUNCIATE;
      defn "ALM_TEMP_HI" "Process temperature high" MEDIUM ANNUNCIATE;
      defn "ALM_TEMP_DELTA" "TA probe / test thermowell delta exceeded" LOW ANNUNCIATE;
      defn "ALM_FLOW_LO" "Flow rate below minimum (Smith E3-S1)" MEDIUM ANNUNCIATE;
      defn "ALM_FLOW_HI" "Flow rate above maximum (Smith E3-S1)" HIGH ANNUNCIATE;
      defn "ALM_NO_FLOW" "No flow detected with pump running" HIGH SHUTDOWN;
      defn "ALM_DIVERT_FAIL" "Divert valve failed to travel within timeout" CRITICAL SHUTDOWN;
      defn "ALM_SAMPLE_POT_FULL" "Sample receiver pot full (15/20 gal)" LOW ANNUNCIATE;
      defn "ALM_GAS_DETECTED" "Air eliminator float switch - gas in liquid" MEDIUM ANNUNCIATE;
      defn "ALM_PROVE_REPEAT_FAIL" "Proving runs failed repeatability check" LOW ANNUNCIATE;
      defn "ALM_PROVE_MF_RANGE" "Meter factor outside acceptable range" MEDIUM ANNUNCIATE ]).

End alarms.

(** ** plc/core/safety.py *)

Module safety.
Import alarms.

Record SafetyManager : Type := mkSafety {
  alarm_states : gmap string AlarmState;
  _horn_silence_time : option Q;
  _shutdown_requested : bool;
  _divert_requested : bool;
}.

(** [SafetyManager.__init__] *)
Definition init (definitions : gmap string AlarmDefinition) : SafetyManager :=
  mkSafety (new_state <$> definitions) None false false.

Definition set_alarm_states v (s : SafetyManager) :=
  mkSafety v (_horn_silence_time s) (_shutdown_requested s) (_divert_requested s).
Definition set_horn_silence_time v (s : SafetyManager) :=
  mkSafety (alarm_states s) v (_shutdown_requested s) (_divert_requested s).
Definition set_shutdown_requested v (s : SafetyManager) :=
  mkSafety (alarm_states s) (_horn_silence_time s) v (_divert_requested s).
Definition set_divert_requested v (s : SafetyManager) :=
  mkSafety (alarm_states s) (_horn_silence_time s) (_shutdown_requested s) v.

Definition shutdown_requested := _shutdown_requested.
Definition divert_requested := _divert_requested.

(** [get_active_alarms] and [get_unacknowledged_alarms] *)
Definition get_active_alarms (s : SafetyManager) : list AlarmState :=
  filter (fun a => active a = true) (snd <$> map_to_list (alarm_states s)).
Definition get_unacknowledged_alarms (s : SafetyManager) : list AlarmState :=
  filter (fun a => is_unacknowledged a = true)
         (snd <$> map_to_list (alarm_states s)).

(** [acknowledge_alarm] *)
Definition acknowledge_alarm (t : string) (s : SafetyManager)
    : bool * SafetyManager :=
  match alarm_states s !! t with
  | Some st =>
      if active st
      then (true, set_alarm_states (<[t := acknowledge st]> (alarm_states s)) s)
      else (false, s)
  | None => (false, s)
  end.

(** [acknowledge_all] *)
Definition acknowledge_all (s : SafetyManager) : SafetyManager :=
  set_alarm_states
    ((fun st => if active st then acknowledge st else st) <$> alarm_states s) s.

(** [silence_horn] *)
Definition silence_horn (now : Q) (s : SafetyManager) : SafetyManager :=
  set_horn_silence_time (Some now) s.

(** [_activate] *)
Definition _activate (now : Q) (t : string) (v : Q) : M SafetyManager unit :=
  states <- gets alarm_states ;;
  match states !! t with
  | None => ret tt
  | Some st =>
      modify (set_alarm_states (<[t := activate now v st]> states)) ;;
      match action (definition st) with
      | SHUTDOWN | EMERGENCY_STOP => modify (set_shutdown_requested true)
      | DIVERT => modify (set_divert_requested true)
      | _ => ret tt
      end
  end.

(** [_deactivate] *)
Definition _deactivate (t : string) : M SafetyManager unit :=
  states <- gets alarm_states ;;
  match states !! t with
  | None => ret tt
  | Some st => modify (set_alarm_states (<[t := deactivate st]> states))
  end.

Definition _check_estop (now : Q) : M SafetyManager unit :=
  estop <- ds_read "DI_ESTOP" ;;
  if truthy estop then _activate now "ALM_ESTOP" 0
  else _deactivate "ALM_ESTOP".

Definition _check_pump (now : Q) : M SafetyManager unit :=
  overload <- ds_read "DI_PUMP_OVERLOAD" ;;
  (if truthy overload then _activate now "ALM_PUMP_OVERLOAD" 0
   else _deactivate "ALM_PUMP_OVERLOAD") ;;
  pump_cmd <- ds_read "DO_PUMP_START" ;;
  pump_run <- ds_read "DI_PUMP_RUNNING" ;;
  if truthy pump_cmd && negb (truthy pump_run) then
    cmd_tag <- ds_read_with_quality "DO_PUMP_START" ;;
    match cmd_tag with
    | Some tvl =>
        if Qgt_bool (now - DS_timestamp tvl) 10
        then _activate now "ALM_PUMP_FAIL_START" 0
        else ret tt
    | None => ret tt
    end
  else _deactivate "ALM_PUMP_FAIL_START".

Definition _check_bsw (sp : Setpoints) (now : Q) : M SafetyManager unit :=
  v <- ds_read "AI_BSW_PROBE" ;;
  bsw_quality <- ds_read_with_quality "AI_BSW_PROBE" ;;
  (match bsw_quality with
   | Some (mkTagValue _ _ BAD) => _activate now "ALM_BSW_PROBE_FAIL" 0
   | _ => _deactivate "ALM_BSW_PROBE_FAIL"
   end) ;;
  bsw <- num v ;;
  (if Qge_bool bsw (bsw_alarm_pct sp) then _activate now "ALM_BSW_HIGH" bsw
   else _deactivate "ALM_BSW_HIGH") ;;
  if Qge_bool bsw (bsw_divert_pct sp) then
    _activate now "ALM_BSW_DIVERT" bsw ;;
    modify (set_divert_requested true)
  else _deactivate "ALM_BSW_DIVERT".

Definition _check_pressures (sp : Setpoints) (now : Q) : M SafetyManager unit :=
  inlet_v <- ds_read "AI_INLET_PRESS" ;;
  loop_v <- ds_read "AI_LOOP_HI_PRESS" ;;
  outlet_v <- ds_read "AI_OUTLET_PRESS" ;;
  strainer_v <- ds_read "AI_STRAINER_DP" ;;
  pump_running <- ds_read "DI_PUMP_RUNNING" ;;
  (if truthy pump_running then
     inlet_p <- num inlet_v ;;
     if Qlt_bool inlet_p (inlet_press_lo_psi sp)
     then _activate now "ALM_INLET_PRESS_LO" inlet_p
     else _deactivate "ALM_INLET_PRESS_LO"
   else ret tt) ;;
  inlet_p <- num inlet_v ;;
  (if Qgt_bool inlet_p (inlet_press_hi_psi sp)
   then _activate now "ALM_INLET_PRESS_HI" inlet_p
   else _deactivate "ALM_INLET_PRESS_HI") ;;
  loop_p <- num loop_v ;;
  (if Qgt_bool loop_p (loop_press_hi_psi sp)
   then _activate now "ALM_LOOP_PRESS_HI" loop_p
   else _deactivate "ALM_LOOP_PRESS_HI") ;;
  (if truthy pump_running then
     outlet_p <- num outlet_v ;;
     if Qlt_bool outlet_p (outlet_press_lo_psi sp)
     then _activate now "ALM_OUTLET_PRESS_LO" outlet_p
     else _deactivate "ALM_OUTLET_PRESS_LO"
   else ret tt) ;;
  strainer_dp <- num strainer_v ;;
  if Qgt_bool strainer_dp (strainer_dp_hi_psi sp)
  then _activate now "ALM_STRAINER_DP_HI" strainer_dp
  else _deactivate "ALM_STRAINER_DP_HI".

Definition _check_temperatures (sp : Setpoints) (now : Q) : M SafetyManager unit :=
  meter_v <- ds_read "AI_METER_TEMP" ;;
  test_v <- ds_read "AI_TEST_THERMO" ;;
  meter_temp <- num meter_v ;;
  (if Qlt_bool meter_temp (temp_lo_alarm_f sp)
   then _activate now "ALM_TEMP_LO" meter_temp
   else _deactivate "ALM_TEMP_LO") ;;
  (if Qgt_bool meter_temp (temp_hi_alarm_f sp)
   then _activate now "ALM_TEMP_HI" meter_temp
   else _deactivate "ALM_TEMP_HI") ;;
  test_temp <- num test_v ;;
  let delta := Qabs (meter_temp - test_temp) in
  if Qgt_bool delta (temp_max_delta_f sp)
  then _activate now "ALM_TEMP_DELTA" delta
  else _deactivate "ALM_TEMP_DELTA".

Definition _check_flow (sp : Setpoints) (now : Q) : M SafetyManager unit :=
  flow_v <- ds_read "FLOW_RATE_BPH" ;;
  pump_running <- ds_read "DI_PUMP_RUNNING" ;;
  if negb (truthy pump_running) then
    _deactivate "ALM_FLOW_LO" ;;
    _deactivate "ALM_FLOW_HI" ;;
    _deactivate "ALM_NO_FLOW"
  else
    flow_rate <- num flow_v ;;
    (if Qlt_bool flow_rate (meter_min_flow_bph sp) && Qgt_bool flow_rate 0
     then _activate now "ALM_FLOW_LO" flow_rate
     else _deactivate "ALM_FLOW_LO") ;;
    (if Qgt_bool flow_rate (meter_max_flow_bph sp)
     then _activate now "ALM_FLOW_HI" flow_rate
     else _deactivate "ALM_FLOW_HI") ;;
    if Qeq_bool flow_rate 0 && truthy pump_running then
      pump_tag <- ds_read_with_quality "DI_PUMP_RUNNING" ;;
      match pump_tag with
      | Some tvl =>
          if Qgt_bool (now - DS_timestamp tvl) (meter_no_flow_timeout_sec sp)
          then _activate now "ALM_NO_FLOW" 0
          else ret tt
      | None => ret tt
      end
    else _deactivate "ALM_NO_FLOW".

Definition _check_divert_valve (sp : Setpoints) (now : Q) : M SafetyManager unit :=
  cmd <- ds_read "DO_DIVERT_CMD" ;;
  at_sales <- ds_read "DI_DIVERT_SALES" ;;
  at_divert <- ds_read "DI_DIVERT_DIVERT" ;;
  cmd_tag <- ds_read_with_quality "DO_DIVERT_CMD" ;;
  match cmd_tag with
  | Some tvl =>
      if Qgt_bool (DS_timestamp tvl) 0 then
        let elapsed := now - DS_timestamp tvl in
        if truthy cmd && negb (truthy at_divert)
           && Qgt_bool elapsed (divert_travel_timeout_sec sp)
        then _activate now "ALM_DIVERT_FAIL" 0
        else if negb (truthy cmd) && negb (truthy at_sales)
                && Qgt_bool elapsed (divert_travel_timeout_sec sp)
        then _activate now "ALM_DIVERT_FAIL" 0
        else _deactivate "ALM_DIVERT_FAIL"
      else _deactivate "ALM_DIVERT_FAIL"
  | None => _deactivate "ALM_DIVERT_FAIL"
  end.

Definition _check_sampler (now : Q) : M SafetyManager unit :=
  pot_hi <- ds_read "DI_SAMPLE_POT_HI" ;;
  if truthy pot_hi then _activate now "ALM_SAMPLE_POT_FULL" 0
  else _deactivate "ALM_SAMPLE_POT_FULL".

Definition _check_air_eliminator (now : Q) : M SafetyManager unit :=
  float_sw <- ds_read "DI_AIR_ELIM_FLOAT" ;;
  if truthy float_sw then _activate now "ALM_GAS_DETECTED" 0
  else _deactivate "ALM_GAS_DETECTED".

Definition _update_alarm_summary (now : Q) : M SafetyManager unit :=
  act <- gets get_active_alarms ;;
  unack <- gets get_unacknowledged_alarms ;;
  let highest :=
    fold_right Z.max (priority_value INFO)
               ((fun a => priority_value (priority (definition a))) <$> act) in
  ds_write now "ALARM_ACTIVE_COUNT" (VInt (Z.of_nat (length act))) ;;
  ds_write now "ALARM_UNACK_COUNT" (VInt (Z.of_nat (length unack))) ;;
  ds_write now "HIGHEST_ALARM_PRI" (VInt highest).

Definition _drive_annunciators (now : Q) : M SafetyManager unit :=
  unack <- gets get_unacknowledged_alarms ;;
  let has_annunciate :=
    existsb (fun a => (action_value ANNUNCIATE <=? action_value (action (definition a)))%Z)
            unack in
  ds_write now "DO_ALARM_BEACON" (VBool has_annunciate) ;;
  silence <- gets _horn_silence_time ;;
  horn_on <-
    match silence with
    | Some t =>
        if negb (Qeq_bool t 0) then
          let newest := fold_right Qmax 0 (timestamp <$> unack) in
          if Qgt_bool newest t then
            modify (set_horn_silence_time None) ;;
            ret has_annunciate
          else ret false
        else ret has_annunciate
    | None => ret has_annunciate
    end ;;
  ds_write now "DO_ALARM_HORN" (VBool horn_on).

(** [SafetyManager.execute] *)
Definition execute (sp : Setpoints) (now : Q) : M SafetyManager unit :=
  modify (set_shutdown_requested false) ;;
  modify (set_divert_requested false) ;;
  _check_estop now ;;
  _check_pump now ;;
  _check_bsw sp now ;;
  _check_pressures sp now ;;
  _check_temperatures sp now ;;
  _check_flow sp now ;;
  _check_divert_valve sp now ;;
  _check_sampler now ;;
  _check_air_eliminator now ;;
  _update_alarm_summary now ;;
  _drive_annunciators now.

End safety.

(** ** plc/modules/pump_control.py *)

Module pump_control.

Record PumpControl : Type := mkPump {
  _start_times : list Q;      (* deque(maxlen=20), oldest first *)
  _last_trip_time : Q;
  _locked_out : bool;
}.

Definition maxlen : nat := 20.

Definition init : PumpControl := mkPump [] 0 false.

Definition set_start_times v (p : PumpControl) :=
  mkPump v (_last_trip_time p) (_locked_out p).
Definition set_last_trip_time v (p : PumpControl) :=
  mkPump (_start_times p) v (_locked_out p).
Definition set_locked_out v (p : PumpControl) :=
  mkPump (_start_times p) (_last_trip_time p) v.

(** [deque.append] on a bounded deque: a full deque drops its oldest
    element. *)
Definition deque_append (x : Q) (d : list Q) : list Q :=
  let d' := d ++ [x] in
  if (maxlen <? length d')%nat then drop (length d' - maxlen) d' else d'.

(** [sum(1 for t in self._start_times if t > one_hour_ago)] *)
Definition count_recent (one_hour_ago : Q) (d : list Q) : Z :=
  Z.of_nat (length (List.filter (fun t => Qgt_bool t one_hour_ago) d)).

(** [PumpControl.execute] *)
Definition execute (sp : Setpoints) (now : Q) : M PumpControl unit :=
  pump_cmd <- ds_read "DO_PUMP_START" ;;
  pump_run <- ds_read "DI_PUMP_RUNNING" ;;
  pump_overload <- ds_read "DI_PUMP_OVERLOAD" ;;
  (if truthy pump_overload && truthy pump_cmd then
     modify (set_last_trip_time now) ;;
     modify (set_locked_out true) ;;
     ds_write now "DO_PUMP_START" (VBool false)
   else ret tt) ;;
  locked <- gets _locked_out ;;
  if locked : bool then
    trip <- gets _last_trip_time ;;
    if Qlt_bool (now - trip) (pump_restart_lockout_sec sp) then
      ds_write now "DO_PUMP_START" (VBool false)
    else modify (set_locked_out false)
  else ret tt.

(** [PumpControl.record_start] *)
Definition record_start (sp : Setpoints) (now : Q) (p : PumpControl)
    : bool * PumpControl :=
  let p1 := set_start_times (deque_append now (_start_times p)) p in
  let one_hour_ago := now - 3600 in
  let recent_starts := count_recent one_hour_ago (_start_times p1) in
  if (pump_max_starts_per_hour sp <=? recent_starts)%Z
  then (false, set_locked_out true p1)
  else (true, p1).

Definition is_locked_out := _locked_out.

Definition starts_this_hour (now : Q) (p : PumpControl) : Z :=
  count_recent (now - 3600) (_start_times p).

End pump_control.

(** ** plc/modules/temperature.py *)

Module temperature.

(** [TemperatureMonitor._compute_ctl]; [libm_exp] stands for [math.exp]. *)
Definition _compute_ctl (libm_exp : Q -> Q) (sp : Setpoints)
    (observed_temp_f : Q) : Q :=
  let base_temp := temp_base_deg_f sp in
  let dt := observed_temp_f - base_temp in
  if Qlt_bool (Qabs dt) (1 # 100) then 1
  else
    let alpha_60 := 46 # 100000 in
    let ctl := libm_exp (- alpha_60 * dt * (1 + (8 # 10) * alpha_60 * dt)) in
    Qmax (9 # 10) (Qmin (11 # 10) ctl).

(** [TemperatureMonitor.execute]; the object has no state of its own. *)
Definition execute (libm_exp : Q -> Q) (sp : Setpoints) (now : Q) : M unit unit :=
  meter_v <- ds_read "AI_METER_TEMP" ;;
  test_v <- ds_read "AI_TEST_THERMO" ;;
  process_temp <- num meter_v ;;
  let ctl := _compute_ctl libm_exp sp process_temp in
  ds_write now "CTL_FACTOR" (VFloat (py_round ctl 6)) ;;
  ds_write now "TEMP_CORRECTED_F" (VFloat (py_round process_temp 1)).

End temperature.

(** ** plc/modules/pressure_monitor.py *)

Module pressure_monitor.

Definition execute (sp : Setpoints) (now : Q) : M unit unit :=
  ds_write now "AO_BP_SALES_SP" (VFloat (backpressure_sales_psi sp)) ;;
  ds_write now "AO_BP_DIVERT_SP" (VFloat (backpressure_divert_psi sp)).

End pressure_monitor.

(** ** plc/modules/flow_measurement.py *)

Module flow_measurement.

Record FlowMeasurement : Type := mkFlow {
  _last_pulse_count : Q;
  _last_pulse_time : Q;
  _flow_rate_bph : Q;
  _gross_total_bbl : Q;
}.

Definition init (now : Q) : FlowMeasurement := mkFlow 0 now 0 0.

Definition set_last_pulse_count v (f : FlowMeasurement) :=
  mkFlow v (_last_pulse_time f) (_flow_rate_bph f) (_gross_total_bbl f).
Definition set_last_pulse_time v (f : FlowMeasurement) :=
  mkFlow (_last_pulse_count f) v (_flow_rate_bph f) (_gross_total_bbl f).
Definition set_flow_rate_bph v (f : FlowMeasurement) :=
  mkFlow (_last_pulse_count f) (_last_pulse_time f) v (_gross_total_bbl f).
Definition set_gross_total_bbl v (f : FlowMeasurement) :=
  mkFlow (_last_pulse_count f) (_last_pulse_time f) (_flow_rate_bph f) v.

(** The pulse delta of a scan: a negative difference is a counter
    rollover, and the current count is used. *)
Definition delta_pulses_of (current_pulses last_pulse_count : Q) : Q :=
  let d := current_pulses - last_pulse_count in
  if Qlt_bool d 0 then current_pulses else d.

(** The gross volume increment of a scan. *)
Definition delta_bbl_of (k_factor delta_pulses : Q) : Q :=
  if Qgt_bool k_factor 0 then delta_pulses / k_factor else 0.

(** [FlowMeasurement.execute] *)
Definition execute (sp : Setpoints) (now : Q) : M FlowMeasurement unit :=
  pulses_v <- ds_read "PI_METER_PULSE" ;;
  current_pulses <- num pulses_v ;;
  last_count <- gets _last_pulse_count ;;
  last_time <- gets _last_pulse_time ;;
  let delta_pulses := delta_pulses_of current_pulses last_count in
  let delta_time :=
    (if Qle_bool (now - last_time) 0
     then inject_Z (scan_rate_ms sp) / 1000
     else now - last_time) in
  let delta_bbl := delta_bbl_of (meter_k_factor sp) delta_pulses in
  (if Qgt_bool delta_time 0 && Qgt_bool delta_pulses 0 then
     modify (set_flow_rate_bph (delta_bbl / delta_time * 3600))
   else if Qgt_bool delta_time 2 then
     modify (set_flow_rate_bph 0)
   else ret tt) ;;
  gross0 <- gets _gross_total_bbl ;;
  modify (set_gross_total_bbl (gross0 + delta_bbl)) ;;
  gross <- gets _gross_total_bbl ;;
  mf_v <- ds_read "METER_FACTOR" ;;
  meter_factor <- num_or mf_v 1 ;;
  let corrected_gross := gross * meter_factor in
  ctl_v <- ds_read "CTL_FACTOR" ;;
  ctl <- num_or ctl_v 1 ;;
  let net_bbl := corrected_gross * ctl in
  rate <- gets _flow_rate_bph ;;
  ds_write now "FLOW_RATE_BPH" (VFloat (py_round rate 2)) ;;
  ds_write now "FLOW_TOTAL_BBL" (VFloat (py_round gross 4)) ;;
  ds_write now "FLOW_NET_BBL" (VFloat (py_round net_bbl 4)) ;;
  ds_write now "BATCH_GROSS_BBL" (VFloat (py_round corrected_gross 4)) ;;
  ds_write now "BATCH_NET_BBL" (VFloat (py_round net_bbl 4)) ;;
  modify (set_last_pulse_count current_pulses) ;;
  modify (set_last_pulse_time now).

(** [FlowMeasurement.reset_totals] *)
Definition reset_totals (now : Q) : M FlowMeasurement unit :=
  modify (set_gross_total_bbl 0) ;;
  ds_write now "FLOW_TOTAL_BBL" (VFloat 0) ;;
  ds_write now "FLOW_NET_BBL" (VFloat 0) ;;
  ds_write now "BATCH_GROSS_BBL" (VFloat 0) ;;
  ds_write now "BATCH_NET_BBL" (VFloat 0).

End flow_measurement.

(** ** plc/modules/bsw_monitor.py *)

Module bsw_monitor.

Record BSWMonitor : Type := mkBSW {
  _readings : list Q;
  _max_history : nat;
  _divert_timer_start : Q;
  _divert_pending : bool;
}.

Definition init : BSWMonitor := mkBSW [] 10 0 false.

Definition set_readings v (b : BSWMonitor) :=
  mkBSW v (_max_history b) (_divert_timer_start b) (_divert_pending b).
Definition set_divert_timer_start v (b : BSWMonitor) :=
  mkBSW (_readings b) (_max_history b) v (_divert_pending b).
Definition set_divert_pending v (b : BSWMonitor) :=
  mkBSW (_readings b) (_max_history b) (_divert_timer_start b) v.

Definition Qsum (l : list Q) : Q := fold_left Qplus l 0.

(** Decimal digits of a non-negative integer. *)
Definition digits (z : Z) : string :=
  DecimalString.NilZero.string_of_uint (N.to_uint (Z.to_N z)).

(** ["%.2f" % x] *)
Definition format_2f (x : Q) : string :=
  let n := Qround_half_even (Qabs x * 100) in
  let frac := (n mod 100)%Z in
  ((if Qlt_bool x 0 && negb (n =? 0)%Z then "-" else "")
     +:+ digits (n / 100)%Z +:+ "."
     +:+ (if (frac <? 10)%Z then "0" else "") +:+ digits frac)%string.

(** [BSWMonitor.execute] *)
Definition execute (sp : Setpoints) (now : Q) : M BSWMonitor unit :=
  v <- ds_read "AI_BSW_PROBE" ;;
  raw_bsw <- num v ;;
  if Qlt_bool raw_bsw (- (1 # 10)) || Qgt_bool raw_bsw (55 # 10) then
    match v with
    | Some x =>
        ds_write_q now "AI_BSW_PROBE" x BAD ;;
        ds_write now "BSW_PCT" x
    | None => raise
    end
  else
    rs <- gets _readings ;;
    hist <- gets _max_history ;;
    let rs1 := rs ++ [raw_bsw] in
    let rs2 := if (hist <? length rs1)%nat then drop 1 rs1 else rs1 in
    modify (set_readings rs2) ;;
    let avg_bsw := Qsum rs2 / inject_Z (Z.of_nat (length rs2)) in
    ds_write now "BSW_PCT" (VFloat (py_round avg_bsw 3)) ;;
    if Qge_bool avg_bsw (bsw_divert_pct sp) then
      pending <- gets _divert_pending ;;
      if negb pending then
        modify (set_divert_pending true) ;;
        modify (set_divert_timer_start now)
      else
        t0 <- gets _divert_timer_start ;;
        if Qge_bool (now - t0) (bsw_divert_delay_sec sp) then
          ds_write now "DIVERT_REASON"
                   (VStr ("BS&W " +:+ format_2f avg_bsw +:+ "%"))
        else ret tt
    else modify (set_divert_pending false).

(** [BSWMonitor.reset] *)
Definition reset (b : BSWMonitor) : BSWMonitor :=
  set_divert_pending false (set_readings [] b).

End bsw_monitor.

(** ** plc/modules/sampler.py *)

Module sampler.
Import state_machine.

Record Sampler : Type := mkSampler {
  _last_grab_time : Q;
  _grab_count : Z;
  _total_ml : Q;
  _solenoid_on_time : Q;
  _solenoid_active : bool;
  _mix_running : bool;
}.

Definition init : Sampler := mkSampler 0 0 0 0 false false.

Definition set_last_grab_time v (s : Sampler) :=
  mkSampler v (_grab_count s) (_total_ml s) (_solenoid_on_time s)
            (_solenoid_active s) (_mix_running s).
Definition set_grab_count v (s : Sampler) :=
  mkSampler (_last_grab_time s) v (_total_ml s) (_solenoid_on_time s)
            (_solenoid_active s) (_mix_running s).
Definition set_total_ml v (s : Sampler) :=
  mkSampler (_last_grab_time s) (_grab_count s) v (_solenoid_on_time s)
            (_solenoid_active s) (_mix_running s).
Definition set_solenoid_on_time v (s : Sampler) :=
  mkSampler (_last_grab_time s) (_grab_count s) (_total_ml s) v
            (_solenoid_active s) (_mix_running s).
Definition set_solenoid_active v (s : Sampler) :=
  mkSampler (_last_grab_time s) (_grab_count s) (_total_ml s)
            (_solenoid_on_time s) v (_mix_running s).
Definition set_mix_running v (s : Sampler) :=
  mkSampler (_last_grab_time s) (_grab_count s) (_total_ml s)
            (_solenoid_on_time s) (_solenoid_active s) v.

(** [_set_solenoid] *)
Definition _set_solenoid (now : Q) (on : bool) : M Sampler unit :=
  ds_write now "DO_SAMPLE_SOL" (VBool on) ;;
  if negb on then modify (set_solenoid_active false) else ret tt.

(** [_take_grab] *)
Definition _take_grab (sp : Setpoints) (now : Q) : M Sampler unit :=
  _set_solenoid now true ;;
  modify (set_solenoid_on_time now) ;;
  modify (set_solenoid_active true) ;;
  modify (set_last_grab_time now) ;;
  n <- gets _grab_count ;;
  modify (set_grab_count (n + 1)%Z) ;;
  ml <- gets _total_ml ;;
  modify (set_total_ml (ml + sample_volume_ml sp)) ;;
  n' <- gets _grab_count ;;
  ml' <- gets _total_ml ;;
  ds_write now "SAMPLE_TOTAL_GRABS" (VInt n') ;;
  ds_write now "SAMPLE_TOTAL_ML" (VFloat (py_round ml' 1)).

(** [_manage_mixing] *)
Definition _manage_mixing (sp : Setpoints) (now : Q) : M Sampler unit :=
  let mix_interval := 300 in
  let cycle_pos := py_fmod now mix_interval in
  let should_mix := Qlt_bool cycle_pos (sample_mix_time_sec sp) in
  running <- gets _mix_running ;;
  if negb (Bool.eqb should_mix running) then
    ds_write now "DO_SAMPLE_MIX_PUMP" (VBool should_mix) ;;
    modify (set_mix_running should_mix)
  else ret tt.

(** [Sampler.execute] *)
Definition execute (sp : Setpoints) (now : Q) (st : LACTState) : M Sampler unit :=
  if negb (LACTState_eqb st RUNNING) then _set_solenoid now false
  else
    pot_hi <- ds_read "DI_SAMPLE_POT_HI" ;;
    if truthy pot_hi then _set_solenoid now false
    else
      flow_v <- ds_read "FLOW_RATE_BPH" ;;
      flow_rate <- num flow_v ;;
      if Qle_bool flow_rate 0 then ret tt
      else
        let base_interval := sample_rate_sec sp in
        last <- gets _last_grab_time ;;
        (if Qge_bool (now - last) base_interval then _take_grab sp now
         else ret tt) ;;
        active <- gets _solenoid_active ;;
        (if active : bool then
           on_time <- gets _solenoid_on_time ;;
           if Qge_bool (now - on_time) (1 # 2) then _set_solenoid now false
           else ret tt
         else ret tt) ;;
        _manage_mixing sp now.

(** [Sampler.reset_totals] *)
Definition reset_totals (now : Q) : M Sampler unit :=
  modify (set_grab_count 0%Z) ;;
  modify (set_total_ml 0) ;;
  ds_write now "SAMPLE_TOTAL_GRABS" (VInt 0) ;;
  ds_write now "SAMPLE_TOTAL_ML" (VFloat 0).

End sampler.

(** ** plc/modules/divert_valve.py *)

Module divert_valve.

Record DivertValve : Type := mkDivert {
  _last_cmd : option Value;
  _cmd_change_time : Q;
}.

Definition init : DivertValve := mkDivert None 0.

(** [DivertValve.execute] *)
Definition execute (now : Q) : M DivertValve unit :=
  cmd <- ds_read "DO_DIVERT_CMD" ;;
  at_sales <- ds_read "DI_DIVERT_SALES" ;;
  at_divert <- ds_read "DI_DIVERT_DIVERT" ;;
  last <- gets _last_cmd ;;
  (if negb (py_eq cmd last) then modify (fun _ => mkDivert cmd now)
   else ret tt) ;;
  let position :=
    if truthy at_sales && truthy at_divert then "FAULT_BOTH_LIMITS"
    else if truthy cmd then
      (if truthy at_divert then "DIVERT" else "TRANSIT_TO_DIVERT")
    else
      (if truthy at_sales then "SALES" else "TRANSIT_TO_SALES") in
  ds_write now "DIVERT_VALVE_POS" (VStr position).

End divert_valve.

(** ** plc/modules/proving.py *)

Module proving.

Inductive ProvingState : Type :=
| IDLE | SETUP | RUNNING | CALCULATING | COMPLETE | FAILED.

Record ProvingRun : Type := mkRun {
  start_time : Q;
  end_time : Q;
  meter_pulses : option Value;   (* the counter at run start, then the run's pulses *)
  prover_volume_bbl : Q;
  temperature_f : option Value;
  pressure_psi : option Value;
  meter_factor : Q;
}.

(** [ProvingRun.__init__] *)
Definition new_run : ProvingRun :=
  mkRun 0 0 (Some (VInt 0)) 0 (Some (VFloat 60)) (Some (VFloat 0)) 0.

Record ProvingManager : Type := mkProving {
  state : ProvingState;
  runs : list ProvingRun;
  current_run : option ProvingRun;
  _state_entry_time : Q;
  result_meter_factor : Q;
  result_repeatability : Q;
}.

Definition init : ProvingManager := mkProving IDLE [] None 0 0 0.

Definition set_state v (p : ProvingManager) :=
  mkProving v (runs p) (current_run p) (_state_entry_time p)
            (result_meter_factor p) (result_repeatability p).
Definition set_runs v (p : ProvingManager) :=
  mkProving (state p) v (current_run p) (_state_entry_time p)
            (result_meter_factor p) (result_repeatability p).
Definition set_current_run v (p : ProvingManager) :=
  mkProving (state p) (runs p) v (_state_entry_time p)
            (result_meter_factor p) (result_repeatability p).
Definition set_state_entry_time v (p : ProvingManager) :=
  mkProving (state p) (runs p) (current_run p) v
            (result_meter_factor p) (result_repeatability p).
Definition set_result_meter_factor v (p : ProvingManager) :=
  mkProving (state p) (runs p) (current_run p) (_state_entry_time p)
            v (result_repeatability p).
Definition set_result_repeatability v (p : ProvingManager) :=
  mkProving (state p) (runs p) (current_run p) (_state_entry_time p)
            (result_meter_factor p) v.

(** [start_proving] *)
Definition start_proving (now : Q) (p : ProvingManager) : ProvingManager :=
  set_current_run None (set_runs [] (set_state_entry_time now (set_state SETUP p))).

(** [_start_run] *)
Definition _start_run (now : Q) : M ProvingManager unit :=
  pulses <- ds_read "PI_METER_PULSE" ;;
  temp <- ds_read "AI_METER_TEMP" ;;
  press <- ds_read "AI_OUTLET_PRESS" ;;
  modify (set_current_run
            (Some (mkRun now 0 pulses 0 temp press 0))) ;;
  modify (set_state RUNNING).

(** [_handle_setup] *)
Definition _handle_setup (now : Q) : M ProvingManager unit :=
  ds_write now "DO_PROVER_VLV_CMD" (VBool true) ;;
  vlv <- ds_read "DI_PROVER_VLV_OPEN" ;;
  if truthy vlv then _start_run now
  else
    t0 <- gets _state_entry_time ;;
    if Qgt_bool (now - t0) 30 then
      modify (set_state FAILED) ;;
      ds_write now "DO_PROVER_VLV_CMD" (VBool false)
    else ret tt.

(** [end_pulses - run.meter_pulses]: an [int] when both are. *)
Definition py_sub (a b : option Value) : option Value :=
  match a, b with
  | Some (VFloat _), _ | _, Some (VFloat _) =>
      match as_num a, as_num b with
      | Some x, Some y => Some (VFloat (x - y))
      | _, _ => None
      end
  | _, _ =>
      match as_num a, as_num b with
      | Some x, Some y => Some (VInt (Qfloor (x - y)))
      | _, _ => None
      end
  end.

(** The meter factor of a run: the reference volume (10.0 bbl) over the
    indicated volume, or 1.0 when that cannot be computed. *)
Definition run_meter_factor (k_factor pulses : Q) : Q :=
  if Qgt_bool k_factor 0 && Qgt_bool pulses 0
  then 10 / (pulses / k_factor)
  else 1.

(** [_end_run] *)
Definition _end_run (sp : Setpoints) (now : Q) : M ProvingManager unit :=
  cur <- gets current_run ;;
  match cur with
  | None => raise
  | Some run =>
      let run1 := mkRun (start_time run) now (meter_pulses run)
                        (prover_volume_bbl run) (temperature_f run)
                        (pressure_psi run) (meter_factor run) in
      modify (set_current_run (Some run1)) ;;
      end_pulses <- ds_read "PI_METER_PULSE" ;;
      match py_sub end_pulses (meter_pulses run1) with
      | None => raise
      | Some d =>
          pulses <- num (Some d) ;;
          let mf := run_meter_factor (meter_k_factor sp) pulses in
          let run2 := mkRun (start_time run1) now (Some d) 10
                            (temperature_f run1) (pressure_psi run1) mf in
          modify (set_current_run (Some run2)) ;;
          rs <- gets runs ;;
          modify (set_runs (rs ++ [run2])) ;;
          rs' <- gets runs ;;
          if (prove_num_runs sp <=? Z.of_nat (length rs'))%Z
          then modify (set_state CALCULATING)
          else _start_run now
      end
  end.

(** [_handle_running] *)
Definition _handle_running (sp : Setpoints) (now : Q) : M ProvingManager unit :=
  cur <- gets current_run ;;
  match cur with
  | None => raise
  | Some run =>
      if Qge_bool (now - start_time run) 60 then _end_run sp now
      else ret tt
  end.

Definition Qsum (l : list Q) : Q := fold_left Qplus l 0.
Definition Qmaximum (x : Q) (l : list Q) : Q := fold_left Qmax l x.
Definition Qminimum (x : Q) (l : list Q) : Q := fold_left Qmin l x.

(** [sum(meter_factors) / len(meter_factors)] *)
Definition avg_of (meter_factors : list Q) : Q :=
  Qsum meter_factors / inject_Z (Z.of_nat (length meter_factors)).

(** [max(meter_factors) - min(meter_factors)] *)
Definition range_of (meter_factors : list Q) : Q :=
  match meter_factors with
  | [] => 0
  | x :: l => Qmaximum x l - Qminimum x l
  end.

(** [(mf_range / avg_mf) * 100.0 if avg_mf else 0.0] *)
Definition repeatability_of (meter_factors : list Q) : Q :=
  let avg_mf := avg_of meter_factors in
  if negb (Qeq_bool avg_mf 0)
  then (range_of meter_factors / avg_mf) * 100
  else 0.

(** [_handle_calculating] *)
Definition _handle_calculating (sp : Setpoints) (now : Q) : M ProvingManager unit :=
  rs <- gets runs ;;
  let meter_factors := meter_factor <$> rs in
  match meter_factors with
  | [] => modify (set_state FAILED)
  | _ =>
      let avg_mf := avg_of meter_factors in
      let repeatability := repeatability_of meter_factors in
      modify (set_result_meter_factor (py_round avg_mf 4)) ;;
      modify (set_result_repeatability (py_round repeatability 4)) ;;
      if Qgt_bool repeatability (prove_repeatability_pct sp) then
        modify (set_state FAILED)
      else if negb (Qle_bool (prove_meter_factor_min sp) avg_mf
                    && Qle_bool avg_mf (prove_meter_factor_max sp)) then
        modify (set_state FAILED)
      else
        r <- gets result_meter_factor ;;
        ds_write now "METER_FACTOR" (VFloat r) ;;
        modify (set_state COMPLETE)
  end.

Definition _handle_complete (now : Q) : M ProvingManager unit :=
  ds_write now "DO_PROVER_VLV_CMD" (VBool false).

Definition _handle_failed (now : Q) : M ProvingManager unit :=
  ds_write now "DO_PROVER_VLV_CMD" (VBool false).

(** [ProvingManager.execute] *)
Definition execute (sp : Setpoints) (now : Q) : M ProvingManager unit :=
  st <- gets state ;;
  match st with
  | IDLE => ret tt
  | SETUP => _handle_setup now
  | RUNNING => _handle_running sp now
  | CALCULATING => _handle_calculating sp now
  | COMPLETE => _handle_complete now
  | FAILED => _handle_failed now
  end.

End proving.

(** ** plc/config/io_map.py *)

Module io_map.

Inductive SignalType : Type :=
| DIGITAL_IN | DIGITAL_OUT | ANALOG_IN | ANALOG_OUT | PULSE_IN.

(** [IOPoint]; the free-text fields [description] and [unit] are left out. *)
Record IOPoint : Type := mkIOPoint {
  tag : string;
  signal_type : SignalType;
  address : Z;
  raw_min : Q;
  raw_max : Q;
  eng_min : Q;
  eng_max : Q;
  modbus_unit_id : Z;
  modbus_register : Z;
}.

(** [IOMap]: five dicts, in insertion order. *)
Record IOMap : Type := mkIOMap {
  digital_inputs : list (string * IOPoint);
  digital_outputs : list (string * IOPoint);
  analog_inputs : list (string * IOPoint);
  pulse_inputs : list (string * IOPoint);
  analog_outputs : list (string * IOPoint);
}.

Definition default_digital_inputs : list (string * IOPoint) :=
  [
    ("DI_INLET_VLV_OPEN", mkIOPoint "DI_INLET_VLV_OPEN" DIGITAL_IN 0 0 4095 0 100 1 0);
    ("DI_INLET_VLV_CLOSED", mkIOPoint "DI_INLET_VLV_CLOSED" DIGITAL_IN 1 0 4095 0 100 1 1);
    ("DI_STRAINER_HI_DP", mkIOPoint "DI_STRAINER_HI_DP" DIGITAL_IN 2 0 4095 0 100 1 2);
    ("DI_PUMP_RUNNING", mkIOPoint "DI_PUMP_RUNNING" DIGITAL_IN 3 0 4095 0 100 1 3);
    ("DI_PUMP_OVERLOAD", mkIOPoint "DI_PUMP_OVERLOAD" DIGITAL_IN 4 0 4095 0 100 1 4);
    ("DI_DIVERT_SALES", mkIOPoint "DI_DIVERT_SALES" DIGITAL_IN 5 0 4095 0 100 1 5);
    ("DI_DIVERT_DIVERT", mkIOPoint "DI_DIVERT_DIVERT" DIGITAL_IN 6 0 4095 0 100 1 6);
    ("DI_SAMPLE_POT_HI", mkIOPoint "DI_SAMPLE_POT_HI" DIGITAL_IN 7 0 4095 0 100 1 7);
    ("DI_SAMPLE_POT_LO", mkIOPoint "DI_SAMPLE_POT_LO" DIGITAL_IN 8 0 4095 0 100 1 8);
    ("DI_PROVER_VLV_OPEN", mkIOPoint "DI_PROVER_VLV_OPEN" DIGITAL_IN 9 0 4095 0 100 1 9);
    ("DI_AIR_ELIM_FLOAT", mkIOPoint "DI_AIR_ELIM_FLOAT" DIGITAL_IN 10 0 4095 0 100 1 10);
    ("DI_OUTLET_VLV_OPEN", mkIOPoint "DI_OUTLET_VLV_OPEN" DIGITAL_IN 11 0 4095 0 100 1 11);
    ("DI_ESTOP", mkIOPoint "DI_ESTOP" DIGITAL_IN 12 0 4095 0 100 1 12)
  ].

Definition default_digital_outputs : list (string * IOPoint) :=
  [
    ("DO_PUMP_START", mkIOPoint "DO_PUMP_START" DIGITAL_OUT 0 0 4095 0 100 1 100);
    ("DO_DIVERT_CMD", mkIOPoint "DO_DIVERT_CMD" DIGITAL_OUT 1 0 4095 0 100 1 101);
    ("DO_SAMPLE_SOL", mkIOPoint "DO_SAMPLE_SOL" DIGITAL_OUT 2 0 4095 0 100 1 102);
    ("DO_SAMPLE_MIX_PUMP", mkIOPoint "DO_SAMPLE_MIX_PUMP" DIGITAL_OUT 3 0 4095 0 100 1 103);
    ("DO_PROVER_VLV_CMD", mkIOPoint "DO_PROVER_VLV_CMD" DIGITAL_OUT 4 0 4095 0 100 1 104);
    ("DO_ALARM_BEACON", mkIOPoint "DO_ALARM_BEACON" DIGITAL_OUT 5 0 4095 0 100 1 105);
    ("DO_ALARM_HORN", mkIOPoint "DO_ALARM_HORN" DIGITAL_OUT 6 0 4095 0 100 1 106);
    ("DO_STATUS_GREEN", mkIOPoint "DO_STATUS_GREEN" DIGITAL_OUT 7 0 4095 0 100 1 107)
  ].

Definition default_analog_inputs : list (string * IOPoint) :=
  [
    ("AI_INLET_PRESS", mkIOPoint "AI_INLET_PRESS" ANALOG_IN 0 0 4095 0 300 1 200);
    ("AI_LOOP_HI_PRESS", mkIOPoint "AI_LOOP_HI_PRESS" ANALOG_IN 1 0 4095 0 300 1 201);
    ("AI_STRAINER_DP", mkIOPoint "AI_STRAINER_DP" ANALOG_IN 2 0 4095 0 50 1 202);
    ("AI_BSW_PROBE", mkIOPoint "AI_BSW_PROBE" ANALOG_IN 3 0 4095 0 5 1 203);
    ("AI_METER_TEMP", mkIOPoint "AI_METER_TEMP" ANALOG_IN 4 0 4095 (-20) 200 1 204);
    ("AI_TEST_THERMO", mkIOPoint "AI_TEST_THERMO" ANALOG_IN 5 0 4095 (-20) 200 1 205);
    ("AI_OUTLET_PRESS", mkIOPoint "AI_OUTLET_PRESS" ANALOG_IN 6 0 4095 0 300 1 206)
  ].

Definition default_pulse_inputs : list (string * IOPoint) :=
  [
    ("PI_METER_PULSE", mkIOPoint "PI_METER_PULSE" PULSE_IN 0 0 4095 0 100 1 300)
  ].

Definition default_analog_outputs : list (string * IOPoint) :=
  [
    ("AO_BP_SALES_SP", mkIOPoint "AO_BP_SALES_SP" ANALOG_OUT 0 0 4095 0 150 1 400);
    ("AO_BP_DIVERT_SP", mkIOPoint "AO_BP_DIVERT_SP" ANALOG_OUT 1 0 4095 0 150 1 401)
  ].

(** [IOMap()] *)
Definition default : IOMap :=
  mkIOMap default_digital_inputs default_digital_outputs
          default_analog_inputs default_pulse_inputs default_analog_outputs.

End io_map.

(** ** plc/drivers/io_handler.py *)

Module io_handler.
Import io_map.

(** The backend as seen during one scan: what each read returns ([None]
    when the call raises), which writes raise, and the writes it has
    accepted so far (oldest first). *)
Record IOBackend : Type := mkBackend {
  read_digital : Z -> option bool;
  read_analog : Z -> option Z;
  read_pulse_count : Z -> option Z;
  write_raises : Z -> bool;
  digital_written : list (Z * bool);
  analog_written : list (Z * Z);
}.

Definition push_digital (a : Z) (v : bool) (b : IOBackend) : IOBackend :=
  mkBackend (read_digital b) (read_analog b) (read_pulse_count b)
            (write_raises b) (digital_written b ++ [(a, v)]) (analog_written b).
Definition push_analog (a : Z) (v : Z) (b : IOBackend) : IOBackend :=
  mkBackend (read_digital b) (read_analog b) (read_pulse_count b)
            (write_raises b) (digital_written b) (analog_written b ++ [(a, v)]).

(** [_scale_input] *)
Definition _scale_input (raw : Z) (point : IOPoint) : Q :=
  let raw_range := raw_max point - raw_min point in
  let eng_range := eng_max point - eng_min point in
  if Qeq_bool raw_range 0 then eng_min point
  else
    let proportion := (inject_Z raw - raw_min point) / raw_range in
    eng_min point + proportion * eng_range.

(** [_scale_output] *)
Definition _scale_output (eng_value : Q) (point : IOPoint) : Z :=
  let eng_range := eng_max point - eng_min point in
  let raw_range := raw_max point - raw_min point in
  if Qeq_bool eng_range 0 then py_int (raw_min point)
  else
    let proportion := (eng_value - eng_min point) / eng_range in
    let proportion := Qmax 0 (Qmin 1 proportion) in
    py_int (raw_min point + proportion * raw_range).

(** A [for] loop over the items of a dict. *)
Fixpoint for_each {X A} (l : list A) (body : A -> M X unit) : M X unit :=
  match l with
  | [] => ret tt
  | a :: l' => body a ;; for_each l' body
  end.

(** [read_inputs]: every backend failure is caught and becomes a BAD tag. *)
Definition read_inputs (now : Q) (m : IOMap) : M IOBackend unit :=
  for_each (digital_inputs m) (fun '(t, point) =>
    b <- gets read_digital ;;
    match b (address point) with
    | Some raw => ds_write now t (VBool raw)
    | None => ds_write_q now t (VBool false) BAD
    end) ;;
  for_each (analog_inputs m) (fun '(t, point) =>
    b <- gets read_analog ;;
    match b (address point) with
    | Some raw => ds_write now t (VFloat (py_round (_scale_input raw point) 3))
    | None => ds_write_q now t (VFloat 0) BAD
    end) ;;
  for_each (pulse_inputs m) (fun '(t, point) =>
    b <- gets read_pulse_count ;;
    match b (address point) with
    | Some count => ds_write now t (VInt count)
    | None => ds_write_q now t (VInt 0) BAD
    end).

(** [float(ds.read(tag) or 0)]; [None] when the conversion raises. *)
Definition float_or_0 (v : option Value) : option Q :=
  if truthy v then
    match v with
    | Some (VStr _) => None
    | _ => as_num v
    end
  else Some 0.

(** [write_outputs]: failures are caught and logged. *)
Definition write_outputs (m : IOMap) : M IOBackend unit :=
  for_each (digital_outputs m) (fun '(t, point) =>
    v <- ds_read t ;;
    raises <- gets write_raises ;;
    if raises (address point) then ret tt
    else modify (push_digital (address point) (truthy v))) ;;
  for_each (analog_outputs m) (fun '(t, point) =>
    v <- ds_read t ;;
    match float_or_0 v with
    | None => ret tt
    | Some eng_value =>
        raises <- gets write_raises ;;
        if raises (address point) then ret tt
        else modify (push_analog (address point) (_scale_output eng_value point))
    end).

End io_handler.

(** ** plc/core/controller.py *)

Module controller.
Import state_machine.

Record PLCController : Type := mkController {
  io_map : io_map.IOMap;
  sp : Setpoints;
  io : io_handler.IOBackend;
  safety : safety.SafetyManager;
  state_machine : LACTStateMachine;
  flow : flow_measurement.FlowMeasurement;
  bsw : bsw_monitor.BSWMonitor;
  sampler : sampler.Sampler;
  divert : divert_valve.DivertValve;
  pump : pump_control.PumpControl;
  proving : proving.ProvingManager;
  _running : bool;
  _scan_count : Z;
}.

(** [PLCController.__init__]; the controller owns a fresh [DataStore]
    ([DS.init]), which is the store of its methods. *)
Definition init (now : Q) (backend : io_handler.IOBackend) (m : io_map.IOMap)
    (setpoints : Setpoints) (definitions : gmap string alarms.AlarmDefinition)
    : Ctx PLCController :=
  mkCtx
    (mkController m setpoints backend (safety.init definitions)
                  (state_machine.init now) (flow_measurement.init now)
                  bsw_monitor.init sampler.init divert_valve.init
                  pump_control.init proving.init false 0)
    DS.init.

Definition set_io v (c : PLCController) :=
  mkController (io_map c) (sp c) v (safety c) (state_machine c) (flow c) (bsw c)
               (sampler c) (divert c) (pump c) (proving c) (_running c) (_scan_count c).
Definition set_safety v (c : PLCController) :=
  mkController (io_map c) (sp c) (io c) v (state_machine c) (flow c) (bsw c)
               (sampler c) (divert c) (pump c) (proving c) (_running c) (_scan_count c).
Definition set_state_machine v (c : PLCController) :=
  mkController (io_map c) (sp c) (io c) (safety c) v (flow c) (bsw c)
               (sampler c) (divert c) (pump c) (proving c) (_running c) (_scan_count c).
Definition set_flow v (c : PLCController) :=
  mkController (io_map c) (sp c) (io c) (safety c) (state_machine c) v (bsw c)
               (sampler c) (divert c) (pump c) (proving c) (_running c) (_scan_count c).
Definition set_bsw v (c : PLCController) :=
  mkController (io_map c) (sp c) (io c) (safety c) (state_machine c) (flow c) v
               (sampler c) (divert c) (pump c) (proving c) (_running c) (_scan_count c).
Definition set_sampler v (c : PLCController) :=
  mkController (io_map c) (sp c) (io c) (safety c) (state_machine c) (flow c) (bsw c)
               v (divert c) (pump c) (proving c) (_running c) (_scan_count c).
Definition set_divert v (c : PLCController) :=
  mkController (io_map c) (sp c) (io c) (safety c) (state_machine c) (flow c) (bsw c)
               (sampler c) v (pump c) (proving c) (_running c) (_scan_count c).
Definition set_pump v (c : PLCController) :=
  mkController (io_map c) (sp c) (io c) (safety c) (state_machine c) (flow c) (bsw c)
               (sampler c) (divert c) v (proving c) (_running c) (_scan_count c).
Definition set_proving v (c : PLCController) :=
  mkController (io_map c) (sp c) (io c) (safety c) (state_machine c) (flow c) (bsw c)
               (sampler c) (divert c) (pump c) v (_running c) (_scan_count c).
Definition set_scan_count v (c : PLCController) :=
  mkController (io_map c) (sp c) (io c) (safety c) (state_machine c) (flow c) (bsw c)
               (sampler c) (divert c) (pump c) (proving c) (_running c) v.
Definition set_sp v (c : PLCController) :=
  mkController (io_map c) v (io c) (safety c) (state_machine c) (flow c) (bsw c)
               (sampler c) (divert c) (pump c) (proving c) (_running c) (_scan_count c).

(** A method call on a component: the component runs on its own state
    and on the one store the controller shares with all of them. *)
Definition call {X A} (get : PLCController -> X)
    (set : X -> PLCController -> PLCController) (m : M X A)
    : M PLCController A :=
  fun c =>
    match m (mkCtx (get (self c)) (store c)) with
    | (r, c') => (r, mkCtx (set (self c') (self c)) (store c'))
    end.

(** The stateless monitors. *)
Definition call_static {A} (m : M unit A) : M PLCController A :=
  call (fun _ => tt) (fun _ c => c) m.

(** [_execute_scan]: one complete scan cycle. *)
Definition _execute_scan (libm_exp : Q -> Q) (now : Q) : M PLCController unit :=
  n <- gets _scan_count ;;
  modify (set_scan_count (n + 1)%Z) ;;
  m <- gets io_map ;;
  p <- gets sp ;;
  (* Phase 1: read all physical inputs *)
  call io set_io (io_handler.read_inputs now m) ;;
  (* Phase 2: safety interlocks *)
  call safety set_safety (safety.execute p now) ;;
  (* Phase 3: handle safety actions *)
  sf <- gets safety ;;
  current <- gets (fun c => state (state_machine c)) ;;
  (if safety.shutdown_requested sf then
     match current with
     | E_STOP | SHUTDOWN | IDLE => ret tt
     | _ => modify (fun c => set_state_machine
                               (request_transition SHUTDOWN (state_machine c)) c)
     end
   else if safety.divert_requested sf then
     match current with
     | RUNNING => modify (fun c => set_state_machine
                                     (request_transition DIVERT (state_machine c)) c)
     | _ => ret tt
     end
   else ret tt) ;;
  (* Phase 4: state machine *)
  call state_machine set_state_machine (state_machine.execute p now) ;;
  (* Phase 5: process modules *)
  current_state <- gets (fun c => state (state_machine c)) ;;
  call_static (pressure_monitor.execute p now) ;;
  call_static (temperature.execute libm_exp p now) ;;
  call flow set_flow (flow_measurement.execute p now) ;;
  call bsw set_bsw (bsw_monitor.execute p now) ;;
  (match current_state with
   | RUNNING | DIVERT =>
       call sampler set_sampler (sampler.execute p now current_state)
   | _ => ret tt
   end) ;;
  (match current_state with
   | PROVING => call proving set_proving (proving.execute p now)
   | _ => ret tt
   end) ;;
  call divert set_divert (divert_valve.execute now) ;;
  call pump set_pump (pump_control.execute p now) ;;
  (* Phase 6: write outputs to physical I/O *)
  call io set_io (io_handler.write_outputs m).

(** [single_scan] *)
Definition single_scan := _execute_scan.

(** [_safe_state] *)
Definition _safe_state (now : Q) : M PLCController unit :=
  ds_write now "DO_PUMP_START" (VBool false) ;;
  ds_write now "DO_DIVERT_CMD" (VBool true) ;;
  ds_write now "DO_SAMPLE_SOL" (VBool false) ;;
  ds_write now "DO_SAMPLE_MIX_PUMP" (VBool false) ;;
  ds_write now "DO_PROVER_VLV_CMD" (VBool false) ;;
  ds_write now "DO_ALARM_BEACON" (VBool false) ;;
  ds_write now "DO_ALARM_HORN" (VBool false) ;;
  ds_write now "DO_STATUS_GREEN" (VBool false) ;;
  m <- gets io_map ;;
  call io set_io (io_handler.write_outputs m).

(** The body of the [while] loop of [_scan_loop], pacing left out: an
    exception escaping the scan leads to the safe-state pass. *)
Definition scan_loop_body (libm_exp : Q -> Q) (now : Q) : M PLCController unit :=
  fun c =>
    match _execute_scan libm_exp now c with
    | (Ok tt, c') => (Ok tt, c')
    | (Raised, c') => _safe_state now c'
    end.

(** *** Operator commands *)

Definition cmd_start : M PLCController string :=
  st <- gets (fun c => state (state_machine c)) ;;
  match st with
  | IDLE =>
      modify (fun c => set_state_machine
                         (request_transition STARTUP (state_machine c)) c) ;;
      ret "Start command issued"
  | _ => ret ("Cannot start: currently in " +:+ state_value st)
  end.

Definition cmd_stop : M PLCController string :=
  st <- gets (fun c => state (state_machine c)) ;;
  match st with
  | IDLE | SHUTDOWN | E_STOP => ret ("Already in " +:+ state_value st)
  | _ =>
      modify (fun c => set_state_machine
                         (request_transition SHUTDOWN (state_machine c)) c) ;;
      ret "Shutdown command issued"
  end.

Definition cmd_estop (now : Q) : M PLCController string :=
  ds_write now "DI_ESTOP" (VBool true) ;;
  ret "EMERGENCY STOP activated".

Definition cmd_estop_reset (now : Q) : M PLCController string :=
  ds_write now "DI_ESTOP" (VBool false) ;;
  ret "E-STOP reset".

Definition cmd_prove (now : Q) : M PLCController string :=
  st <- gets (fun c => state (state_machine c)) ;;
  match st with
  | RUNNING =>
      modify (fun c => set_proving (proving.start_proving now (proving c)) c) ;;
      modify (fun c => set_state_machine
                         (request_transition PROVING (state_machine c)) c) ;;
      ret "Proving initiated"
  | _ => ret "Cannot prove: unit must be RUNNING"
  end.

Definition cmd_ack_alarms : M PLCController string :=
  modify (fun c => set_safety (safety.acknowledge_all (safety c)) c) ;;
  ret "All alarms acknowledged".

Definition cmd_silence_horn (now : Q) : M PLCController string :=
  modify (fun c => set_safety (safety.silence_horn now (safety c)) c) ;;
  ret "Horn silenced".

End controller.

(** * Executions, statements and their vocabulary *)

(** [guarantees R m]: every run of [m], completing or raising, takes a
    context to one related to it by [R]. *)
Definition guarantees {X : Type} (R : Ctx X -> Ctx X -> Prop) {A} (m : M X A)
    : Prop :=
  forall c r c', m c = (r, c') -> R c c'.

(** [touches P c c']: every tag of the store is either left as it was or
    holds a value allowed for it by [P]. *)
Definition touches {X} (P : string -> Value -> Prop) (c c' : Ctx X) : Prop :=
  forall t, store c' !! t = store c !! t
            \/ exists cell, store c' !! t = Some cell /\ P t (value cell).

(** [only W]: writes go to the tags listed in [W]. *)
Definition only (W : list string) : string -> Value -> Prop :=
  fun t _ => In t W.

Definition state_machine_tags : list string :=
  ["PREV_STATE"; "LACT_STATE"; "DO_PUMP_START"; "DO_SAMPLE_SOL";
   "DO_SAMPLE_MIX_PUMP"; "DO_STATUS_GREEN"; "DO_DIVERT_CMD";
   "BATCH_START_TIME"; "BATCH_ELAPSED_SEC"; "DO_PROVER_VLV_CMD";
   "DO_ALARM_BEACON"; "DO_ALARM_HORN"].

Definition pump_writes : string -> Value -> Prop :=
  fun t v => t = "DO_PUMP_START" /\ v = VBool false.

Definition flow_tags : list string :=
  ["FLOW_RATE_BPH"; "FLOW_TOTAL_BBL"; "FLOW_NET_BBL"; "BATCH_GROSS_BBL";
   "BATCH_NET_BBL"].

Definition sampler_tags : list string :=
  ["DO_SAMPLE_SOL"; "SAMPLE_TOTAL_GRABS"; "SAMPLE_TOTAL_ML"; "DO_SAMPLE_MIX_PUMP"].

Definition on_self {X} (r : X -> X -> Prop) (c c' : Ctx X) : Prop :=
  r (self c) (self c').

Section TransitionsTerms.
Import state_machine.

(** The legal-transition relation, as the specification lists it. *)
Inductive legal_4_4 : LACTState -> LACTState -> Prop :=
| Idle_Startup : legal_4_4 IDLE STARTUP
| Idle_EStop : legal_4_4 IDLE E_STOP
| Startup_Running : legal_4_4 STARTUP RUNNING
| Startup_Idle : legal_4_4 STARTUP IDLE
| Startup_EStop : legal_4_4 STARTUP E_STOP
| Running_Divert : legal_4_4 RUNNING DIVERT
| Running_Proving : legal_4_4 RUNNING PROVING
| Running_Shutdown : legal_4_4 RUNNING SHUTDOWN
| Running_EStop : legal_4_4 RUNNING E_STOP
| Divert_Running : legal_4_4 DIVERT RUNNING
| Divert_Shutdown : legal_4_4 DIVERT SHUTDOWN
| Divert_EStop : legal_4_4 DIVERT E_STOP
| Proving_Running : legal_4_4 PROVING RUNNING
| Proving_Shutdown : legal_4_4 PROVING SHUTDOWN
| Proving_EStop : legal_4_4 PROVING E_STOP
| Shutdown_Idle : legal_4_4 SHUTDOWN IDLE
| Shutdown_EStop : legal_4_4 SHUTDOWN E_STOP
| EStop_Idle : legal_4_4 E_STOP IDLE.

(** The test made by [_transition] decides that relation. *)
Definition permitted (cur target : LACTState) : bool :=
  existsb (LACTState_eqb target) (_TRANSITIONS cur).

(** [chain s l s']: the records [l], read in order, start in state [s],
    every recorded transition leaves the state reached so far by a
    legal move, every rejected one was illegal and moves nothing, and
    the state reached at the end is [s']. *)
Inductive chain : LACTState -> list LogRecord -> LACTState -> Prop :=
| chain_nil s : chain s [] s
| chain_transition s t l s' :
    legal_4_4 s t -> chain t l s' -> chain s (LogTransition s t :: l) s'
| chain_illegal s t l s' :
    ~ legal_4_4 s t -> chain s l s' -> chain s (LogIllegal s t :: l) s'.

(** The state machine moved from [m] to [m'] by transitions it
    recorded, all legal. *)
Definition moved_legally (m m' : LACTStateMachine) : Prop :=
  exists l, logged m' = logged m ++ l /\ chain (state m) l (state m').

End TransitionsTerms.

Module sm_run.
Import state_machine.

Inductive Op : Type :=
| Request (target : LACTState)
| Write (now : Q) (tag : string) (v : Value) (q : Quality)
| Execute (sp : Setpoints) (now : Q).

Definition step (op : Op) (c : Ctx LACTStateMachine) : Ctx LACTStateMachine :=
  match op with
  | Request target => mkCtx (request_transition target (self c)) (store c)
  | Write now tag v q => mkCtx (self c) (DS.write now tag v q (store c))
  | Execute sp now => snd (execute sp now c)
  end.

Definition run (ops : list Op) (c : Ctx LACTStateMachine) : Ctx LACTStateMachine :=
  fold_left (fun c op => step op c) ops c.

(** A record of the log agrees with the relation of the specification. *)
Definition record_ok (r : LogRecord) : Prop :=
  match r with
  | LogTransition s t => legal_4_4 s t
  | LogIllegal s t => ~ legal_4_4 s t
  end.

End sm_run.

Section DivertTerms.
Import state_machine.

(** The claim as the specification words it, on two scans of one stay in
    Divert: if the scan at [t1] saw a reading at or above the threshold
    (and stayed in Divert), the wait restarts there, so a return to Running
    at the scan at [t2] needs [t2 - t1] to be at least the delay. *)
Definition divert_wait_restarts : Prop :=
  forall now0 ds0 ops sp t1 t2 v2 b1,
    let c := sm_run.run ops (mkCtx (init now0) ds0) in
    let c1 := sm_run.step (sm_run.Execute sp t1) c in
    let c2 := sm_run.step (sm_run.Execute sp t2)
                (sm_run.step (sm_run.Write t2 "AI_BSW_PROBE" v2 GOOD) c1) in
    state (self c) = DIVERT ->
    as_num (DS.read (store c) "AI_BSW_PROBE") = Some b1 ->
    bsw_divert_pct sp <= b1 ->
    state (self c1) = DIVERT ->
    t1 <= t2 ->
    state (self c2) = RUNNING ->
    bsw_divert_delay_sec sp <= t2 - t1.

(** A start-up with BS&W at 0.3 % that reaches Running at [t = 21];
    BS&W then rises to 1.2 %, a divert is requested and taken at
    [t = 22], and the Divert handler runs once at [t = 23]. *)
Definition startup_then_divert : list sm_run.Op :=
  [ sm_run.Write 0 "DI_INLET_VLV_OPEN" (VBool true) GOOD;
    sm_run.Write 0 "DI_OUTLET_VLV_OPEN" (VBool true) GOOD;
    sm_run.Write 0 "DI_DIVERT_DIVERT" (VBool true) GOOD;
    sm_run.Write 0 "DI_PUMP_RUNNING" (VBool true) GOOD;
    sm_run.Write 0 "AI_BSW_PROBE" (VFloat (3 # 10)) GOOD;
    sm_run.Request STARTUP;
    sm_run.Execute default_setpoints 0;
    sm_run.Execute default_setpoints 1;
    sm_run.Execute default_setpoints 2;
    sm_run.Execute default_setpoints 3;
    sm_run.Execute default_setpoints 6;
    sm_run.Execute default_setpoints 7;
    sm_run.Execute default_setpoints 21;
    sm_run.Write 21 "AI_BSW_PROBE" (VFloat (12 # 10)) GOOD;
    sm_run.Request DIVERT;
    sm_run.Execute default_setpoints 22;
    sm_run.Execute default_setpoints 23 ].

End DivertTerms.

Module alarm_run.
Import alarms.

Inductive Op : Type :=
| Activate (now : Q) (v : Q)
| Deactivate
| Acknowledge.

Definition step (op : Op) (s : AlarmState) : AlarmState :=
  match op with
  | Activate now v => activate now v s
  | Deactivate => deactivate s
  | Acknowledge => acknowledge s
  end.

Definition run (ops : list Op) (s : AlarmState) : AlarmState :=
  fold_left (fun s op => step op s) ops s.

(** The same operations as [SafetyManager] issues them: [acknowledge_alarm]
    and [acknowledge_all] acknowledge an alarm only if it is active. *)
Definition managed_step (op : Op) (s : AlarmState) : AlarmState :=
  match op with
  | Acknowledge => if active s then acknowledge s else s
  | _ => step op s
  end.

Definition managed_run (ops : list Op) (s : AlarmState) : AlarmState :=
  fold_left (fun s op => managed_step op s) ops s.

(** The claim as the specification words it. *)
Definition inactive_is_acknowledged : Prop :=
  forall d ops,
    let s := run ops (new_state d) in
    active s = false -> acknowledged s = true.

End alarm_run.

Section AlarmsTerms.
Import alarms alarm_run.

(** A non-latching alarm is never both active and acknowledged. *)
Definition non_latching_inv (s : AlarmState) : Prop :=
  latching (definition s) = false -> active s && acknowledged s = false.

(** Driven by [SafetyManager], a latching alarm that is inactive is not
    acknowledged. *)
Definition latching_inv (s : AlarmState) : Prop :=
  latching (definition s) = true -> active s || negb (acknowledged s) = true.

End AlarmsTerms.

(** A rational stand-in for [math.exp] in concrete evaluations: the Taylor
    polynomial of degree 12 at 0. *)
Fixpoint exp_horner (n k : nat) (x : Q) : Q :=
  match n with
  | O => 1
  | S n' => 1 + x / inject_Z (Z.of_nat k) * exp_horner n' (S k) x
  end.

Definition exp_taylor (x : Q) : Q := Qred (exp_horner 12 1 x).

Module pump_run.
Import pump_control.

(** Successive calls of [record_start] at the given instants; the results
    in call order. *)
Fixpoint record_starts (sp : Setpoints) (times : list Q) (p : PumpControl)
    : list bool * PumpControl :=
  match times with
  | [] => ([], p)
  | t :: rest =>
      let '(r, p1) := record_start sp t p in
      let '(rs, p2) := record_starts sp rest p1 in
      (r :: rs, p2)
  end.

(** All the instants lie within one rolling hour: no two of them are an
    hour or more apart. *)
Definition within_one_hour (times : list Q) : bool :=
  forallb (fun tj => forallb (fun ti => Qlt_bool (tj - 3600) ti) times) times.

(** The claim as the specification words it: with a limit of [N >= 1],
    of [N] calls within one hour the first [N - 1] succeed and the [N]-th
    fails and latches the lockout. *)
Definition nth_start_rejected : Prop :=
  forall sp times,
    let N := pump_max_starts_per_hour sp in
    (1 <= N)%Z ->
    within_one_hour times = true ->
    Z.of_nat (length times) = N ->
    fst (record_starts sp times init) = replicate (Z.to_nat N - 1) true ++ [false]
    /\ _locked_out (snd (record_starts sp times init)) = true.

End pump_run.

Section PumpTerms.
Import pump_control pump_run.

(** The result of a call that follows [k] earlier calls, all within the
    hour: the deque holds [min (k + 1) 20] instants and all are recent. *)
Definition call_result (N : Z) (k : nat) : bool :=
  negb (N <=? Z.of_nat (Nat.min (k + 1) maxlen))%Z.

End PumpTerms.

Section ProvingTerms.
Import proving.


(** Every recorded run has a positive meter factor. *)
Definition runs_positive (p : ProvingManager) : Prop :=
  Forall (fun r => 0 < meter_factor r) (runs p).

(** Five runs with meter factors 1.000, 1.000, 1.000, 1.010, 1.000. *)
Definition runs_with_outlier : list ProvingRun :=
  (fun mf => mkRun 0 60 (Some (VInt 1000)) 10 (Some (VFloat 60)) (Some (VFloat 0)) mf)
    <$> [1; 1; 1; 101 # 100; 1].

Definition calculating_with_outlier : Ctx ProvingManager :=
  mkCtx (mkProving CALCULATING runs_with_outlier None 0 0 0) DS.init.

End ProvingTerms.

Section FlowTerms.
Import flow_measurement.

(** [v or d], then used as a number. *)
Definition or_default (v : option Value) (d : Q) : option Q :=
  if truthy v then as_num v else Some d.

(** The gross total after a scan that reads [pulses] from the counter. *)
Definition gross_after (sp : Setpoints) (f : FlowMeasurement) (pulses : Q) : Q :=
  _gross_total_bbl f
  + delta_bbl_of (meter_k_factor sp) (delta_pulses_of pulses (_last_pulse_count f)).

(** A fresh totalizer whose counter input reads 100 pulses; after its
    first scan the counter reads 250. *)
Definition flow_c0 : Ctx FlowMeasurement :=
  mkCtx (init 0) (DS.write 1 "PI_METER_PULSE" (VInt 100) GOOD DS.init).

Definition flow_ds2 : DataStore :=
  DS.write 2 "PI_METER_PULSE" (VInt 250) GOOD
           (store (snd (execute default_setpoints 1 flow_c0))).

(** The claim of C10 about BATCH_GROSS_BBL as worded: the value written
    is the gross total times the METER_FACTOR tag. *)
Definition batch_gross_is_total_times_factor : Prop :=
  forall sp now (c c' : Ctx FlowMeasurement) mf g,
    execute sp now c = (Ok tt, c') ->
    as_num (DS.read (store c) "METER_FACTOR") = Some mf ->
    DS.read (store c') "BATCH_GROSS_BBL" = Some (VFloat g) ->
    g == _gross_total_bbl (self c') * mf.

Definition flow_mf0 : Ctx FlowMeasurement :=
  mkCtx (init 0)
        (DS.write 1 "METER_FACTOR" (VFloat 0) GOOD
           (DS.write 1 "PI_METER_PULSE" (VInt 100) GOOD DS.init)).

(** A fresh totalizer at 100 pulses, with a meter factor of 1.05. *)
Definition flow_mf105 : Ctx FlowMeasurement :=
  mkCtx (init 0)
        (DS.write 1 "METER_FACTOR" (VFloat (105 # 100)) GOOD
           (DS.write 1 "PI_METER_PULSE" (VInt 100) GOOD DS.init)).

End FlowTerms.

Section ScanTerms.
Import state_machine controller.

(** The state machine and the setpoints are left alone. *)
Definition sm_kept (s s' : PLCController) : Prop :=
  state_machine s' = state_machine s /\ sp s' = sp s /\ io_map s' = io_map s.

(** What the components other than the state machine guarantee during a
    scan: they touch the tags allowed by [P] and nothing of the state
    machine. *)
Definition component_step (P : string -> Value -> Prop) (c c' : Ctx PLCController) : Prop :=
  sm_kept (self c) (self c') /\ touches P c c'.

(** Tags written by the modules that run on every scan after the state
    machine: the two monitors, the totalizer, the BS&W monitor, the divert
    supervisor, and the pump supervisor, which only ever writes [False]
    to DO_PUMP_START. *)
Definition always_run_writes : string -> Value -> Prop :=
  fun t v =>
    only (["AO_BP_SALES_SP"; "AO_BP_DIVERT_SP"; "CTL_FACTOR"; "TEMP_CORRECTED_F";
           "AI_BSW_PROBE"; "BSW_PCT"; "DIVERT_REASON"; "DIVERT_VALVE_POS"]
            ++ flow_tags) t v
    \/ pump_writes t v.

Definition proving_writes : string -> Value -> Prop :=
  only ["DO_PROVER_VLV_CMD"; "METER_FACTOR"].

(** What the part of the scan after the sampler may write when the state
    machine is in state [st]. *)
Definition after_sampler_writes (st : LACTState) : string -> Value -> Prop :=
  fun t v =>
    always_run_writes t v
    \/ (st = PROVING /\ proving_writes t v).

End ScanTerms.

Section ScanFactsTerms.
Import state_machine.

(** The commanded outputs of the all-safe pattern. *)
Definition safe_pattern (ds : DataStore) : Prop :=
  DS.read ds "DO_PUMP_START" = Some (VBool false)
  /\ DS.read ds "DO_DIVERT_CMD" = Some (VBool true)
  /\ DS.read ds "DO_SAMPLE_SOL" = Some (VBool false)
  /\ DS.read ds "DO_SAMPLE_MIX_PUMP" = Some (VBool false)
  /\ DS.read ds "DO_PROVER_VLV_CMD" = Some (VBool false)
  /\ DS.read ds "DO_ALARM_BEACON" = Some (VBool true)
  /\ DS.read ds "DO_ALARM_HORN" = Some (VBool true).


End ScanFactsTerms.

Section ScanTailTerms.
Import state_machine controller.

(** What the scan may write after the state machine ran, when the state
    machine is in state [st]. *)
Definition tail_writes (st : LACTState) : string -> Value -> Prop :=
  fun t v =>
    after_sampler_writes st t v
    \/ ((st = RUNNING \/ st = DIVERT) /\ only sampler_tags t v).

End ScanTailTerms.

Module plant.
Import state_machine controller io_handler.

(** What the field presents to one scan: the digital inputs that are on,
    the raw analog readings, the pulse counter. *)
Record Inputs : Type := mkInputs {
  digital_on : list Z;
  analog_raw : Z -> Z;
  pulse_count : Z;
}.

Definition present (i : Inputs) (b : IOBackend) : IOBackend :=
  mkBackend (fun a => Some (existsb (Z.eqb a) (digital_on i)))
            (fun a => Some (analog_raw i a))
            (fun _ => Some (pulse_count i))
            (write_raises b) (digital_written b) (analog_written b).

(** The controller as the scan finds it once the field presents [i]. *)
Definition facing (i : Inputs) (c : Ctx PLCController) : Ctx PLCController :=
  mkCtx (set_io (present i (io (self c))) (self c)) (store c).

Inductive Op : Type :=
| Scan (i : Inputs) (now : Q)
| Start
| Stop
| Prove (now : Q)
| AckAlarms.

Definition step (e : Q -> Q) (op : Op) (c : Ctx PLCController) : Ctx PLCController :=
  match op with
  | Scan i now => snd (scan_loop_body e now (facing i c))
  | Start => snd (cmd_start c)
  | Stop => snd (cmd_stop c)
  | Prove now => snd (cmd_prove now c)
  | AckAlarms => snd (cmd_ack_alarms c)
  end.

Definition run (e : Q -> Q) (ops : list Op) (c : Ctx PLCController)
    : Ctx PLCController :=
  fold_left (fun c op => step e op c) ops c.

(** A backend that has accepted no write yet and whose writes succeed. *)
Definition quiet_backend : IOBackend :=
  mkBackend (fun _ => Some false) (fun _ => Some 0%Z) (fun _ => Some 0%Z)
            (fun _ => false) [] [].

(** [PLCController(io_handler)] with the default I/O map, setpoints and
    alarm table, created at [t = 0]. *)
Definition power_on : Ctx PLCController :=
  controller.init 0 quiet_backend io_map.default default_setpoints
                  alarms.default_definitions.

(** Raw analog readings of a healthy unit: about 73 psi on the three
    pressure transmitters, 1.2 psi across the strainer, 0.3 % BS&W and
    59.995 degrees F on both thermometers. *)
Definition healthy_analogs (a : Z) : Z :=
  match a with
  | 0 | 1 | 6 => 1000
  | 2 => 100
  | 3 => 246
  | 4 | 5 => 1489
  | _ => 0
  end%Z.

(** Inlet and outlet valves open (0, 11); divert valve at SALES (5) or at
    DIVERT (6); pump running (3); E-stop pressed (12). *)
Definition valves_open_at_sales : Inputs := mkInputs [0; 11; 5]%Z healthy_analogs 0.
Definition valves_open_at_divert : Inputs := mkInputs [0; 11; 6]%Z healthy_analogs 0.
Definition pumping_at_divert : Inputs := mkInputs [0; 11; 6; 3]%Z healthy_analogs 0.
Definition pumping_at_sales (pulses : Z) : Inputs :=
  mkInputs [0; 11; 5; 3]%Z healthy_analogs pulses.
Definition estop_pressed (pulses : Z) : Inputs :=
  mkInputs [0; 11; 5; 3; 12]%Z healthy_analogs pulses.

(** A cold start to RUNNING: start command, valve checks, divert
    commanded and confirmed, pump started after 5 s and confirmed, BS&W
    settled; RUNNING is entered at [t = 21], and the scan at [t = 22]
    meters 10 pulses and takes a sample grab. *)
Definition cold_start : list Op :=
  [ Start;
    Scan valves_open_at_sales 0;
    Scan valves_open_at_sales 1;
    Scan valves_open_at_sales 2;
    Scan valves_open_at_divert 3;
    Scan valves_open_at_divert 6;
    Scan pumping_at_divert 7;
    Scan pumping_at_divert 21;
    Scan (pumping_at_sales 10) 22 ].

End plant.

Section PlantTerms.
Import state_machine controller plant.

(** The claim of C1 as the specification words it, on the scans of a
    controller started from power-on. *)
Definition estop_scan_is_safe : Prop :=
  forall e ops i now c',
    let c := facing i (run e ops power_on) in
    _execute_scan e now c = (Ok tt, c') ->
    truthy (DS.read (store c') "DI_ESTOP") = true ->
    state (state_machine (self c')) = E_STOP /\ safe_pattern (store c').

Definition estop_scan : Ctx PLCController :=
  snd (_execute_scan exp_taylor (221 # 10)
         (facing (estop_pressed 10) (run exp_taylor cold_start power_on))).

(** The running unit scanned at [t = 22.1] with the E-stop pressed, and
    the next scan, at [t = 22.2], E-stop still pressed. *)
Definition after_estop_scan : list Op :=
  cold_start ++ [Scan (estop_pressed 10) (221 # 10)].

Definition second_estop_scan : Ctx PLCController :=
  snd (_execute_scan exp_taylor (222 # 10)
         (facing (estop_pressed 10) (run exp_taylor after_estop_scan power_on))).


Definition stop_scan : Ctx PLCController :=
  snd (_execute_scan exp_taylor (221 # 10)
         (facing (pumping_at_sales 20)
                 (run exp_taylor (cold_start ++ [Stop]) power_on))).


End PlantTerms.

(** * Further executions and vocabulary, module by module *)

(** A method that leaves the store alone. *)
Definition same_store {X} (c c' : Ctx X) : Prop := store c' = store c.

Section StateMachineTerms.
Import state_machine.

(** In STARTUP at step 5 since [t = 0], the probe at 1.2 %. *)
Definition startup_at_step_5 : Ctx LACTStateMachine :=
  mkCtx (mkSM STARTUP 0 5 0 None [])
        (DS.write 0 "AI_BSW_PROBE" (VFloat (12 # 10)) GOOD DS.init).

(** In E_STOP since [t = 10], the E-stop input released. *)
Definition estop_released : Ctx LACTStateMachine :=
  mkCtx (mkSM E_STOP 10 0 0 None []) DS.init.

(** In SHUTDOWN since [t = 0], at its first step. *)
Definition shutting_down : LACTStateMachine := mkSM SHUTDOWN 0 0 0 None [].

(** In STARTUP since [t = 0], divert valve confirmed, waiting for the pump
    start delay. *)
Definition startup_at_step_3 : Ctx LACTStateMachine :=
  mkCtx (mkSM STARTUP 0 3 0 None []) DS.init.

End StateMachineTerms.

Section AlarmStateTerms.
Import alarms.

(** ALM_ESTOP, raised at [t = 1]. *)
Definition estop_alarm_raised : AlarmState :=
  activate 1 7 (new_state (defn "ALM_ESTOP" "Emergency stop activated"
                                CRITICAL EMERGENCY_STOP)).

End AlarmStateTerms.

Section SafetyTerms.
Import alarms safety.

(** The alarm [t] is in the table and active. *)
Definition alarm_active (t : string) (s : SafetyManager) : Prop :=
  exists st, alarm_states s !! t = Some st /\ active st = true.

(** What the checks of other alarms keep: a request stays requested, and
    the alarm [t], which they do not own, stays as it is. *)
Definition keeps_request (t : string) (s s' : SafetyManager) : Prop :=
  (_shutdown_requested s = true -> _shutdown_requested s' = true)
  /\ (_divert_requested s = true -> _divert_requested s' = true)
  /\ alarm_states s' !! t = alarm_states s !! t.

(** A fresh safety manager on a store where the E-stop input is on, and
    one where the probe reads 1.2 %. *)
Definition safety_with_estop : Ctx SafetyManager :=
  mkCtx (init default_definitions)
        (DS.write 1 "DI_ESTOP" (VBool true) GOOD DS.init).

Definition safety_with_wet_oil : Ctx SafetyManager :=
  mkCtx (init default_definitions)
        (DS.write 1 "AI_BSW_PROBE" (VFloat (12 # 10)) GOOD DS.init).

End SafetyTerms.

Section PumpLockoutTerms.
Import pump_control.


End PumpLockoutTerms.

Module sampler_run.
Import state_machine sampler.

(** What happens to a sampler between its creation and now: scans, each
    in some state of the unit and on some store, and resets of the
    totals. *)
Inductive Op : Type :=
| Scan (now : Q) (st : LACTState) (ds : DataStore)
| Reset (now : Q) (ds : DataStore).

Definition step (sp : Setpoints) (op : Op) (s : Sampler) : Sampler :=
  match op with
  | Scan now st ds => self (snd (execute sp now st (mkCtx s ds)))
  | Reset now ds => self (snd (reset_totals now (mkCtx s ds)))
  end.

Definition run (sp : Setpoints) (ops : list Op) : Sampler :=
  fold_left (fun s op => step sp op s) ops init.

(** A fresh sampler on a store with a flow rate of 120 bbl/h, and one
    with no flow. *)
Definition sampler_with_flow : Ctx Sampler :=
  mkCtx init (DS.write 1 "FLOW_RATE_BPH" (VFloat 120) GOOD DS.init).

Definition sampler_without_flow : Ctx Sampler :=
  mkCtx (mkSampler 0 3 15 20 true false) DS.init.

End sampler_run.

Module bsw_run.
Import bsw_monitor.

(** The scans of a BS&W monitor since its creation, each at some instant
    and on some store. *)
Definition step (sp : Setpoints) (scan : Q * DataStore) (b : BSWMonitor)
    : BSWMonitor :=
  self (snd (execute sp (fst scan) (mkCtx b (snd scan)))).

Definition run (sp : Setpoints) (scans : list (Q * DataStore)) : BSWMonitor :=
  fold_left (fun b scan => step sp scan b) scans init.

(** The signal range accepted by [execute]. *)
Definition in_range (x : Q) : Prop := - (1 # 10) <= x /\ x <= 55 # 10.

Definition window_ok (b : BSWMonitor) : Prop :=
  _max_history b = 10%nat
  /\ (length (_readings b) <= 10)%nat
  /\ Forall in_range (_readings b).

(** A store where the probe reads [x] per cent. *)
Definition probe_at (x : Q) : DataStore :=
  DS.write 1 "AI_BSW_PROBE" (VFloat x) GOOD DS.init.

End bsw_run.

Module flow_run.
Import flow_measurement.

(** Consecutive scans of a totalizer, each at some instant and on some
    store; [None] when a scan raises. *)
Fixpoint scans (sp : Setpoints) (l : list (Q * DataStore)) (f : FlowMeasurement)
    : option FlowMeasurement :=
  match l with
  | [] => Some f
  | (now, ds) :: l' =>
      match execute sp now (mkCtx f ds) with
      | (Ok _, c') => scans sp l' (self c')
      | (Raised, _) => None
      end
  end.




End flow_run.

Section ProvingSequenceTerms.
Import proving.

(** The moves [ProvingManager.execute] can make. *)
Inductive proving_edge : ProvingState -> ProvingState -> Prop :=
| Stay s : proving_edge s s
| Setup_Running : proving_edge SETUP RUNNING
| Setup_Failed : proving_edge SETUP FAILED
| Running_Calculating : proving_edge RUNNING CALCULATING
| Calculating_Complete : proving_edge CALCULATING COMPLETE
| Calculating_Failed : proving_edge CALCULATING FAILED.

End ProvingSequenceTerms.

Section IOTerms.
Import io_map io_handler.

(** The cells [read_inputs] writes for a point of each kind. *)
Definition digital_cell (now : Q) (b : IOBackend) (p : IOPoint) : TagValue :=
  match read_digital b (address p) with
  | Some raw => mkTagValue (VBool raw) now GOOD
  | None => mkTagValue (VBool false) now BAD
  end.

Definition analog_cell (now : Q) (b : IOBackend) (p : IOPoint) : TagValue :=
  match read_analog b (address p) with
  | Some raw => mkTagValue (VFloat (py_round (_scale_input raw p) 3)) now GOOD
  | None => mkTagValue (VFloat 0) now BAD
  end.

Definition pulse_cell (now : Q) (b : IOBackend) (p : IOPoint) : TagValue :=
  match read_pulse_count b (address p) with
  | Some count => mkTagValue (VInt count) now GOOD
  | None => mkTagValue (VInt 0) now BAD
  end.

(** The tags of the three input tables, in the order they are read. *)
Definition input_tags (m : IOMap) : list string :=
  (digital_inputs m).*1 ++ (analog_inputs m).*1 ++ (pulse_inputs m).*1.

(** The writes a backend accepts from [write_outputs]. *)
Definition digital_writes (b : IOBackend) (ds : DataStore)
    (l : list (string * IOPoint)) : list (Z * bool) :=
  omap (fun '(t, p) =>
          if write_raises b (address p) then None
          else Some (address p, truthy (DS.read ds t))) l.

Definition analog_writes (b : IOBackend) (ds : DataStore)
    (l : list (string * IOPoint)) : list (Z * Z) :=
  omap (fun '(t, p) =>
          match float_or_0 (DS.read ds t) with
          | None => None
          | Some eng_value =>
              if write_raises b (address p) then None
              else Some (address p, _scale_output eng_value p)
          end) l.

(** The 0-300 psi inlet pressure transmitter of the default map. *)
Definition inlet_pressure_point : IOPoint :=
  mkIOPoint "AI_INLET_PRESS" ANALOG_IN 0 0 4095 0 300 1 200.

(** A backend whose reads all fail, and whose writes succeed. *)
Definition dead_backend : IOBackend :=
  mkBackend (fun _ => None) (fun _ => None) (fun _ => None) (fun _ => false) [] [].

End IOTerms.

Section ControllerTerms.
Import state_machine controller.

(** The outputs as [_safe_state] leaves them. *)
Definition all_off_pattern (ds : DataStore) : Prop :=
  DS.read ds "DO_PUMP_START" = Some (VBool false)
  /\ DS.read ds "DO_DIVERT_CMD" = Some (VBool true)
  /\ DS.read ds "DO_SAMPLE_SOL" = Some (VBool false)
  /\ DS.read ds "DO_SAMPLE_MIX_PUMP" = Some (VBool false)
  /\ DS.read ds "DO_PROVER_VLV_CMD" = Some (VBool false)
  /\ DS.read ds "DO_ALARM_BEACON" = Some (VBool false)
  /\ DS.read ds "DO_ALARM_HORN" = Some (VBool false)
  /\ DS.read ds "DO_STATUS_GREEN" = Some (VBool false).

(** What the safety actions of phase 3 can have done to the state machine
    [sm] before it runs. *)
Definition after_safety_actions (sm sm2 : LACTStateMachine) : Prop :=
  sm2 = sm
  \/ (sm2 = request_transition SHUTDOWN sm
      /\ state sm <> E_STOP /\ state sm <> SHUTDOWN /\ state sm <> IDLE)
  \/ (sm2 = request_transition DIVERT sm /\ state sm = RUNNING).

(** Phase 3 of the scan, as a function of the safety manager's flags. *)
Definition safety_actions (sf : safety.SafetyManager) (sm : LACTStateMachine)
    : LACTStateMachine :=
  if safety.shutdown_requested sf then
    match state sm with
    | E_STOP | SHUTDOWN | IDLE => sm
    | _ => request_transition SHUTDOWN sm
    end
  else if safety.divert_requested sf then
    match state sm with
    | RUNNING => request_transition DIVERT sm
    | _ => sm
    end
  else sm.

(** The requests the controller leaves pending between two scans. *)
Definition pending_ok (sm : LACTStateMachine) : Prop :=
  match _request_state sm with
  | None => True
  | Some STARTUP => state sm = IDLE
  | Some SHUTDOWN => state sm <> IDLE /\ state sm <> SHUTDOWN /\ state sm <> E_STOP
  | Some PROVING => state sm = RUNNING
  | Some _ => False
  end.

End ControllerTerms.

Section PlantScenarios.
Import state_machine controller plant.

(** The running unit with 1.221 % BS&W at the probe (raw count 1000 of
    4095 on the 0-5 % range). *)
Definition wet_oil : Inputs :=
  mkInputs [0; 11; 5; 3]%Z
           (fun a => if (a =? 3)%Z then 1000%Z else healthy_analogs a) 20.

(** A cold start, then a prove command and the scan that takes it. *)
Definition start_then_prove : list Op :=
  cold_start ++ [Prove 22; Scan (pumping_at_sales 20) (221 # 10)].

(** A controller whose store holds a string where the safety checks
    expect the probe reading, and whose I/O map is empty, so that the
    scan raises. *)
Definition corrupted_controller : Ctx PLCController :=
  let c := controller.init 0 quiet_backend (io_map.mkIOMap [] [] [] [] [])
                           default_setpoints alarms.default_definitions in
  mkCtx (self c) (DS.write 0 "AI_BSW_PROBE" (VStr "bad") GOOD (store c)).

End PlantScenarios.

(** * Proofs: reasoning about methods *)

(** ** Comparisons *)

Lemma Qlt_bool_iff (x y : Q) : Qlt_bool x y = true <-> x < y.
Proof.
  unfold Qlt_bool. rewrite negb_true_iff, <- not_true_iff_false, Qle_bool_iff.
  split; [apply Qnot_le_lt | apply Qlt_not_le].
Qed.

Lemma Qlt_bool_false_iff (x y : Q) : Qlt_bool x y = false <-> y <= x.
Proof.
  unfold Qlt_bool. rewrite negb_false_iff. apply Qle_bool_iff.
Qed.

Lemma Qgt_bool_iff (x y : Q) : Qgt_bool x y = true <-> y < x.
Proof. apply Qlt_bool_iff. Qed.


Lemma Qge_bool_iff (x y : Q) : Qge_bool x y = true <-> y <= x.
Proof. apply Qle_bool_iff. Qed.

(** ** What a method guarantees, whatever its outcome *)

Section Guarantees.
Context {X : Type} (R : Ctx X -> Ctx X -> Prop).
Context (R_refl : forall c, R c c).
Context (R_trans : forall c1 c2 c3, R c1 c2 -> R c2 c3 -> R c1 c3).

Lemma guarantees_ret {A} (a : A) : guarantees R (ret a).
Proof. intros c r c' [= <- <-]. apply R_refl. Qed.

Lemma guarantees_raise {A} : guarantees R (@raise X A).
Proof. intros c r c' [= <- <-]. apply R_refl. Qed.

Lemma guarantees_gets {A} (f : X -> A) : guarantees R (gets f).
Proof. intros c r c' [= <- <-]. apply R_refl. Qed.

Lemma guarantees_ds_read tag : guarantees R (@ds_read X tag).
Proof. intros c r c' [= <- <-]. apply R_refl. Qed.

Lemma guarantees_ds_read_with_quality tag :
  guarantees R (@ds_read_with_quality X tag).
Proof. intros c r c' [= <- <-]. apply R_refl. Qed.

Lemma guarantees_num v : guarantees R (@num X v).
Proof.
  unfold num. destruct (as_num v); [apply guarantees_ret | apply guarantees_raise].
Qed.

Lemma guarantees_num_or v d : guarantees R (@num_or X v d).
Proof.
  unfold num_or. destruct (truthy v); [apply guarantees_num | apply guarantees_ret].
Qed.

Lemma guarantees_bind {A B} (m : M X A) (k : A -> M X B) :
  guarantees R m -> (forall a, guarantees R (k a)) -> guarantees R (bind m k).
Proof.
  intros Hm Hk c r c' H. unfold bind in H.
  destruct (m c) as [[a|] c1] eqn:E.
  - eapply R_trans; [eapply Hm, E | eapply Hk, H].
  - injection H as <- <-. eapply Hm, E.
Qed.

Lemma guarantees_for_each {A} (l : list A) (body : A -> M X unit) :
  (forall a, guarantees R (body a)) -> guarantees R (io_handler.for_each l body).
Proof.
  intros Hb. induction l as [|a l IH]; simpl.
  - apply guarantees_ret.
  - apply guarantees_bind; [apply Hb | intros _; apply IH].
Qed.

End Guarantees.

(** Inversion of a sequence that completed. *)
Lemma bind_Ok {X A B} (m : M X A) (k : A -> M X B) c b c' :
  bind m k c = (Ok b, c') ->
  exists a c1, m c = (Ok a, c1) /\ k a c1 = (Ok b, c').
Proof.
  unfold bind. destruct (m c) as [[a|] c1]; [eauto | discriminate].
Qed.

(** ** Which tags a method may touch *)

Lemma touches_refl {X} P (c : Ctx X) : touches P c c.
Proof. intros t. by left. Qed.

Lemma touches_trans {X} P (c1 c2 c3 : Ctx X) :
  touches P c1 c2 -> touches P c2 c3 -> touches P c1 c3.
Proof.
  intros H12 H23 t. destruct (H23 t) as [E|E]; [|by right].
  rewrite E. apply H12.
Qed.

Lemma touches_weaken {X} (P P' : string -> Value -> Prop) (c c' : Ctx X) :
  (forall t v, P t v -> P' t v) -> touches P c c' -> touches P' c c'.
Proof.
  intros HP H t. destruct (H t) as [E|(cell & E & HPc)]; [by left|].
  right. exists cell. auto.
Qed.

Lemma touches_untouched {X} P (c c' : Ctx X) t :
  touches P c c' -> (forall v, ~ P t v) -> store c' !! t = store c !! t.
Proof.
  intros H Hn. destruct (H t) as [E|(cell & _ & HP)]; [done|].
  by apply Hn in HP.
Qed.

Lemma touches_read {X} P (c c' : Ctx X) t :
  touches P c c' -> (forall v, ~ P t v) ->
  DS.read (store c') t = DS.read (store c) t.
Proof. intros H Hn. unfold DS.read. by rewrite (touches_untouched P c c' t H Hn). Qed.

Lemma guarantees_touches_modify {X} P (f : X -> X) :
  guarantees (touches P) (modify f).
Proof. intros c r c' [= <- <-]. intros t. by left. Qed.

Lemma guarantees_touches_write {X} (P : string -> Value -> Prop) now tag v q :
  P tag v -> guarantees (touches P) (@ds_write_q X now tag v q).
Proof.
  intros HP c r c' [= <- <-] t. simpl. unfold DS.write.
  destruct (decide (tag = t)) as [<-|Hne].
  - right. eexists. rewrite lookup_insert_eq. split; [done|]. exact HP.
  - left. by rewrite lookup_insert_ne.
Qed.

Lemma guarantees_weaken {X A} (R R' : Ctx X -> Ctx X -> Prop) (m : M X A) :
  (forall c c', R c c' -> R' c c') -> guarantees R m -> guarantees R' m.
Proof. intros HR H c r c' E. eapply HR, H, E. Qed.

(** A call on a component touches what the component's method touches. *)
Lemma guarantees_touches_call {X A} P (get : controller.PLCController -> X) set
    (m : M X A) :
  guarantees (touches P) m -> guarantees (touches P) (controller.call get set m).
Proof.
  intros H c r c' E. unfold controller.call in E.
  destruct (m _) as [r1 c1] eqn:Em. injection E as <- <-.
  apply H in Em. exact Em.
Qed.

Lemma only_not_in W t : ~ In t W -> forall v, ~ only W t v.
Proof. intros H v. exact H. Qed.

Create HintDb guar discriminated.
#[local] Hint Resolve touches_refl touches_trans : guar.
#[local] Hint Extern 1 (only _ _ _) => (unfold only; simpl; tauto) : guar.
#[local] Hint Extern 1 (_ /\ _) => (split; reflexivity) : guar.

(** One step of a proof that a method guarantees a relation: follow the
    structure of the method. *)
Ltac guar_step :=
  lazymatch goal with
  | |- forall _, _ => intros
  | |- guarantees _ (bind _ _) =>
      apply guarantees_bind; [solve [eauto with guar] | | ]
  | |- guarantees _ (ret _) => apply guarantees_ret; solve [eauto with guar]
  | |- guarantees _ raise => apply guarantees_raise; solve [eauto with guar]
  | |- guarantees _ (gets _) => apply guarantees_gets; solve [eauto with guar]
  | |- guarantees _ (ds_read _) => apply guarantees_ds_read; solve [eauto with guar]
  | |- guarantees _ (ds_read_with_quality _) =>
      apply guarantees_ds_read_with_quality; solve [eauto with guar]
  | |- guarantees _ (num _) => apply guarantees_num; solve [eauto with guar]
  | |- guarantees _ (num_or _ _) => apply guarantees_num_or; solve [eauto with guar]
  | |- guarantees (touches _) (modify _) => apply guarantees_touches_modify
  | |- guarantees (touches _) (ds_write_q _ _ _ _) =>
      apply guarantees_touches_write; solve [eauto with guar]
  | |- guarantees (touches _) (ds_write _ _ _) =>
      apply guarantees_touches_write; solve [eauto with guar]
  | |- guarantees _ (io_handler.for_each _ _) =>
      apply guarantees_for_each; [solve [eauto with guar] | solve [eauto with guar] | ]
  | |- guarantees _ (if ?b then _ else _) => destruct b
  | |- guarantees _ (match ?x with _ => _ end) => destruct x
  | |- guarantees _ (let _ := _ in _) => cbv zeta
  | |- guarantees _ _ => solve [eauto with guar]
  end.

Ltac guar := repeat guar_step.

(** ** Tags written by each component *)

Lemma transition_touches now target :
  guarantees (touches (only state_machine_tags))
             (state_machine._transition now target).
Proof. unfold state_machine._transition. guar. Qed.
#[local] Hint Resolve transition_touches : guar.

Lemma state_machine_execute_touches sp now :
  guarantees (touches (only state_machine_tags)) (state_machine.execute sp now).
Proof.
  unfold state_machine.execute, state_machine.handler,
    state_machine._handle_idle, state_machine._handle_startup,
    state_machine._handle_running, state_machine._handle_divert,
    state_machine._handle_proving, state_machine._handle_shutdown,
    state_machine._handle_estop.
  guar.
Qed.

Lemma pump_execute_touches sp now :
  guarantees (touches pump_writes) (pump_control.execute sp now).
Proof. unfold pump_control.execute, pump_writes. guar. Qed.

Lemma pressure_execute_touches sp now :
  guarantees (touches (only ["AO_BP_SALES_SP"; "AO_BP_DIVERT_SP"]))
             (pressure_monitor.execute sp now).
Proof. unfold pressure_monitor.execute. guar. Qed.

Lemma temperature_execute_touches e sp now :
  guarantees (touches (only ["CTL_FACTOR"; "TEMP_CORRECTED_F"]))
             (temperature.execute e sp now).
Proof. unfold temperature.execute. guar. Qed.

Lemma flow_execute_touches sp now :
  guarantees (touches (only flow_tags)) (flow_measurement.execute sp now).
Proof. unfold flow_measurement.execute. guar. Qed.

Lemma bsw_execute_touches sp now :
  guarantees (touches (only ["AI_BSW_PROBE"; "BSW_PCT"; "DIVERT_REASON"]))
             (bsw_monitor.execute sp now).
Proof. unfold bsw_monitor.execute. guar. Qed.

Lemma sampler_execute_touches sp now st :
  guarantees (touches (only sampler_tags)) (sampler.execute sp now st).
Proof.
  unfold sampler.execute, sampler._take_grab, sampler._manage_mixing,
    sampler._set_solenoid.
  guar.
Qed.

Lemma divert_execute_touches now :
  guarantees (touches (only ["DIVERT_VALVE_POS"])) (divert_valve.execute now).
Proof. unfold divert_valve.execute. guar. Qed.

Lemma proving_execute_touches sp now :
  guarantees (touches (only ["DO_PROVER_VLV_CMD"; "METER_FACTOR"]))
             (proving.execute sp now).
Proof.
  unfold proving.execute, proving._handle_setup, proving._handle_running,
    proving._handle_calculating, proving._handle_complete,
    proving._handle_failed, proving._end_run, proving._start_run.
  guar.
Qed.

Lemma write_outputs_touches m :
  guarantees (touches (only [])) (io_handler.write_outputs m).
Proof. unfold io_handler.write_outputs. guar. Qed.

(** ** Relations on the private state alone *)

Lemma guarantees_on_self_write {X} (r : X -> X -> Prop) now tag v q :
  (forall x, r x x) -> guarantees (on_self r) (@ds_write_q X now tag v q).
Proof. intros Hr c res c' [= <- <-]. apply Hr. Qed.

Lemma guarantees_on_self_modify {X} (r : X -> X -> Prop) (f : X -> X) :
  (forall x, r x (f x)) -> guarantees (on_self r) (modify f).
Proof. intros Hr c res c' [= <- <-]. apply Hr. Qed.

(** * The state machine: legal transitions *)

Section Transitions.
Import state_machine.

Lemma permitted_legal cur target :
  permitted cur target = true <-> legal_4_4 cur target.
Proof.
  split.
  - destruct cur, target; simpl; intros H; try discriminate H; constructor.
  - intros H; destruct H; reflexivity.
Qed.

Lemma not_permitted_illegal cur target :
  permitted cur target = false <-> ~ legal_4_4 cur target.
Proof.
  rewrite <- permitted_legal. destruct (permitted cur target); split; intros;
    congruence.
Qed.

Lemma LACTState_eqb_eq a b : LACTState_eqb a b = true <-> a = b.
Proof. destruct a, b; simpl; split; intros; congruence. Qed.

Lemma chain_app s l1 s1 l2 s2 :
  chain s l1 s1 -> chain s1 l2 s2 -> chain s (l1 ++ l2) s2.
Proof.
  induction 1; simpl; intros; [assumption | |]; constructor; auto.
Qed.

Lemma moved_legally_refl m : moved_legally m m.
Proof. exists []. split; [by rewrite app_nil_r | constructor]. Qed.

Lemma moved_legally_trans m1 m2 m3 :
  moved_legally m1 m2 -> moved_legally m2 m3 -> moved_legally m1 m3.
Proof.
  intros (l1 & E1 & C1) (l2 & E2 & C2). exists (l1 ++ l2). split.
  - by rewrite E2, E1, app_assoc.
  - eapply chain_app; eassumption.
Qed.

Lemma on_self_moved_refl (c : Ctx LACTStateMachine) :
  on_self moved_legally c c.
Proof. apply moved_legally_refl. Qed.

Lemma on_self_moved_trans (c1 c2 c3 : Ctx LACTStateMachine) :
  on_self moved_legally c1 c2 -> on_self moved_legally c2 c3 ->
  on_self moved_legally c1 c3.
Proof. apply moved_legally_trans. Qed.

(** What one call of [_transition] does. *)
Lemma transition_outcome now target (c : Ctx LACTStateMachine) :
  let cur := state (self c) in
  if permitted cur target then
    _transition now target c =
      (Ok true,
       mkCtx (mkSM target now 0 0 (_request_state (self c))
                   (logged (self c) ++ [LogTransition cur target]))
             (DS.write now "LACT_STATE" (VStr (state_value target)) GOOD
                (DS.write now "PREV_STATE" (VStr (state_value cur)) GOOD
                   (store c))))
  else
    _transition now target c =
      (Ok false, mkCtx (log (LogIllegal cur target) (self c)) (store c)).
Proof.
  simpl. unfold _transition, permitted, bind, gets. simpl.
  destruct (existsb _ _); reflexivity.
Qed.

Lemma transition_moves_legally now target :
  guarantees (on_self moved_legally) (_transition now target).
Proof.
  intros c r c' H. pose proof (transition_outcome now target c) as T.
  simpl in T. destruct (permitted _ _) eqn:P; rewrite T in H;
    injection H as <- <-; unfold on_self, moved_legally; simpl;
    eexists; (split; [reflexivity|]).
  - apply chain_transition; [by apply permitted_legal | constructor].
  - apply chain_illegal; [by apply not_permitted_illegal | constructor].
Qed.

End Transitions.

#[local] Hint Resolve on_self_moved_refl on_self_moved_trans
  transition_moves_legally : guar.
#[local] Hint Extern 1 (guarantees (on_self moved_legally) (ds_write_q _ _ _ _)) =>
  (apply guarantees_on_self_write; apply moved_legally_refl) : guar.
#[local] Hint Extern 1 (guarantees (on_self moved_legally) (ds_write _ _ _)) =>
  (apply guarantees_on_self_write; apply moved_legally_refl) : guar.
#[local] Hint Extern 1 (guarantees (on_self moved_legally) (modify _)) =>
  (apply guarantees_on_self_modify; intros ?; exists [];
   split; [cbn; by rewrite app_nil_r | cbn; constructor]) : guar.

Lemma execute_moves_legally sp now :
  guarantees (on_self moved_legally) (state_machine.execute sp now).
Proof.
  unfold state_machine.execute, state_machine.handler,
    state_machine._handle_idle, state_machine._handle_startup,
    state_machine._handle_running, state_machine._handle_divert,
    state_machine._handle_proving, state_machine._handle_shutdown,
    state_machine._handle_estop.
  guar.
Qed.

(** ** Reading the store after writes *)

Lemma read_write_eq now tag v q (ds : DataStore) :
  DS.read (DS.write now tag v q ds) tag = Some v.
Proof. unfold DS.read, DS.write. by rewrite lookup_insert_eq. Qed.

Lemma read_write_ne now tag tag' v q (ds : DataStore) :
  tag <> tag' -> DS.read (DS.write now tag v q ds) tag' = DS.read ds tag'.
Proof. intros H. unfold DS.read, DS.write. by rewrite lookup_insert_ne. Qed.

Ltac ds_simpl :=
  cbn [self store];
  repeat first
    [ rewrite read_write_eq
    | rewrite read_write_ne by discriminate ].

Ltac ds_simpl_in H :=
  repeat first
    [ rewrite read_write_eq in H
    | rewrite read_write_ne in H by discriminate ].

(** ** Running a method on a context, case by case *)

Ltac unfold_method H :=
  unfold bind, ret, raise, gets, modify, ds_read, ds_read_with_quality,
    ds_write, ds_write_q, num, num_or in H;
  cbn beta iota zeta delta [self store fst snd] in H.

Ltac split_on H :=
  match type of H with
  | context [if ?b then _ else _] => destruct b eqn:?
  | context [match ?x with _ => _ end] =>
      lazymatch x with
      | context [match _ with _ => _ end] => fail
      | context [if _ then _ else _] => fail
      | _ => destruct x eqn:?
      end
  end.

Ltac sm_simpl H :=
  cbn [state_machine.state state_machine._request_state
       state_machine._startup_step state_machine._shutdown_step
       state_machine._state_entry_time state_machine.logged
       state_machine.time_in_state state_machine._TRANSITIONS
       existsb state_machine.LACTState_eqb negb orb andb
       state_machine.set_state state_machine.set_state_entry_time
       state_machine.set_startup_step state_machine.set_shutdown_step
       state_machine.set_request_state state_machine.log] in H.

Ltac run_sm H :=
  repeat first
    [ progress (unfold_method H)
    | progress (rewrite ?andb_false_r, ?andb_true_r in H)
    | progress (sm_simpl H)
    | split_on H ].

Ltac run_sm_using H rew :=
  repeat first
    [ progress (unfold_method H)
    | progress (rewrite ?andb_false_r, ?andb_true_r in H)
    | progress (sm_simpl H)
    | progress (ds_simpl_in H)
    | progress rew
    | split_on H ].

(** Use the outcomes of the tests made along a path. *)
Ltac rewrite_conds :=
  repeat match goal with
         | E : ?b = true |- context [?b] => rewrite E
         | E : ?b = false |- context [?b] => rewrite E
         end.

Ltac unfold_handlers H :=
  unfold state_machine.handler,
    state_machine._handle_idle, state_machine._handle_startup,
    state_machine._handle_running, state_machine._handle_divert,
    state_machine._handle_proving, state_machine._handle_shutdown,
    state_machine._handle_estop, state_machine._transition in H.

(** A state handler leaves the state where it is or makes one legal move. *)
Lemma handler_net_change sp now s c r c' :
  state_machine.handler sp now s c = (r, c') ->
  state_machine.state (self c) = s ->
  state_machine.state (self c') = s
  \/ legal_4_4 s (state_machine.state (self c')).
Proof.
  destruct c as [[st t0 s1 s2 req lg] ds]. intros H E. simpl in E. subst st.
  unfold_handlers H.
  destruct s; run_sm H;
    injection H as <- <-; cbn; first [left; reflexivity | right; constructor].
Qed.

(** So does a whole scan of the state machine, although it may make two
    moves (the requested one, then the E-stop override). *)
Lemma execute_net_change sp now c r c' :
  state_machine.execute sp now c = (r, c') ->
  state_machine.state (self c') = state_machine.state (self c)
  \/ legal_4_4 (state_machine.state (self c)) (state_machine.state (self c')).
Proof.
  destruct c as [[st t0 s1 s2 req lg] ds]. intros H.
  unfold state_machine.execute, state_machine._transition in H.
  destruct st, req as [[]|]; run_sm H;
    first [ injection H as <- <-; cbn; first [left; reflexivity | right; constructor]
          | apply handler_net_change in H; [|reflexivity]; cbn; exact H ].
Qed.

(** *** Executions of the state machine

    Between two scans anything may call [request_transition] and anything
    may write the store (inputs, the other modules, the operator). *)

Lemma step_moves_legally op c :
  moved_legally (self c) (self (sm_run.step op c)).
Proof.
  destruct op as [target|now tag v q|sp now]; simpl.
  - exists []. split; [by rewrite app_nil_r | constructor].
  - apply moved_legally_refl.
  - destruct (state_machine.execute sp now c) as [r c'] eqn:E.
    apply (execute_moves_legally sp now c r c' E).
Qed.

Lemma run_moves_legally ops c :
  moved_legally (self c) (self (sm_run.run ops c)).
Proof.
  revert c. induction ops as [|op ops IH]; intros c; simpl.
  - apply moved_legally_refl.
  - eapply moved_legally_trans; [apply step_moves_legally | apply IH].
Qed.

Lemma chain_records_ok s l s' : chain s l s' -> Forall sm_run.record_ok l.
Proof. induction 1; constructor; auto. Qed.

(** C2. In every execution of the state machine from its initial state --
    any interleaving of [request_transition] calls, writes to the store
    (DI_ESTOP among them) and [execute] scans -- the state only changes by
    transitions that [_transition] recorded, and these form a chain of moves
    of the legal-transition relation of the specification leading from IDLE
    to the current state; over one operation the state stays or makes a
    legal move; and a transition to a target that is not legal from the
    current state returns [False] and changes neither state nor store. *)
Theorem C2_state_changes_are_legal :
  (forall now0 ds0 ops,
      let c := sm_run.run ops (mkCtx (state_machine.init now0) ds0) in
      chain state_machine.IDLE (state_machine.logged (self c))
            (state_machine.state (self c))
      /\ Forall sm_run.record_ok (state_machine.logged (self c)))
  /\ (forall op c,
        state_machine.state (self (sm_run.step op c)) = state_machine.state (self c)
        \/ legal_4_4 (state_machine.state (self c))
                     (state_machine.state (self (sm_run.step op c))))
  /\ (forall now target c,
        legal_4_4 (state_machine.state (self c)) target
        \/ exists c',
            state_machine._transition now target c = (Ok false, c')
            /\ state_machine.state (self c') = state_machine.state (self c)
            /\ store c' = store c).
Proof.
  split; [|split].
  - intros now0 ds0 ops c.
    destruct (run_moves_legally ops (mkCtx (state_machine.init now0) ds0))
      as (l & El & Hl).
    fold c in El, Hl. simpl in El, Hl. rewrite El.
    split; [exact Hl | eapply chain_records_ok, Hl].
  - intros [target|now tag v q|sp now] c; simpl; [by left | by left |].
    destruct (state_machine.execute sp now c) as [r c'] eqn:E.
    apply (execute_net_change sp now c r c' E).
  - intros now target c.
    pose proof (transition_outcome now target c) as T. simpl in T.
    destruct (permitted _ _) eqn:P.
    + left. by apply permitted_legal.
    + right. eexists. split; [exact T|]. split; reflexivity.
Qed.

(** * C3: leaving Divert *)

Section Divert.
Import state_machine.

(** What a scan of the state machine does in DIVERT when nothing preempts
    the handler (no pending request, E-stop input clear) and the probe
    reading is a number. *)
Lemma divert_scan sp now (c : Ctx LACTStateMachine) bsw :
  state (self c) = DIVERT ->
  _request_state (self c) = None ->
  truthy (DS.read (store c) "DI_ESTOP") = false ->
  as_num (DS.read (store c) "AI_BSW_PROBE") = Some bsw ->
  exists c',
    execute sp now c = (Ok tt, c')
    /\ if Qlt_bool bsw (bsw_divert_pct sp)
          && Qgt_bool (now - _state_entry_time (self c)) (bsw_divert_delay_sec sp)
       then state (self c') = RUNNING
            /\ DS.read (store c') "DO_DIVERT_CMD" = Some (VBool false)
       else state (self c') = DIVERT
            /\ DS.read (store c') "DO_DIVERT_CMD" = Some (VBool true).
Proof.
  destruct c as [[st t0 s1 s2 req lg] ds]. simpl. intros -> -> Hestop Hbsw.
  destruct (execute sp now _) as [r c'] eqn:H.
  unfold execute, handler, _handle_divert, _transition in H.
  run_sm_using H ltac:(rewrite ?Hestop, ?Hbsw in H).
  all: injection H as <- <-; eexists; (split; [reflexivity|]).
  all: unfold time_in_state in *; cbn [_state_entry_time] in *.
  all: rewrite_conds; cbn [andb]; split; [reflexivity | by ds_simpl].
Qed.

Example startup_then_divert_state :
  let c := sm_run.run startup_then_divert (mkCtx (init 0) DS.init) in
  state (self c) = DIVERT
  /\ _state_entry_time (self c) = 22
  /\ DS.read (store c) "DO_DIVERT_CMD" = Some (VBool true)
  /\ DS.read (store c) "DO_PUMP_START" = Some (VBool true).
Proof. vm_compute. repeat split. Qed.

(** C3, counterexample.  In Divert since [t = 22]; the scan at [t = 25]
    still reads 1.2 % (at or above the 1.0 % threshold) and stays; the
    reading drops to 0.3 % and the scan at [t = 25.5] returns to Running,
    half a second after a reading above the threshold, with a delay of
    3 s. *)
Lemma C3_counterexample : ~ divert_wait_restarts.
Proof.
  intros H.
  specialize (H 0 DS.init startup_then_divert default_setpoints
                25 (51 # 2) (VFloat (3 # 10)) (12 # 10)).
  cbv zeta in H.
  assert (bsw_divert_delay_sec default_setpoints <= (51 # 2) - 25) as Hle.
  { apply H; vm_compute; congruence. }
  vm_compute in Hle. congruence.
Qed.

(** C3, as the code has it.  In DIVERT, when nothing preempts the handler
    (no pending request, DI_ESTOP clear) and AI_BSW_PROBE holds a number
    [bsw], the scan completes; it returns to RUNNING and leaves
    DO_DIVERT_CMD false when [bsw] is below [bsw_divert_pct] and the time
    since DIVERT was entered is strictly greater than
    [bsw_divert_delay_sec]; in every other case it stays in DIVERT with
    DO_DIVERT_CMD true.  Earlier readings play no part. *)
Theorem C3_divert_returns_on_time_in_state sp now (c : Ctx LACTStateMachine) bsw :
  state (self c) = DIVERT ->
  _request_state (self c) = None ->
  truthy (DS.read (store c) "DI_ESTOP") = false ->
  as_num (DS.read (store c) "AI_BSW_PROBE") = Some bsw ->
  exists c',
    execute sp now c = (Ok tt, c')
    /\ ((bsw < bsw_divert_pct sp
         /\ bsw_divert_delay_sec sp < now - _state_entry_time (self c)) ->
        state (self c') = RUNNING
        /\ DS.read (store c') "DO_DIVERT_CMD" = Some (VBool false))
    /\ (~ (bsw < bsw_divert_pct sp
           /\ bsw_divert_delay_sec sp < now - _state_entry_time (self c)) ->
        state (self c') = DIVERT
        /\ DS.read (store c') "DO_DIVERT_CMD" = Some (VBool true)).
Proof.
  intros Hst Hreq Hestop Hbsw.
  destruct (divert_scan sp now c bsw Hst Hreq Hestop Hbsw) as (c' & E & Hc).
  exists c'. split; [exact E|].
  destruct (Qlt_bool bsw (bsw_divert_pct sp)) eqn:E1;
    destruct (Qgt_bool (now - _state_entry_time (self c)) (bsw_divert_delay_sec sp))
      eqn:E2; cbn [andb] in Hc.
  - split; [intros _; exact Hc|]. intros Hn. exfalso. apply Hn.
    split; [by apply Qlt_bool_iff | by apply Qgt_bool_iff].
  - split; [|intros _; exact Hc]. intros [_ Hd].
    apply Qgt_bool_iff in Hd. congruence.
  - split; [|intros _; exact Hc]. intros [Hb _].
    apply Qlt_bool_iff in Hb. congruence.
  - split; [|intros _; exact Hc]. intros [Hb _].
    apply Qlt_bool_iff in Hb. congruence.
Qed.

(** The theorem at the state reached by [startup_then_divert], scanned
    at [t = 25.5] after the reading dropped to 0.3 %. *)
Lemma C3_witness :
  let c := sm_run.step (sm_run.Write (51 # 2) "AI_BSW_PROBE" (VFloat (3 # 10)) GOOD)
             (sm_run.run startup_then_divert (mkCtx (init 0) DS.init)) in
  exists c',
    execute default_setpoints (51 # 2) c = (Ok tt, c')
    /\ state (self c') = RUNNING
    /\ DS.read (store c') "DO_DIVERT_CMD" = Some (VBool false).
Proof.
  intros c.
  destruct (C3_divert_returns_on_time_in_state default_setpoints (51 # 2) c (3 # 10))
    as (c' & E & Hyes & _).
  - vm_compute; reflexivity.
  - vm_compute; reflexivity.
  - vm_compute; reflexivity.
  - vm_compute; reflexivity.
  - exists c'. split; [exact E|]. apply Hyes.
    split; vm_compute; reflexivity.
Defined.

End Divert.

(** * C8: alarm states *)

Section Alarms.
Import alarms alarm_run.

(** C8, counterexample: a latching alarm after activate, acknowledge,
    deactivate is inactive and not acknowledged (and so is every freshly
    created alarm state). *)
Lemma C8_counterexample : ~ inactive_is_acknowledged.
Proof.
  intros H.
  specialize (H (defn "ALM_ESTOP" "Emergency stop activated" CRITICAL EMERGENCY_STOP)
                [Activate 1 0; Acknowledge; Deactivate]).
  simpl in H. specialize (H eq_refl). discriminate H.
Qed.

Example fresh_alarm_not_acknowledged d :
  active (new_state d) = false /\ acknowledged (new_state d) = false.
Proof. split; reflexivity. Qed.

Lemma step_definition op s : definition (step op s) = definition s.
Proof.
  destruct op; simpl; unfold activate, deactivate, acknowledge; simpl;
    repeat match goal with |- context [if ?b then _ else _] => destruct b end;
    reflexivity.
Qed.

Lemma run_definition ops s : definition (run ops s) = definition s.
Proof.
  revert s. induction ops as [|op ops IH]; intros s; simpl; [reflexivity|].
  unfold run in IH. rewrite IH. apply step_definition.
Qed.

Lemma step_non_latching_inv op s :
  non_latching_inv s -> non_latching_inv (step op s).
Proof.
  unfold non_latching_inv. rewrite step_definition. intros IH L.
  specialize (IH L). destruct s as [d a k t v]. simpl in *.
  destruct op; simpl; unfold activate, deactivate, acknowledge; simpl;
    rewrite ?L; destruct a, k; simpl in *; congruence.
Qed.

Lemma run_non_latching_inv ops s :
  non_latching_inv s -> non_latching_inv (run ops s).
Proof.
  revert s. induction ops as [|op ops IH]; intros s Hs; simpl; [exact Hs|].
  apply IH, step_non_latching_inv, Hs.
Qed.

Lemma managed_step_definition op s : definition (managed_step op s) = definition s.
Proof.
  destruct op; simpl; try apply (step_definition (Activate _ _));
    try apply (step_definition Deactivate).
  destruct (active s); [apply (step_definition Acknowledge) | reflexivity].
Qed.

Lemma managed_run_definition ops s : definition (managed_run ops s) = definition s.
Proof.
  revert s. induction ops as [|op ops IH]; intros s; simpl; [reflexivity|].
  unfold managed_run in IH. rewrite IH. apply managed_step_definition.
Qed.

Lemma managed_step_latching_inv op s :
  latching_inv s -> latching_inv (managed_step op s).
Proof.
  unfold latching_inv. rewrite managed_step_definition. intros IH L.
  specialize (IH L). destruct s as [d a k t v]. simpl in *.
  destruct op; simpl; unfold activate, deactivate, acknowledge; simpl;
    rewrite ?L; destruct a, k; simpl in *; congruence.
Qed.

Lemma managed_run_latching_inv ops s :
  latching_inv s -> latching_inv (managed_run ops s).
Proof.
  revert s. induction ops as [|op ops IH]; intros s Hs; simpl; [exact Hs|].
  apply IH, managed_step_latching_inv, Hs.
Qed.

(** C8, as the code has it.  For every alarm state reachable from the
    initial one by activate, deactivate and acknowledge: the alarm counts
    as unacknowledged (the test of [get_unacknowledged_alarms]) only while
    it is active; the [acknowledged] flag is false in the initial state
    and, whenever the alarm is inactive after a [deactivate], it is false
    again; a non-latching alarm is never both active and acknowledged; and
    when the operations are issued as [SafetyManager] issues them
    (acknowledge only an active alarm), an inactive latching alarm has
    [acknowledged = false]. *)
Theorem C8_unacknowledged_only_while_active d ops :
  let s := run ops (new_state d) in
  let m := managed_run ops (new_state d) in
  (if is_unacknowledged s then active s = true else True)
  /\ acknowledged (new_state d) = false
  /\ (if active (deactivate s) then True else acknowledged (deactivate s) = false)
  /\ (if latching d then True else active s && acknowledged s = false)
  /\ (if latching d && negb (active m) then acknowledged m = false else True).
Proof.
  intros s m. split; [|split; [|split; [|split]]].
  - unfold is_unacknowledged. destruct (active s); simpl; [|exact I].
    destruct (acknowledged s); simpl; auto.
  - reflexivity.
  - unfold deactivate.
    destruct (negb (latching (definition s)) || acknowledged s) eqn:E; simpl; [reflexivity|].
    destruct (active s); [exact I|].
    apply orb_false_iff in E. tauto.
  - destruct (latching d) eqn:L; [exact I|].
    assert (non_latching_inv s) as Hinv.
    { apply run_non_latching_inv. intros _. reflexivity. }
    apply Hinv. subst s. rewrite run_definition. exact L.
  - destruct (latching d) eqn:L; [|exact I].
    assert (latching_inv m) as Hinv.
    { apply managed_run_latching_inv. intros _. reflexivity. }
    unfold latching_inv in Hinv. subst m.
    rewrite managed_run_definition in Hinv. specialize (Hinv L).
    destruct (active _), (acknowledged _); simpl in *;
      first [exact I | reflexivity | discriminate Hinv].
Qed.

End Alarms.

(** * C9: the CTL factor *)

Section CTL.
Import temperature.

Lemma clamp_bounds (lo hi x : Q) :
  lo <= hi -> lo <= Qmax lo (Qmin hi x) /\ Qmax lo (Qmin hi x) <= hi.
Proof.
  intros H. split.
  - apply Q.le_max_l.
  - apply Q.max_lub; [exact H | apply Q.le_min_l].
Qed.

Lemma compute_ctl_bounds e sp T :
  9 # 10 <= _compute_ctl e sp T /\ _compute_ctl e sp T <= 11 # 10.
Proof.
  unfold _compute_ctl. cbv zeta.
  destruct (Qlt_bool _ _).
  - split; discriminate.
  - apply clamp_bounds. discriminate.
Qed.

Lemma compute_ctl_at_base e sp T :
  Qabs (T - temp_base_deg_f sp) < 1 # 100 -> _compute_ctl e sp T = 1.
Proof.
  intros H. unfold _compute_ctl. cbv zeta.
  apply Qlt_bool_iff in H. by rewrite H.
Qed.

Lemma temperature_execute_publishes e sp now (c : Ctx unit) T :
  as_num (DS.read (store c) "AI_METER_TEMP") = Some T ->
  exists c',
    execute e sp now c = (Ok tt, c')
    /\ DS.read (store c') "CTL_FACTOR"
       = Some (VFloat (py_round (_compute_ctl e sp T) 6)).
Proof.
  intros HT. unfold execute.
  unfold bind, ret, raise, gets, modify, ds_read, ds_write, ds_write_q, num.
  rewrite HT. unfold ret. cbn [self store].
  eexists. split; [reflexivity|]. by ds_simpl.
Qed.

(** C9.  Whatever [math.exp] returns, [_compute_ctl] lies in [0.9, 1.1]
    for every input temperature; it is exactly 1.0 whenever
    [|T - temp_base_deg_f| < 0.01], in particular at 60 with the default
    base; and [execute], reading the number [T] from AI_METER_TEMP,
    completes and leaves in CTL_FACTOR that result rounded to 6
    decimals. *)
Theorem C9_ctl_clamped_and_published e sp T :
  (9 # 10 <= _compute_ctl e sp T /\ _compute_ctl e sp T <= 11 # 10)
  /\ (Qabs (T - temp_base_deg_f sp) < 1 # 100 -> _compute_ctl e sp T = 1)
  /\ _compute_ctl e default_setpoints 60 = 1
  /\ (forall now (c : Ctx unit),
        as_num (DS.read (store c) "AI_METER_TEMP") = Some T ->
        exists c',
          execute e sp now c = (Ok tt, c')
          /\ DS.read (store c') "CTL_FACTOR"
             = Some (VFloat (py_round (_compute_ctl e sp T) 6))).
Proof.
  split; [apply compute_ctl_bounds|].
  split; [apply compute_ctl_at_base|].
  split; [reflexivity|].
  intros now c. apply temperature_execute_publishes.
Qed.

(** The theorem at 60.005 degrees F, on the initial store rewritten with
    that reading. *)
Lemma C9_witness :
  _compute_ctl exp_taylor default_setpoints (60005 # 1000) = 1
  /\ exists c',
      execute exp_taylor default_setpoints 0
              (mkCtx tt (DS.write 0 "AI_METER_TEMP" (VFloat (60005 # 1000)) GOOD DS.init))
      = (Ok tt, c')
      /\ DS.read (store c') "CTL_FACTOR" = Some (VFloat 1).
Proof.
  destruct (C9_ctl_clamped_and_published exp_taylor default_setpoints (60005 # 1000))
    as (_ & Hbase & _ & Hexec).
  split.
  - apply Hbase. vm_compute. reflexivity.
  - destruct (Hexec 0 (mkCtx tt (DS.write 0 "AI_METER_TEMP" (VFloat (60005 # 1000)) GOOD DS.init)))
      as (c' & E & R).
    + vm_compute. reflexivity.
    + exists c'. split; [exact E|]. rewrite R.
      rewrite Hbase by (vm_compute; reflexivity). vm_compute. reflexivity.
Defined.

Example ctl_clamped_at_1000F :
  _compute_ctl exp_taylor default_setpoints 1000 = 9 # 10.
Proof. vm_compute. reflexivity. Qed.

End CTL.

(** * C7: pump starts per hour *)

Section Pump.
Import pump_control pump_run.

Lemma within_one_hour_spec times ti tj :
  within_one_hour times = true -> In ti times -> In tj times -> tj - 3600 < ti.
Proof.
  unfold within_one_hour. rewrite forallb_forall. intros H Hi Hj.
  specialize (H tj Hj). rewrite forallb_forall in H.
  apply Qlt_bool_iff, H, Hi.
Qed.

Lemma deque_append_length x d :
  (length d <= maxlen)%nat ->
  length (deque_append x d) = Nat.min (length d + 1) maxlen.
Proof.
  intros H. unfold deque_append. cbv zeta.
  destruct (maxlen <? length (d ++ [x]))%nat eqn:E;
    rewrite length_app in E; cbn [length] in E.
  - apply Nat.ltb_lt in E. rewrite length_drop, length_app.
    cbn [length]. lia.
  - apply Nat.ltb_ge in E. rewrite length_app. cbn [length]. lia.
Qed.

Lemma deque_append_In x d y : In y (deque_append x d) -> In y d \/ y = x.
Proof.
  unfold deque_append. cbv zeta. intros H.
  assert (In y (d ++ [x])) as H'.
  { destruct (maxlen <? length (d ++ [x]))%nat; [|exact H].
    apply list_elem_of_In. apply list_elem_of_In in H.
    eapply subseteq_drop, H. }
  apply in_app_or in H'. destruct H' as [?|[<-|[]]]; auto.
Qed.

Lemma count_recent_all cutoff d :
  (forall y, In y d -> cutoff < y) -> count_recent cutoff d = Z.of_nat (length d).
Proof.
  intros H. unfold count_recent. f_equal. f_equal.
  induction d as [|y d IH]; simpl; [reflexivity|].
  assert (Qgt_bool y cutoff = true) as ->.
  { apply Qgt_bool_iff, H. by left. }
  simpl. f_equal. apply IH. intros z Hz. apply H. by right.
Qed.

Lemma record_start_within_hour sp seen t p :
  (forall y, In y (_start_times p) -> In y seen) ->
  length (_start_times p) = Nat.min (length seen) maxlen ->
  (forall y, In y seen -> t - 3600 < y) ->
  let '(r, p1) := record_start sp t p in
  r = call_result (pump_max_starts_per_hour sp) (length seen)
  /\ (forall y, In y (_start_times p1) -> In y (seen ++ [t]))
  /\ length (_start_times p1) = Nat.min (length (seen ++ [t])) maxlen
  /\ _locked_out p1 = _locked_out p || negb r.
Proof.
  intros Hsub Hlen Hrecent. unfold record_start. cbv zeta.
  cbn [_start_times set_start_times].
  assert (length (deque_append t (_start_times p))
          = Nat.min (length seen + 1) maxlen) as Hlen1.
  { rewrite deque_append_length by lia. rewrite Hlen. unfold maxlen. lia. }
  assert (forall y, In y (deque_append t (_start_times p)) -> In y (seen ++ [t]))
    as Hsub1.
  { intros y Hy. apply in_or_app. apply deque_append_In in Hy.
    destruct Hy as [Hy| ->]; [left; by apply Hsub | right; by left]. }
  rewrite count_recent_all.
  2:{ intros y Hy. apply Hsub1 in Hy. apply in_app_or in Hy.
      destruct Hy as [Hy|[<-|[]]]; [by apply Hrecent|].
      unfold Qlt, Qminus, Qplus, Qopp; simpl. lia. }
  rewrite Hlen1. unfold call_result.
  destruct (_ <=? _)%Z; cbn [negb _start_times _locked_out set_locked_out set_start_times];
    repeat split; try assumption; try (rewrite length_app; simpl; exact Hlen1).
  - by rewrite orb_true_r.
  - by rewrite orb_false_r.
Qed.

Lemma record_starts_within_hour sp seen times p :
  (forall y, In y (_start_times p) -> In y seen) ->
  length (_start_times p) = Nat.min (length seen) maxlen ->
  (forall ti tj, In ti (seen ++ times) -> In tj (seen ++ times) -> tj - 3600 < ti) ->
  fst (record_starts sp times p)
  = call_result (pump_max_starts_per_hour sp) <$> seq (length seen) (length times)
  /\ _locked_out (snd (record_starts sp times p))
     = _locked_out p || existsb negb (fst (record_starts sp times p)).
Proof.
  revert seen p. induction times as [|t rest IH]; intros seen p Hsub Hlen Hhour.
  - simpl. split; [reflexivity | by rewrite orb_false_r].
  - simpl.
    pose proof (record_start_within_hour sp seen t p Hsub Hlen) as Hstep.
    destruct (record_start sp t p) as [r p1].
    destruct Hstep as (Hr & Hsub1 & Hlen1 & Hlock).
    { intros y Hy. apply Hhour; apply in_or_app; [by left | right; by left]. }
    specialize (IH (seen ++ [t]) p1 Hsub1 Hlen1).
    destruct (record_starts sp rest p1) as [rs p2]. simpl in *.
    destruct IH as [IH1 IH2].
    { intros ti tj. rewrite <- !app_assoc. simpl. apply Hhour. }
    split.
    + rewrite Hr, IH1. rewrite length_app. simpl.
      by replace (length seen + 1)%nat with (S (length seen)) by lia.
    + rewrite IH2, Hlock. by rewrite orb_assoc.
Qed.

Lemma fmap_all_true {A} (f : A -> bool) (l : list A) :
  (forall k, In k l -> f k = true) -> f <$> l = replicate (length l) true.
Proof.
  induction l as [|a l IH]; intros H; simpl; [reflexivity|].
  rewrite H by (by left). f_equal. apply IH. intros k Hk. apply H. by right.
Qed.

(** C7, counterexample: with a limit of 21, twenty-one starts one second
    apart all succeed -- the deque keeps 20 instants, so the count never
    reaches 21. *)
Lemma C7_counterexample : ~ nth_start_rejected.
Proof.
  intros H.
  specialize (H (update_pump_max_starts_per_hour 21%Z default_setpoints)
                ((fun k => inject_Z (Z.of_nat k)) <$> seq 1 21)).
  cbv zeta in H. destruct H as [H _]; [by vm_compute | by vm_compute | by vm_compute |].
  vm_compute in H. discriminate H.
Qed.

(** C7, as the code has it.  Of calls of [record_start] on a fresh
    [PumpControl], all within one rolling hour, the call that follows [k]
    earlier ones succeeds exactly when [min (k + 1) 20] is below the limit
    [N], and the lockout is latched once a call failed.  So for
    [1 <= N <= 20] the first [N - 1] calls succeed and the [N]-th is the
    first to fail and latches the lockout. *)
Theorem C7_nth_start_rejected_up_to_20 sp times :
  let N := pump_max_starts_per_hour sp in
  within_one_hour times = true ->
  (fst (record_starts sp times init) = call_result N <$> seq 0 (length times)
   /\ _locked_out (snd (record_starts sp times init))
      = existsb negb (fst (record_starts sp times init)))
  /\ ((1 <= N <= 20)%Z ->
      Z.of_nat (length times) = N ->
      fst (record_starts sp times init) = replicate (Z.to_nat N - 1) true ++ [false]
      /\ _locked_out (snd (record_starts sp times init)) = true).
Proof.
  intros N Hhour.
  assert (fst (record_starts sp times init) = call_result N <$> seq 0 (length times)
          /\ _locked_out (snd (record_starts sp times init))
             = existsb negb (fst (record_starts sp times init))) as Hgen.
  { apply (record_starts_within_hour sp [] times init).
    - intros y [].
    - reflexivity.
    - intros ti tj Hi Hj. simpl in Hi, Hj.
      by apply (within_one_hour_spec times). }
  split; [exact Hgen|].
  intros HN Hlen. destruct Hgen as [Hres Hlock].
  assert (fst (record_starts sp times init)
          = replicate (Z.to_nat N - 1) true ++ [false]) as Hshape.
  { rewrite Hres.
    assert (length times = S (Z.to_nat N - 1)) as -> by lia.
    rewrite seq_S, fmap_app. f_equal.
    - rewrite fmap_all_true.
      + by rewrite length_seq.
      + intros k Hk. apply in_seq in Hk. unfold call_result, maxlen.
        apply negb_true_iff, Z.leb_gt. lia.
    - simpl. unfold call_result, maxlen. f_equal.
      apply negb_false_iff, Z.leb_le. lia. }
  split; [exact Hshape|].
  rewrite Hlock, Hshape, existsb_app. simpl. by rewrite orb_true_r.
Qed.

(** The theorem at the default limit of 6, six starts ten minutes
    apart. *)
Lemma C7_witness :
  fst (record_starts default_setpoints [0; 600; 1200; 1800; 2400; 3000] init)
  = [true; true; true; true; true; false]
  /\ _locked_out (snd (record_starts default_setpoints
                         [0; 600; 1200; 1800; 2400; 3000] init)) = true.
Proof.
  destruct (C7_nth_start_rejected_up_to_20 default_setpoints
              [0; 600; 1200; 1800; 2400; 3000]) as [_ H].
  - vm_compute. reflexivity.
  - apply H.
    + simpl. lia.
    + reflexivity.
Defined.

End Pump.

(** * C5: the proving calculation *)

Section Proving.
Import proving.

Lemma Qsum_from (l : list Q) (a : Q) : fold_left Qplus l a == a + Qsum l.
Proof.
  unfold Qsum. revert a. induction l as [|x l IH]; intros a; simpl.
  - ring.
  - rewrite IH, (IH (0 + x)). ring.
Qed.

Lemma Qsum_pos (l : list Q) :
  l <> [] -> Forall (fun x => 0 < x) l -> 0 < Qsum l.
Proof.
  intros Hne Hall. destruct l as [|x l]; [done|].
  unfold Qsum. simpl. rewrite Qsum_from.
  apply Forall_cons in Hall as [Hx Hl].
  assert (0 <= Qsum l) as Hnn.
  { clear Hne Hx. induction l as [|y l IH]; [discriminate|].
    apply Forall_cons in Hl as [Hy Hl]. unfold Qsum. simpl.
    rewrite Qsum_from. specialize (IH Hl). lra. }
  lra.
Qed.

(** With run meter factors all positive -- as [_end_run] computes them --
    the average is not zero. *)
Lemma avg_of_pos (mfs : list Q) :
  mfs <> [] -> Forall (fun x => 0 < x) mfs -> 0 < avg_of mfs.
Proof.
  intros Hne Hall. unfold avg_of.
  apply Qlt_shift_div_l.
  - destruct mfs; [done|]. unfold Qlt. simpl. lia.
  - rewrite Qmult_0_l. by apply Qsum_pos.
Qed.

Lemma run_meter_factor_pos k pulses : 0 < run_meter_factor k pulses.
Proof.
  unfold run_meter_factor.
  destruct (Qgt_bool k 0) eqn:Ek; destruct (Qgt_bool pulses 0) eqn:Ep;
    cbn [andb]; try reflexivity.
  apply Qgt_bool_iff in Ek. apply Qgt_bool_iff in Ep.
  apply Qlt_shift_div_l.
  - apply Qlt_shift_div_l; [exact Ek | lra].
  - lra.
Qed.

(** The run list of a prover only ever holds positive meter factors: it is
    empty at creation and after [start_proving], and [execute] appends to
    it only what [_end_run] computed. *)
Lemma init_runs_positive : runs_positive init.
Proof. constructor. Qed.

Lemma start_proving_runs_positive now p : runs_positive (start_proving now p).
Proof. constructor. Qed.

Lemma execute_keeps_runs_positive sp now (c : Ctx ProvingManager) :
  runs_positive (self c) -> runs_positive (self (snd (execute sp now c))).
Proof.
  intros H. destruct c as [[st rs cur t0 rmf rrep] ds].
  unfold runs_positive in *. cbn [self runs] in H.
  unfold execute, _handle_setup, _handle_running, _end_run, _start_run,
    _handle_calculating, _handle_complete, _handle_failed.
  unfold bind, ret, raise, gets, modify, ds_read, ds_write, ds_write_q, num.
  cbn [self store state runs current_run fst snd].
  destruct st; cbn [self store state runs current_run fst snd]; try exact H.
  - repeat match goal with
           | |- context [if ?b then _ else _] => destruct b
           end; cbn; exact H.
  - destruct cur as [run|]; [|exact H].
    destruct (Qge_bool _ _); [|exact H].
    cbn -[as_num].
    destruct (py_sub _ _) as [d|]; [|exact H].
    cbn -[as_num]. destruct (as_num (Some d)) as [pulses|];
      unfold ret, raise; cbn -[as_num]; [|exact H].
    assert (Forall (fun r => 0 < meter_factor r)
              (rs ++ [mkRun (start_time run) now (Some d) 10 (temperature_f run)
                            (pressure_psi run)
                            (run_meter_factor (meter_k_factor sp) pulses)])) as H'.
    { apply Forall_app. split; [exact H|]. constructor; [|constructor].
      cbn. apply run_meter_factor_pos. }
    destruct (_ <=? _)%Z; cbn; exact H'.
  - destruct (meter_factor <$> rs); [exact H|].
    cbn. repeat match goal with
           | |- context [if ?b then _ else _] => destruct b
           end; cbn; exact H.
Qed.

(** So the average of a non-empty run list is never zero there. *)
Lemma positive_runs_average (p : ProvingManager) :
  runs_positive p -> runs p <> [] ->
  ~ avg_of (meter_factor <$> runs p) == 0.
Proof.
  intros H Hne.
  assert (0 < avg_of (meter_factor <$> runs p)); [|lra].
  apply avg_of_pos.
  - destruct (runs p); [done | discriminate].
  - unfold runs_positive in H. by apply Forall_fmap.
Qed.



(** Five runs of 1000 pulses against the 10-bbl reference at 100 pulses
    per barrel: every factor is 1, the prove completes and METER_FACTOR is
    written. *)
Example prove_of_five_equal_runs :
  let rs := (fun _ : nat => mkRun 0 60 (Some (VInt 1000)) 10 (Some (VFloat 60))
                                  (Some (VFloat 0)) (run_meter_factor 100 1000))
              <$> seq 0 5 in
  let c' := snd (execute default_setpoints 300
                         (mkCtx (mkProving CALCULATING rs None 0 0 0) DS.init)) in
  state (self c') = COMPLETE
  /\ result_repeatability (self c') = 0
  /\ DS.read (store c') "METER_FACTOR" = Some (VFloat 1)
  /\ DS_timestamp <$> (store c' !! "METER_FACTOR") = Some 300.
Proof. vm_compute. repeat split. Qed.

End Proving.

(** * Rounding is monotone *)

Lemma Qround_half_even_bounds (x : Q) :
  (Qfloor x <= Qround_half_even x <= Qfloor x + 1)%Z.
Proof.
  unfold Qround_half_even. cbv zeta.
  repeat match goal with |- context [if ?b then _ else _] => destruct b end; lia.
Qed.

Lemma Qround_half_even_mono (a b : Q) :
  a <= b -> (Qround_half_even a <= Qround_half_even b)%Z.
Proof.
  intros Hab. pose proof (Qfloor_resp_le a b Hab) as Hf.
  destruct (Z.eq_dec (Qfloor a) (Qfloor b)) as [E|N].
  - unfold Qround_half_even. cbv zeta. rewrite <- E.
    assert (a - inject_Z (Qfloor a) <= b - inject_Z (Qfloor a)) as Hr by lra.
    destruct (Qlt_bool (a - _) _) eqn:A1.
    + repeat match goal with |- context [if ?c then _ else _] => destruct c end; lia.
    + apply Qlt_bool_false_iff in A1.
      destruct (Qlt_bool (b - _) _) eqn:B1.
      { apply Qlt_bool_iff in B1. lra. }
      destruct (Qlt_bool _ (a - _)) eqn:A2.
      * apply Qlt_bool_iff in A2.
        assert (Qlt_bool (1 # 2) (b - inject_Z (Qfloor a)) = true) as ->
          by (apply Qlt_bool_iff; lra).
        lia.
      * repeat match goal with |- context [if ?c then _ else _] => destruct c end; lia.
  - pose proof (Qround_half_even_bounds a). pose proof (Qround_half_even_bounds b).
    lia.
Qed.

Lemma py_round_mono (a b : Q) (n : nat) : a <= b -> py_round a n <= py_round b n.
Proof.
  intros Hab. unfold py_round. cbv zeta. rewrite !Qred_correct.
  assert (0 < inject_Z (10 ^ Z.of_nat n)) as Hs.
  { change 0 with (inject_Z 0). rewrite <- Zlt_Qlt. apply Z.pow_pos_nonneg; lia. }
  apply Qmult_le_compat_r.
  - rewrite <- Zle_Qle. apply Qround_half_even_mono.
    apply Qmult_le_compat_r; [exact Hab | lra].
  - apply Qlt_le_weak, Qinv_lt_0_compat, Hs.
Qed.

(** * C6 and C10: flow totals *)

Section Flow.
Import flow_measurement.

(** One scan of the totalizer, in closed form. *)
Lemma flow_execute_outcome sp now (c : Ctx FlowMeasurement) pulses mf ctl :
  as_num (DS.read (store c) "PI_METER_PULSE") = Some pulses ->
  or_default (DS.read (store c) "METER_FACTOR") 1 = Some mf ->
  or_default (DS.read (store c) "CTL_FACTOR") 1 = Some ctl ->
  exists c',
    execute sp now c = (Ok tt, c')
    /\ _gross_total_bbl (self c') = gross_after sp (self c) pulses
    /\ _last_pulse_count (self c') = pulses
    /\ DS.read (store c') "FLOW_TOTAL_BBL"
       = Some (VFloat (py_round (gross_after sp (self c) pulses) 4))
    /\ DS.read (store c') "BATCH_GROSS_BBL"
       = Some (VFloat (py_round (gross_after sp (self c) pulses * mf) 4))
    /\ DS.read (store c') "FLOW_NET_BBL"
       = Some (VFloat (py_round (gross_after sp (self c) pulses * mf * ctl) 4))
    /\ DS.read (store c') "BATCH_NET_BBL"
       = Some (VFloat (py_round (gross_after sp (self c) pulses * mf * ctl) 4)).
Proof.
  intros Hp Hmf Hctl. destruct c as [[lc lt rate gross] ds].
  cbn [self store] in *. unfold or_default in Hmf, Hctl.
  destruct (execute sp now _) as [r c'] eqn:H.
  unfold execute in H.
  repeat first
    [ progress (unfold_method H)
    | progress (cbn [_last_pulse_count _last_pulse_time _flow_rate_bph
                     _gross_total_bbl set_last_pulse_count set_last_pulse_time
                     set_flow_rate_bph set_gross_total_bbl] in H)
    | progress (rewrite ?Hp in H)
    | match type of H with
      | context [if truthy (DS.read ds "METER_FACTOR") then _ else _] =>
          destruct (truthy (DS.read ds "METER_FACTOR")); [rewrite Hmf in H|]
      | context [if truthy (DS.read ds "CTL_FACTOR") then _ else _] =>
          destruct (truthy (DS.read ds "CTL_FACTOR")); [rewrite Hctl in H|]
      | context [if (Qgt_bool ?a ?b && Qgt_bool ?x ?y) then _ else _] =>
          destruct (Qgt_bool a b && Qgt_bool x y)
      | context [if Qgt_bool ?a 2 then _ else _] => destruct (Qgt_bool a 2)
      end ].
  all: injection H as <- <-.
  all: try injection Hmf as <-; try injection Hctl as <-.
  all: eexists; (split; [reflexivity|]).
  all: unfold gross_after; cbn [self store _gross_total_bbl _last_pulse_count].
  all: repeat split; by ds_simpl.
Qed.







Example flow_totals_100_then_250 :
  let c1 := snd (execute default_setpoints 1 flow_c0) in
  let c2 := snd (execute default_setpoints 2 (mkCtx (self c1) flow_ds2)) in
  DS.read (store c1) "FLOW_TOTAL_BBL" = Some (VFloat 1)
  /\ DS.read (store c2) "FLOW_TOTAL_BBL" = Some (VFloat (5 # 2)).
Proof. vm_compute. split; reflexivity. Qed.

(** C10, counterexample: with the METER_FACTOR tag at 0.0 the factor
    applied is 1.0; 100 pulses at 100 pulses per barrel give a gross total
    of 1 and BATCH_GROSS_BBL = 1, not 1 x 0. *)
Lemma C10_counterexample : ~ batch_gross_is_total_times_factor.
Proof.
  intros H.
  specialize (H default_setpoints 1 flow_mf0
                (snd (execute default_setpoints 1 flow_mf0)) 0 1).
  assert (1 == _gross_total_bbl (self (snd (execute default_setpoints 1 flow_mf0))) * 0)
    as E.
  { apply H; vm_compute; reflexivity. }
  vm_compute in E. discriminate E.
Qed.

(** C10, as the code has it.  On every scan of the totalizer that
    completes, FLOW_NET_BBL and BATCH_NET_BBL receive the same value;
    FLOW_TOTAL_BBL is the gross accumulator rounded to 4 decimals and
    BATCH_GROSS_BBL is that same accumulator times the meter factor
    applied -- the METER_FACTOR tag, or 1.0 when the tag is zero or
    unset -- rounded to 4 decimals; and [reset_totals] zeros the
    accumulator and the four tags together. *)
Theorem C10_batch_and_cumulative_totals_coincide
    sp now (c : Ctx FlowMeasurement) pulses mf ctl :
  as_num (DS.read (store c) "PI_METER_PULSE") = Some pulses ->
  or_default (DS.read (store c) "METER_FACTOR") 1 = Some mf ->
  or_default (DS.read (store c) "CTL_FACTOR") 1 = Some ctl ->
  (exists c',
      execute sp now c = (Ok tt, c')
      /\ DS.read (store c') "FLOW_NET_BBL" = DS.read (store c') "BATCH_NET_BBL"
      /\ DS.read (store c') "FLOW_TOTAL_BBL"
         = Some (VFloat (py_round (_gross_total_bbl (self c')) 4))
      /\ DS.read (store c') "BATCH_GROSS_BBL"
         = Some (VFloat (py_round (_gross_total_bbl (self c') * mf) 4)))
  /\ (exists c0,
        reset_totals now c = (Ok tt, c0)
        /\ _gross_total_bbl (self c0) = 0
        /\ DS.read (store c0) "FLOW_TOTAL_BBL" = Some (VFloat 0)
        /\ DS.read (store c0) "FLOW_NET_BBL" = Some (VFloat 0)
        /\ DS.read (store c0) "BATCH_GROSS_BBL" = Some (VFloat 0)
        /\ DS.read (store c0) "BATCH_NET_BBL" = Some (VFloat 0)).
Proof.
  intros Hp Hmf Hctl. split.
  - destruct (flow_execute_outcome sp now c pulses mf ctl Hp Hmf Hctl)
      as (c' & E & G & _ & T & BG & FN & BN).
    exists c'. split; [exact E|]. split; [by rewrite FN, BN|].
    rewrite G. split; assumption.
  - eexists. split; [reflexivity|]. cbn [self store].
    split; [reflexivity|]. repeat split; by ds_simpl.
Qed.

Lemma C10_witness :
  (exists c',
      execute default_setpoints 1 flow_mf105 = (Ok tt, c')
      /\ DS.read (store c') "FLOW_NET_BBL" = DS.read (store c') "BATCH_NET_BBL"
      /\ DS.read (store c') "FLOW_TOTAL_BBL"
         = Some (VFloat (py_round (_gross_total_bbl (self c')) 4))
      /\ DS.read (store c') "BATCH_GROSS_BBL"
         = Some (VFloat (py_round (_gross_total_bbl (self c') * (105 # 100)) 4)))
  /\ (exists c0,
        reset_totals 1 flow_mf105 = (Ok tt, c0)
        /\ _gross_total_bbl (self c0) = 0
        /\ DS.read (store c0) "FLOW_TOTAL_BBL" = Some (VFloat 0)
        /\ DS.read (store c0) "FLOW_NET_BBL" = Some (VFloat 0)
        /\ DS.read (store c0) "BATCH_GROSS_BBL" = Some (VFloat 0)
        /\ DS.read (store c0) "BATCH_NET_BBL" = Some (VFloat 0)).
Proof.
  apply (C10_batch_and_cumulative_totals_coincide default_setpoints 1
           flow_mf105 100 (105 # 100) 1);
    vm_compute; reflexivity.
Defined.

Example batch_gross_with_factor_105 :
  DS.read (store (snd (execute default_setpoints 1 flow_mf105))) "BATCH_GROSS_BBL"
  = Some (VFloat (21 # 20)).
Proof. vm_compute. reflexivity. Qed.

End Flow.

(** * The scan cycle *)

Ltac invert_bind H :=
  let a := fresh "a" in
  let c := fresh "c" in
  let S := fresh "Hstep" in
  apply bind_Ok in H; destruct H as (a & c & S & H);
  lazymatch type of S with
  | gets _ _ = _ => unfold gets in S; injection S as <- <-
  | modify _ _ = _ => unfold modify in S; injection S as <- <-
  | ret _ _ = _ => unfold ret in S; injection S as <- <-
  | _ => idtac
  end.

Section Scan.
Import state_machine controller.

(** A call on a component runs the component's method on the shared
    store and puts the component back. *)
Lemma call_inv {X A} (get : PLCController -> X) set (m : M X A) c r c' :
  call get set m c = (r, c') ->
  exists x',
    m (mkCtx (get (self c)) (store c)) = (r, mkCtx x' (store c'))
    /\ self c' = set x' (self c).
Proof.
  unfold call. destruct (m _) as [r1 [x1 d1]] eqn:E. intros [= <- <-].
  exists x1. split; reflexivity.
Qed.

Lemma sm_kept_refl s : sm_kept s s.
Proof. repeat split. Qed.

Lemma sm_kept_trans s1 s2 s3 : sm_kept s1 s2 -> sm_kept s2 s3 -> sm_kept s1 s3.
Proof. unfold sm_kept. intros (-> & -> & ->) (-> & -> & ->). repeat split. Qed.

Lemma component_step_refl P c : component_step P c c.
Proof. split; [apply sm_kept_refl | apply touches_refl]. Qed.

Lemma component_step_trans P c1 c2 c3 :
  component_step P c1 c2 -> component_step P c2 c3 -> component_step P c1 c3.
Proof.
  intros [S1 T1] [S2 T2]. split;
    [eapply sm_kept_trans | eapply touches_trans]; eassumption.
Qed.

Lemma component_step_weaken (P P' : string -> Value -> Prop) c c' :
  (forall t v, P t v -> P' t v) -> component_step P c c' -> component_step P' c c'.
Proof. intros HP [S T]. split; [exact S | eapply touches_weaken; eassumption]. Qed.

Lemma call_component_step {X A} P (get : PLCController -> X) set (m : M X A) c r c' :
  guarantees (touches P) m ->
  (forall x s, sm_kept s (set x s)) ->
  call get set m c = (r, c') ->
  component_step P c c'.
Proof.
  intros Hm Hset H. split.
  - apply call_inv in H as (x' & _ & ->). apply Hset.
  - eapply guarantees_touches_call; eassumption.
Qed.

Ltac comp_step H lem :=
  eapply (call_component_step _ _ _ _ _ _ _ lem) in H; [|intros; repeat split].

Lemma call_sm_kept {X A} (get : PLCController -> X) set (m : M X A) c r c' :
  (forall x s, sm_kept s (set x s)) ->
  call get set m c = (r, c') ->
  sm_kept (self c) (self c').
Proof. intros Hset H. apply call_inv in H as (x' & _ & ->). apply Hset. Qed.

(** One completed scan, phase by phase. *)
Lemma scan_Ok e now c c' :
  _execute_scan e now c = (Ok tt, c') ->
  exists c1 c2 c3 c6 c7,
    let p := sp (self c) in
    (* phases 1 and 2: inputs and safety *)
    sm_kept (self c) (self c1)
    (* phase 3: safety actions *)
    /\ store c2 = store c1
    /\ sp (self c2) = p
    /\ state (state_machine (self c2)) = state (state_machine (self c))
    /\ (state_machine (self c2) = state_machine (self c)
        \/ (state_machine (self c2)
            = request_transition SHUTDOWN (state_machine (self c))
            /\ state (state_machine (self c)) <> E_STOP
            /\ state (state_machine (self c)) <> SHUTDOWN
            /\ state (state_machine (self c)) <> IDLE)
        \/ (state_machine (self c2)
            = request_transition DIVERT (state_machine (self c))
            /\ state (state_machine (self c)) = RUNNING))
    (* phase 4: the state machine *)
    /\ state_machine.execute p now (mkCtx (state_machine (self c2)) (store c2))
       = (Ok tt, mkCtx (state_machine (self c3)) (store c3))
    (* phase 5: the modules *)
    /\ component_step always_run_writes c3 c6
    /\ match state (state_machine (self c3)) with
       | RUNNING | DIVERT =>
           sampler.execute p now (state (state_machine (self c3)))
                           (mkCtx (sampler (self c6)) (store c6))
           = (Ok tt, mkCtx (sampler (self c7)) (store c7))
           /\ sm_kept (self c6) (self c7)
       | _ => c7 = c6
       end
    (* rest of phase 5, and phase 6 *)
    /\ component_step (after_sampler_writes (state (state_machine (self c3)))) c7 c'.
Proof.
  intros H. unfold _execute_scan, call_static in H.
  repeat invert_bind H.
  repeat match goal with u : unit |- _ => destruct u end.
  rename c1 into c1', c0 into c0'.
  exists c1', c2, c3, c7, c8. cbv zeta.
  (* phases 1 and 2 *)
  apply call_sm_kept in Hstep; [|intros; repeat split].
  apply call_sm_kept in Hstep0; [|intros; repeat split].
  assert (sm_kept (self c) (self c1')) as K1.
  { eapply sm_kept_trans; [|exact Hstep0].
    eapply sm_kept_trans; [|exact Hstep]. repeat split. }
  destruct K1 as (Ksm & Ksp & Kmap).
  (* phase 3 *)
  assert (store c2 = store c1' /\ sp (self c2) = sp (self c)
          /\ (state_machine (self c2) = state_machine (self c)
              \/ (state_machine (self c2)
                  = request_transition SHUTDOWN (state_machine (self c))
                  /\ state (state_machine (self c)) <> E_STOP
                  /\ state (state_machine (self c)) <> SHUTDOWN
                  /\ state (state_machine (self c)) <> IDLE)
              \/ (state_machine (self c2)
                  = request_transition DIVERT (state_machine (self c))
                  /\ state (state_machine (self c)) = RUNNING))) as (K2 & K2sp & K2sm).
  { rewrite <- Ksm, <- Ksp.
    destruct (safety.shutdown_requested _);
      [|destruct (safety.divert_requested _)];
      destruct (state (state_machine (self c1'))) eqn:Est;
      injection Hstep1 as <-; cbn [self store sp state_machine set_state_machine];
      (split; [reflexivity|]); (split; [reflexivity|]);
      first [ left; reflexivity
            | right; left; repeat split; discriminate
            | right; right; split; reflexivity ]. }
  split; [repeat split; assumption|].
  split; [exact K2|]. split; [exact K2sp|].
  split.
  { destruct K2sm as [->|[[-> _]|[-> _]]]; reflexivity. }
  split; [exact K2sm|].
  (* phase 4 *)
  apply call_inv in Hstep2 as (sm' & Hsm & Eself).
  assert (state_machine (self c3) = sm') as Esm by (rewrite Eself; reflexivity).
  assert (sp (self c3) = sp (self c)) as Esp by (rewrite Eself; exact K2sp).
  split; [rewrite Esm; exact Hsm|].
  (* phase 5 *)
  comp_step Hstep3 (pressure_execute_touches (sp (self c)) now).
  comp_step Hstep4 (temperature_execute_touches e (sp (self c)) now).
  comp_step Hstep5 (flow_execute_touches (sp (self c)) now).
  comp_step Hstep6 (bsw_execute_touches (sp (self c)) now).
  comp_step Hstep9 (divert_execute_touches now).
  comp_step Hstep10 (pump_execute_touches (sp (self c)) now).
  comp_step H (write_outputs_touches (io_map (self c))).
  split.
  { eapply component_step_trans; [|eapply component_step_trans;
                                    [|eapply component_step_trans]].
    - eapply component_step_weaken; [|exact Hstep3].
      intros t v Ht. left. unfold only in *. simpl in *. tauto.
    - eapply component_step_weaken; [|exact Hstep4].
      intros t v Ht. left. unfold only in *. simpl in *. tauto.
    - eapply component_step_weaken; [|exact Hstep5].
      intros t v Ht. left. unfold only, flow_tags in *. simpl in *. tauto.
    - eapply component_step_weaken; [|exact Hstep6].
      intros t v Ht. left. unfold only in *. simpl in *. tauto. }
  split.
  { destruct (state (state_machine (self c3)));
      try (injection Hstep7 as <-; reflexivity);
      apply call_inv in Hstep7 as (x' & Hx & Es); rewrite Es;
      (split; [exact Hx | repeat split]). }
  assert (component_step (after_sampler_writes (state (state_machine (self c3)))) c8 c9)
    as Hprov.
  { destruct (state (state_machine (self c3))) eqn:Est;
      try (injection Hstep8 as <-; apply component_step_refl).
    comp_step Hstep8 (proving_execute_touches (sp (self c)) now).
    eapply component_step_weaken; [|exact Hstep8].
    intros t v Ht. right. split; [reflexivity | exact Ht]. }
  eapply component_step_trans; [exact Hprov|].
  eapply component_step_trans; [|eapply component_step_trans].
  - eapply component_step_weaken; [|exact Hstep9].
    intros t v Ht. left. left. unfold only in *. simpl in *. tauto.
  - eapply component_step_weaken; [|exact Hstep10].
    intros t v Ht. left. right. exact Ht.
  - eapply component_step_weaken; [|exact H].
    intros t v Ht. unfold only in Ht. simpl in Ht. tauto.
Qed.

End Scan.

(** ** Facts about the state machine and the sampler used by C1 and C4 *)

Section ScanFacts.
Import state_machine.

Lemma touches_keeps_value {X} P (c c' : Ctx X) t v0 :
  touches P c c' ->
  DS.read (store c) t = Some v0 ->
  (forall v, P t v -> v = v0) ->
  DS.read (store c') t = Some v0.
Proof.
  intros H Hr HP. unfold DS.read in *.
  destruct (H t) as [E|(cell & E & Hc)].
  - by rewrite E.
  - rewrite E. simpl. f_equal. by apply HP.
Qed.

(** With the E-stop input asserted, a scan of the state machine ends in
    E_STOP. *)
Lemma execute_estop_forces sp now (c c' : Ctx LACTStateMachine) r :
  execute sp now c = (r, c') ->
  truthy (DS.read (store c) "DI_ESTOP") = true ->
  state (self c') = E_STOP.
Proof.
  destruct c as [[st t0 s1 s2 req lg] ds]. cbn [self store]. intros H Hestop.
  unfold execute, _transition in H.
  destruct st, req as [[]|];
    run_sm_using H ltac:(rewrite ?Hestop in H);
    try (injection H as <- <-; reflexivity).
  all: unfold_handlers H;
    run_sm_using H ltac:(rewrite ?Hestop in H);
    injection H as <- <-; reflexivity.
Qed.

(** In E_STOP with no request pending and the E-stop input asserted, the
    handler runs and writes the all-safe pattern. *)
Lemma execute_estop_handler sp now (c c' : Ctx LACTStateMachine) r :
  execute sp now c = (r, c') ->
  state (self c) = E_STOP ->
  _request_state (self c) = None ->
  truthy (DS.read (store c) "DI_ESTOP") = true ->
  r = Ok tt /\ state (self c') = E_STOP /\ safe_pattern (store c').
Proof.
  destruct c as [[st t0 s1 s2 req lg] ds]. cbn [self store state _request_state].
  intros H -> -> Hestop.
  unfold execute, _transition in H. unfold_handlers H.
  run_sm_using H ltac:(rewrite ?Hestop in H).
  injection H as <- <-. split; [reflexivity|]. split; [reflexivity|].
  unfold safe_pattern. repeat split; by ds_simpl.
Qed.


End ScanFacts.

Section SamplerFacts.
Import sampler.





End SamplerFacts.

(** ** The scan after the state machine *)

Section ScanTail.
Import state_machine controller.

Lemma scan_tail st p now (c3 c6 c7 c' : Ctx PLCController) :
  st = state (state_machine (self c3)) ->
  component_step always_run_writes c3 c6 ->
  match st with
  | RUNNING | DIVERT =>
      sampler.execute p now st (mkCtx (sampler (self c6)) (store c6))
      = (Ok tt, mkCtx (sampler (self c7)) (store c7))
      /\ sm_kept (self c6) (self c7)
  | _ => c7 = c6
  end ->
  component_step (after_sampler_writes st) c7 c' ->
  component_step (tail_writes st) c3 c'.
Proof.
  intros Est H36 Hs H7.
  assert (component_step (tail_writes st) c6 c7) as H67.
  { destruct st; try (subst c7; apply component_step_refl);
      destruct Hs as [Hs K]; (split; [exact K|]);
      intros t; destruct (sampler_execute_touches _ _ _ _ _ _ Hs t) as [E|(cell & E & HP)];
      cbn [store] in *; [by left | right; exists cell; split; [exact E|]
                        | by left | right; exists cell; split; [exact E|]];
      right; split; auto. }
  eapply component_step_trans; [|eapply component_step_trans; [exact H67|]].
  - eapply component_step_weaken; [|exact H36].
    intros t v Hv. left. left. exact Hv.
  - eapply component_step_weaken; [|exact H7].
    intros t v Hv. left. exact Hv.
Qed.

End ScanTail.

(** A tag keeps its value, or is not written at all, through the part of
    the scan that follows the state machine. *)
Ltac not_written :=
  let v := fresh "v" in
  let Hv := fresh "Hv" in
  intros v Hv;
  unfold tail_writes, after_sampler_writes, always_run_writes, proving_writes,
    pump_writes, only, flow_tags, sampler_tags, state_machine_tags in Hv;
  simpl in Hv; intuition (try discriminate; try congruence).

(** * C1 and C4: what holds at the end of a scan *)

Section ScanClaims.
Import state_machine controller.

(** C1, as the code has it.  After every scan that completes, if the
    DI_ESTOP tag is true the state machine is in E_STOP; and if the scan
    began in E_STOP with no transition request pending -- so that the
    E_STOP handler ran on this scan rather than being skipped on the scan
    of the transition -- the commanded outputs hold the safe pattern:
    DO_PUMP_START false, DO_DIVERT_CMD true, DO_SAMPLE_SOL false,
    DO_SAMPLE_MIX_PUMP false, DO_PROVER_VLV_CMD false, DO_ALARM_BEACON
    true, DO_ALARM_HORN true. *)
Theorem C1_estop_state_and_safe_outputs e now (c c' : Ctx PLCController) :
  _execute_scan e now c = (Ok tt, c') ->
  truthy (DS.read (store c') "DI_ESTOP") = true ->
  state (state_machine (self c')) = E_STOP
  /\ (state (state_machine (self c)) = E_STOP ->
      _request_state (state_machine (self c)) = None ->
      safe_pattern (store c')).
Proof.
  intros H Hestop.
  apply scan_Ok in H
    as (c1 & c2 & c3 & c6 & c7 & K1 & Kst & Ksp & Kstate & Kreq & Hsm & H36 & Hs & H7).
  cbv zeta in *.
  pose proof (scan_tail _ _ _ _ _ _ _ eq_refl H36 Hs H7) as [Ktail Ttail].
  destruct Ktail as (Esm & _ & _).
  assert (DS.read (store c') "DI_ESTOP" = DS.read (store c3) "DI_ESTOP") as E3.
  { eapply touches_read; [exact Ttail | not_written]. }
  assert (DS.read (store c3) "DI_ESTOP" = DS.read (store c2) "DI_ESTOP") as E2.
  { eapply (touches_read _ (mkCtx _ _) (mkCtx _ _));
      [eapply state_machine_execute_touches, Hsm | not_written]. }
  rewrite E3, E2 in Hestop.
  split.
  - rewrite Esm. eapply (execute_estop_forces _ _ (mkCtx _ _) (mkCtx _ _)); eassumption.
  - intros Hst Hreq.
    assert (state_machine (self c2) = state_machine (self c)) as Ec2.
    { destruct Kreq as [?|[(_ & N & _)|(_ & N)]]; [assumption | congruence | congruence]. }
    destruct (execute_estop_handler _ _ (mkCtx _ _) (mkCtx _ _) _ Hsm)
      as (_ & Hst3 & Hsafe); cbn [self store]; rewrite ?Ec2; try assumption.
    cbn [self store] in Hst3, Hsafe. rewrite Hst3 in Ttail.
    destruct Hsafe as (S1 & S2 & S3 & S4 & S5 & S6 & S7).
    unfold safe_pattern.
    repeat split;
      (eapply touches_keeps_value; [exact Ttail | eassumption | not_written]).
Qed.


End ScanClaims.

(** ** Executions of the controller *)

Section Plant.
Import state_machine controller plant.

Example cold_start_reaches_running :
  let c := run exp_taylor cold_start power_on in
  state (state_machine (self c)) = RUNNING
  /\ DS.read (store c) "DO_PUMP_START" = Some (VBool true)
  /\ DS.read (store c) "DO_DIVERT_CMD" = Some (VBool false)
  /\ DS.read (store c) "DO_SAMPLE_SOL" = Some (VBool true)
  /\ DS.read (store c) "ALARM_ACTIVE_COUNT" = Some (VInt 0)
  /\ logged (state_machine (self c))
     = [LogTransition IDLE STARTUP; LogTransition STARTUP RUNNING].
Proof. vm_compute. repeat split. Qed.

(** On the scan that sees the E-stop pressed while RUNNING, the state
    becomes E_STOP but the handler is skipped: the pump start command is
    still true and the divert command still false. *)
Example estop_scan_outputs :
  state (state_machine (self estop_scan)) = E_STOP
  /\ DS.read (store estop_scan) "DI_ESTOP" = Some (VBool true)
  /\ DS.read (store estop_scan) "DO_PUMP_START" = Some (VBool true)
  /\ DS.read (store estop_scan) "DO_DIVERT_CMD" = Some (VBool false)
  /\ DS.read (store estop_scan) "DO_SAMPLE_SOL" = Some (VBool true)
  /\ logged (state_machine (self estop_scan))
     = [LogTransition IDLE STARTUP; LogTransition STARTUP RUNNING;
        LogTransition RUNNING SHUTDOWN; LogTransition SHUTDOWN E_STOP].
Proof. vm_compute. repeat split. Qed.

(** C1, counterexample: the unit is RUNNING after a cold start; the scan
    at [t = 22.1] reads DI_ESTOP true and completes in E_STOP with
    DO_PUMP_START still true. *)
Lemma C1_counterexample : ~ estop_scan_is_safe.
Proof.
  intros H.
  specialize (H exp_taylor cold_start (estop_pressed 10) (221 # 10) estop_scan).
  cbv zeta in H.
  destruct H as (_ & Hpump & _); [vm_compute; reflexivity ..|].
  vm_compute in Hpump. discriminate Hpump.
Qed.

Lemma C1_witness :
  state (state_machine (self second_estop_scan)) = E_STOP
  /\ safe_pattern (store second_estop_scan).
Proof.
  destruct (C1_estop_state_and_safe_outputs exp_taylor (222 # 10)
              (facing (estop_pressed 10) (run exp_taylor after_estop_scan power_on))
              second_estop_scan) as [H1 H2].
  - vm_compute. reflexivity.
  - vm_compute. reflexivity.
  - split; [exact H1|]. apply H2; vm_compute; reflexivity.
Defined.


Example stop_scan_outputs :
  state (state_machine (self stop_scan)) = SHUTDOWN
  /\ DS.read (store stop_scan) "DO_SAMPLE_SOL" = Some (VBool true)
  /\ DS.read (store stop_scan) "DO_SAMPLE_MIX_PUMP" = Some (VBool true).
Proof. vm_compute. repeat split. Qed.

(** During PROVING the sampler is not called at all: a solenoid that was
    open when proving began stays open, scan after scan. *)
Example solenoid_stays_open_while_proving :
  let c := run exp_taylor
               (cold_start ++ [Prove 22;
                               Scan (pumping_at_sales 20) (221 # 10);
                               Scan (pumping_at_sales 30) 23;
                               Scan (pumping_at_sales 40) 40])
               power_on in
  state (state_machine (self c)) = PROVING
  /\ DS.read (store c) "DO_SAMPLE_SOL" = Some (VBool true).
Proof. vm_compute. repeat split. Qed.


End Plant.

(** * Further properties, module by module *)

(** ** The tag database *)

Section DataStoreFacts.

Lemma read_multiple_from (ds : DataStore) tags (acc : gmap string Value) t :
  foldl (fun acc t =>
           match ds !! t with
           | Some cell => <[t := value cell]> acc
           | None => acc
           end) acc tags !! t
  = if bool_decide (elem_of t tags /\ is_Some (ds !! t))
    then DS.read ds t else acc !! t.
Proof.
  revert acc. induction tags as [|t0 tags IH]; intros acc.
  - cbn. rewrite bool_decide_eq_false_2; [reflexivity|].
    intros [H _]. by apply elem_of_nil in H.
  - cbn [foldl]. rewrite IH.
    destruct (decide (elem_of t tags /\ is_Some (ds !! t))) as [H|H].
    + rewrite !bool_decide_eq_true_2; [reflexivity| |exact H].
      destruct H. split; [by apply elem_of_cons; right | done].
    + rewrite (bool_decide_eq_false_2 _ H).
      destruct (decide (t = t0)) as [->|Hne].
      * destruct (ds !! t0) as [cell|] eqn:E.
        -- rewrite lookup_insert_eq, bool_decide_eq_true_2.
           ++ unfold DS.read. by rewrite E.
           ++ split; [by apply elem_of_cons; left | rewrite ?E; eauto].
        -- rewrite bool_decide_eq_false_2; [reflexivity|].
           intros [_ [x Hx]]. congruence.
      * assert (~ (elem_of t (t0 :: tags) /\ is_Some (ds !! t))) as H'.
        { intros [H1 H2]. apply elem_of_cons in H1 as [?|H1]; [done|]. by apply H. }
        rewrite (bool_decide_eq_false_2 _ H').
        destruct (ds !! t0); [by rewrite lookup_insert_ne|reflexivity].
Qed.

(** X1.  [read_multiple] returns exactly the requested tags that exist,
    each with the value [read] returns for it: a tag that was not asked
    for, or that the store does not hold, is absent from the result --
    unknown tags are skipped, they raise no [KeyError]. *)
Theorem read_multiple_selects_existing_tags (ds : DataStore) tags t :
  DS.read_multiple ds tags !! t
  = if bool_decide (elem_of t tags) then DS.read ds t else None.
Proof.
  unfold DS.read_multiple. rewrite read_multiple_from, lookup_empty.
  destruct (decide (elem_of t tags)) as [H|H].
  - rewrite (bool_decide_eq_true_2 _ H).
    destruct (ds !! t) as [cell|] eqn:E.
    + rewrite bool_decide_eq_true_2; [reflexivity|].
      split; [exact H | rewrite ?E; eauto].
    + rewrite bool_decide_eq_false_2.
      * unfold DS.read. by rewrite E.
      * intros [_ [x Hx]]. congruence.
  - rewrite (bool_decide_eq_false_2 _ H).
    rewrite bool_decide_eq_false_2; [reflexivity|]. by intros [? _].
Qed.

Lemma write_multiple_lookup now values q (ds : DataStore) :
  (forall t, ~ elem_of t values.*1 ->
             DS.write_multiple now values q ds !! t = ds !! t)
  /\ (NoDup values.*1 ->
      forall t v, elem_of (t, v) values ->
                  DS.write_multiple now values q ds !! t
                  = Some (mkTagValue v now q)).
Proof.
  unfold DS.write_multiple. revert ds.
  induction values as [|[t0 v0] values IH]; intros ds.
  - split; [done|]. intros _ t v H. by apply elem_of_nil in H.
  - destruct (IH (DS.write now t0 v0 q ds)) as [Hout Hin]. cbn [foldl]. split.
    + intros t Ht. cbn in Ht. apply not_elem_of_cons in Ht as [Hne Ht].
      rewrite Hout by exact Ht. unfold DS.write. by rewrite lookup_insert_ne.
    + intros Hnd t v Htv. cbn in Hnd. apply NoDup_cons in Hnd as [Hni Hnd].
      apply elem_of_cons in Htv as [[= -> ->]|Htv].
      * rewrite Hout by exact Hni. unfold DS.write. by rewrite lookup_insert_eq.
      * by apply Hin.
Qed.

(** X2.  Round trip of [write_multiple] and [read_multiple]: after writing
    the items of a dict (distinct keys), reading its keys back gives the
    dict; every written tag exists and carries the value, the time of the
    write and the quality given, also when it was unknown before; every
    other tag is left as it was. *)
Theorem write_multiple_read_multiple_round_trip now values q (ds : DataStore) :
  NoDup values.*1 ->
  DS.read_multiple (DS.write_multiple now values q ds) values.*1
  = list_to_map values
  /\ (forall t v, elem_of (t, v) values ->
        DS.read_with_quality (DS.write_multiple now values q ds) t
        = Some (mkTagValue v now q)
        /\ DS.tag_exists (DS.write_multiple now values q ds) t = true)
  /\ (forall t, ~ elem_of t values.*1 ->
        DS.read_with_quality (DS.write_multiple now values q ds) t
        = DS.read_with_quality ds t).
Proof.
  intros Hnd. destruct (write_multiple_lookup now values q ds) as [Hout Hin].
  specialize (Hin Hnd). split; [|split].
  - apply map_eq. intros t. unfold DS.read_multiple.
    rewrite read_multiple_from, lookup_empty.
    destruct (decide (elem_of t values.*1)) as [H|H].
    + pose proof H as H'.
      apply list_elem_of_fmap in H' as ([t' v] & -> & Hv). cbn in *.
      rewrite bool_decide_eq_true_2
        by (split; [exact H | rewrite (Hin _ _ Hv); eauto]).
      unfold DS.read. rewrite (Hin _ _ Hv). cbn. symmetry.
      by apply elem_of_list_to_map_1.
    + rewrite bool_decide_eq_false_2 by (by intros [? _]). symmetry.
      by apply not_elem_of_list_to_map_1.
  - intros t v H. unfold DS.read_with_quality, DS.tag_exists. rewrite (Hin _ _ H).
    split; [reflexivity|]. by apply bool_decide_eq_true_2.
  - intros t H. unfold DS.read_with_quality. by apply Hout.
Qed.

(** The theorem on two tags, one of them new to the store. *)
Lemma write_multiple_read_multiple_witness :
  DS.read_multiple
    (DS.write_multiple 5 [("BSW_PCT", VFloat (3 # 10)); ("OPERATOR", VStr "ann")]
                       UNCERTAIN DS.init)
    ["BSW_PCT"; "OPERATOR"]
  = list_to_map [("BSW_PCT", VFloat (3 # 10)); ("OPERATOR", VStr "ann")].
Proof.
  apply (write_multiple_read_multiple_round_trip
           5 [("BSW_PCT", VFloat (3 # 10)); ("OPERATOR", VStr "ann")]
           UNCERTAIN DS.init).
  apply (bool_decide_unpack _). vm_compute. exact I.
Defined.

End DataStoreFacts.

(** ** The state machine: start-up, shutdown, E-stop reset *)

Section StateMachineFacts.
Import state_machine.

(** X3.  Step 5 of the start-up, once the stabilisation delay is over (no
    request pending, E-stop clear, the probe reading a number): with
    BS&W below [bsw_divert_pct] the scan switches the divert valve to
    sales, turns the status light on, stamps the batch start and enters
    RUNNING; with BS&W at or above it the scan attempts the transition
    STARTUP -> DIVERT, which [_TRANSITIONS] does not allow: the machine
    stays in STARTUP at step 5 with its entry time, the store is left as
    it was, and one more illegal-transition record is logged.  So the unit
    waits in STARTUP, diverted, until the BS&W drops. *)
Theorem startup_waits_while_bsw_high sp now (c : Ctx LACTStateMachine) bsw :
  state (self c) = STARTUP ->
  _request_state (self c) = None ->
  _startup_step (self c) = 5%Z ->
  truthy (DS.read (store c) "DI_ESTOP") = false ->
  as_num (DS.read (store c) "AI_BSW_PROBE") = Some bsw ->
  pump_start_delay_sec sp + bsw_sample_delay_sec sp + 10
    < now - _state_entry_time (self c) ->
  exists c',
    execute sp now c = (Ok tt, c')
    /\ if Qlt_bool bsw (bsw_divert_pct sp)
       then state (self c') = RUNNING
            /\ DS.read (store c') "DO_DIVERT_CMD" = Some (VBool false)
            /\ DS.read (store c') "DO_STATUS_GREEN" = Some (VBool true)
            /\ DS.read (store c') "BATCH_START_TIME" = Some (VFloat now)
       else state (self c') = STARTUP
            /\ _startup_step (self c') = 5%Z
            /\ _state_entry_time (self c') = _state_entry_time (self c)
            /\ store c' = store c
            /\ logged (self c') = logged (self c) ++ [LogIllegal STARTUP DIVERT].
Proof.
  destruct c as [[st t0 s1 s2 req lg] ds]. simpl.
  intros -> -> -> Hestop Hbsw Ht.
  apply Qgt_bool_iff in Ht.
  destruct (execute sp now _) as [r c'] eqn:H.
  unfold execute, handler, _handle_startup, _transition in H.
  run_sm_using H ltac:(unfold time_in_state in H;
                       cbn [_state_entry_time Z.eqb Pos.eqb] in H;
                       rewrite ?Hestop, ?Hbsw, ?Ht in H).
  all: injection H as <- <-; eexists; (split; [reflexivity|]).
  all: rewrite_conds; cbn [self store state _startup_step logged _state_entry_time].
  - repeat split; by ds_simpl.
  - repeat split.
Qed.

(** The theorem at [t = 30] with 1.2 % BS&W: the unit stays in STARTUP. *)
Lemma startup_waits_witness :
  exists c',
    execute default_setpoints 30 startup_at_step_5 = (Ok tt, c')
    /\ state (self c') = STARTUP
    /\ store c' = store startup_at_step_5.
Proof.
  destruct (startup_waits_while_bsw_high default_setpoints 30 startup_at_step_5
                                         (12 # 10))
    as (c' & E & H); try reflexivity.
  exists c'. split; [exact E|].
  change (Qlt_bool (12 # 10) (bsw_divert_pct default_setpoints)) with false in H.
  destruct H as (H1 & _ & _ & H4 & _). split; assumption.
Defined.

(** X4.  In E_STOP with no request pending, every scan completes and
    writes the all-safe output pattern; it returns to IDLE exactly when
    the E-stop input is released and the machine has been in E_STOP for
    more than 2 seconds, and stays in E_STOP otherwise. *)
Theorem estop_reset_is_debounced sp now (c : Ctx LACTStateMachine) :
  state (self c) = E_STOP ->
  _request_state (self c) = None ->
  exists c',
    execute sp now c = (Ok tt, c')
    /\ safe_pattern (store c')
    /\ state (self c')
       = if negb (truthy (DS.read (store c) "DI_ESTOP"))
            && Qgt_bool (now - _state_entry_time (self c)) 2
         then IDLE else E_STOP.
Proof.
  destruct c as [[st t0 s1 s2 req lg] ds]. simpl.
  intros -> ->.
  destruct (execute sp now _) as [r c'] eqn:H.
  unfold execute, handler, _handle_estop, _transition in H.
  run_sm_using H ltac:(unfold time_in_state in H; cbn [_state_entry_time] in H).
  all: injection H as <- <-; eexists; (split; [reflexivity|]).
  all: unfold safe_pattern; ds_simpl_in Heqb; rewrite_conds;
    cbn [negb andb self state store].
  all: repeat split; by ds_simpl.
Qed.

(** The theorem 1.5 s and 2.5 s after the E-stop was taken. *)
Lemma estop_reset_witness :
  (exists c', execute default_setpoints (23 # 2) estop_released = (Ok tt, c')
              /\ state (self c') = E_STOP)
  /\ (exists c', execute default_setpoints (25 # 2) estop_released = (Ok tt, c')
                 /\ state (self c') = IDLE).
Proof.
  split.
  - destruct (estop_reset_is_debounced default_setpoints (23 # 2) estop_released)
      as (c' & E & _ & H); try reflexivity.
    exists c'. split; [exact E | exact H].
  - destruct (estop_reset_is_debounced default_setpoints (25 # 2) estop_released)
      as (c' & E & _ & H); try reflexivity.
    exists c'. split; [exact E | exact H].
Defined.

(** One scan in SHUTDOWN, nothing pending, E-stop clear, the stop delay
    and the 15 s grace period over. *)
Lemma shutdown_scan_advances sp now (m : LACTStateMachine) ds :
  state m = SHUTDOWN ->
  _request_state m = None ->
  truthy (DS.read ds "DI_ESTOP") = false ->
  pump_stop_delay_sec sp + 15 < now - _state_entry_time m ->
  let m' := self (snd (execute sp now (mkCtx m ds))) in
  _request_state m' = None
  /\ ((_shutdown_step m = 0%Z /\ state m' = SHUTDOWN /\ _shutdown_step m' = 1%Z
       /\ _state_entry_time m' = _state_entry_time m)
      \/ (_shutdown_step m = 1%Z /\ state m' = SHUTDOWN /\ _shutdown_step m' = 2%Z
          /\ _state_entry_time m' = _state_entry_time m)
      \/ (_shutdown_step m = 2%Z /\ state m' = IDLE)
      \/ (_shutdown_step m <> 0%Z /\ _shutdown_step m <> 1%Z
          /\ _shutdown_step m <> 2%Z /\ m' = m)).
Proof.
  destruct m as [st t0 s1 s2 req lg]. simpl. intros -> -> Hestop Ht.
  assert (Qgt_bool (now - t0) (pump_stop_delay_sec sp + 15) = true) as Ht15
    by by apply Qgt_bool_iff.
  assert (Qgt_bool (now - t0) (pump_stop_delay_sec sp) = true) as Ht0
    by (apply Qgt_bool_iff; lra).
  destruct (execute sp now _) as [r c'] eqn:H.
  unfold execute, handler, _handle_shutdown, _transition in H.
  run_sm_using H ltac:(unfold time_in_state in H;
                       cbn [_state_entry_time] in H;
                       rewrite ?Hestop, ?Ht15, ?Ht0 in H).
  all: injection H as <- <-; cbn.
  all: repeat match goal with
              | E : (_ =? _)%Z = true |- _ => apply Z.eqb_eq in E
              | E : (_ =? _)%Z = false |- _ => apply Z.eqb_neq in E
              end.
  all: split; [reflexivity|]; subst; tauto.
Qed.

Lemma idle_scan_stays sp now (m : LACTStateMachine) ds :
  state m = IDLE ->
  _request_state m = None ->
  truthy (DS.read ds "DI_ESTOP") = false ->
  let m' := self (snd (execute sp now (mkCtx m ds))) in
  state m' = IDLE /\ _request_state m' = None.
Proof.
  destruct m as [st t0 s1 s2 req lg]. simpl. intros -> -> Hestop.
  destruct (execute sp now _) as [r c'] eqn:H.
  unfold execute, handler, _handle_idle, _transition in H.
  run_sm_using H ltac:(rewrite ?Hestop in H).
  all: injection H as <- <-; cbn; split; reflexivity.
Qed.

(** X5.  A shutdown cannot hang.  Once the machine has been in SHUTDOWN
    for longer than [pump_stop_delay_sec + 15] seconds, three scans with
    no request pending and the E-stop clear end in IDLE, whatever step the
    sequence had reached and whatever the inputs show on these scans (for
    one, DI_PUMP_RUNNING still on). *)
Theorem shutdown_completes_within_three_scans sp (m : LACTStateMachine)
    ds1 ds2 ds3 t1 t2 t3 :
  state m = SHUTDOWN ->
  _request_state m = None ->
  (0 <= _shutdown_step m <= 2)%Z ->
  truthy (DS.read ds1 "DI_ESTOP") = false ->
  truthy (DS.read ds2 "DI_ESTOP") = false ->
  truthy (DS.read ds3 "DI_ESTOP") = false ->
  pump_stop_delay_sec sp + 15 < t1 - _state_entry_time m ->
  t1 <= t2 -> t2 <= t3 ->
  let m1 := self (snd (execute sp t1 (mkCtx m ds1))) in
  let m2 := self (snd (execute sp t2 (mkCtx m1 ds2))) in
  let m3 := self (snd (execute sp t3 (mkCtx m2 ds3))) in
  state m3 = IDLE.
Proof.
  intros Hst Hreq Hstep E1 E2 E3 Ht H12 H23. cbv zeta.
  set (m1 := self (snd (execute sp t1 (mkCtx m ds1)))).
  set (m2 := self (snd (execute sp t2 (mkCtx m1 ds2)))).
  pose proof (shutdown_scan_advances sp t1 m ds1 Hst Hreq E1 Ht) as A1.
  cbv zeta in A1. fold m1 in A1.
  destruct A1
    as (R1 & [(S0 & St1 & Sp1 & T1)|[(S0 & St1 & Sp1 & T1)|[(S0 & St1)|(? & ? & ? & _)]]]);
    [| | |lia].
  - (* step 0, then 1, then 2 *)
    assert (pump_stop_delay_sec sp + 15 < t2 - _state_entry_time m1) as Ht2
      by (rewrite T1; lra).
    pose proof (shutdown_scan_advances sp t2 m1 ds2 St1 R1 E2 Ht2) as A2.
    cbv zeta in A2. fold m2 in A2.
    destruct A2
      as (R2 & [(? & _)|[(_ & St2 & Sp2 & T2)|[(? & _)|(? & ? & _)]]]);
      try congruence.
    assert (pump_stop_delay_sec sp + 15 < t3 - _state_entry_time m2) as Ht3
      by (rewrite T2, T1; lra).
    pose proof (shutdown_scan_advances sp t3 m2 ds3 St2 R2 E3 Ht3) as A3.
    cbv zeta in A3.
    destruct A3
      as (R3 & [(? & _)|[(? & _)|[(_ & St3)|(? & ? & ? & _)]]]);
      congruence.
  - (* step 1, then 2, then IDLE *)
    assert (pump_stop_delay_sec sp + 15 < t2 - _state_entry_time m1) as Ht2
      by (rewrite T1; lra).
    pose proof (shutdown_scan_advances sp t2 m1 ds2 St1 R1 E2 Ht2) as A2.
    cbv zeta in A2. fold m2 in A2.
    destruct A2
      as (R2 & [(? & _)|[(? & _)|[(_ & St2)|(? & ? & ? & _)]]]);
      try congruence.
    apply (idle_scan_stays sp t3 m2 ds3 St2 R2 E3).
  - (* step 2, then IDLE twice *)
    pose proof (idle_scan_stays sp t2 m1 ds2 St1 R1 E2) as A2.
    cbv zeta in A2. fold m2 in A2. destruct A2 as [St2 R2].
    apply (idle_scan_stays sp t3 m2 ds3 St2 R2 E3).
Qed.

(** The theorem on a shutdown begun at [t = 0], scanned at 19, 19.1 and
    19.2 s with the pump still reported running. *)
Lemma shutdown_completes_witness :
  let ds := DS.write 18 "DI_PUMP_RUNNING" (VBool true) GOOD DS.init in
  let m1 := self (snd (execute default_setpoints 19 (mkCtx shutting_down ds))) in
  let m2 := self (snd (execute default_setpoints (191 # 10) (mkCtx m1 ds))) in
  let m3 := self (snd (execute default_setpoints (192 # 10) (mkCtx m2 ds))) in
  state m3 = IDLE.
Proof.
  apply (shutdown_completes_within_three_scans
           default_setpoints shutting_down
           (DS.write 18 "DI_PUMP_RUNNING" (VBool true) GOOD DS.init)
           (DS.write 18 "DI_PUMP_RUNNING" (VBool true) GOOD DS.init)
           (DS.write 18 "DI_PUMP_RUNNING" (VBool true) GOOD DS.init)
           19 (191 # 10) (192 # 10));
    try (vm_compute; congruence).
  cbn. lia.
Defined.

(** X6.  The state machine starts the pump in one place only.  If
    DO_PUMP_START reads true after a scan of the state machine, then it
    read true before, or the scan was step 3 of the start-up, taken after
    [pump_start_delay_sec] in STARTUP -- that is, after the valve checks
    of steps 0 to 2 -- and the machine is now at step 4. *)
Theorem pump_started_only_by_startup_step_3 sp now (c : Ctx LACTStateMachine) r c' :
  execute sp now c = (r, c') ->
  DS.read (store c') "DO_PUMP_START" = Some (VBool true) ->
  DS.read (store c) "DO_PUMP_START" = Some (VBool true)
  \/ (state (self c) = STARTUP
      /\ _startup_step (self c) = 3%Z
      /\ pump_start_delay_sec sp < now - _state_entry_time (self c)
      /\ state (self c') = STARTUP
      /\ _startup_step (self c') = 4%Z).
Proof.
  destruct c as [[st t0 s1 s2 req lg] ds]. intros H.
  unfold execute, handler, _handle_idle, _handle_startup, _handle_running,
    _handle_divert, _handle_proving, _handle_shutdown, _handle_estop,
    _transition in H.
  destruct st, req as [[]|]; run_sm H.
  all: injection H as <- <-; cbn [self store]; intros Hr; ds_simpl_in Hr.
  all: try discriminate Hr.
  all: try (left; exact Hr).
  all: right; unfold time_in_state in *; cbn in *.
  all: repeat match goal with
              | E : (_ =? _)%Z = true |- _ => apply Z.eqb_eq in E
              | E : Qgt_bool _ _ = true |- _ => apply Qgt_bool_iff in E
              end.
  all: repeat split; try assumption; try reflexivity.
Qed.

(** The theorem on the scan at [t = 6] of a start-up at step 3. *)
Lemma pump_started_witness :
  DS.read (store startup_at_step_3) "DO_PUMP_START" = Some (VBool true)
  \/ (state (self startup_at_step_3) = STARTUP
      /\ _startup_step (self startup_at_step_3) = 3%Z
      /\ pump_start_delay_sec default_setpoints
         < 6 - _state_entry_time (self startup_at_step_3)
      /\ state (self (snd (execute default_setpoints 6 startup_at_step_3))) = STARTUP
      /\ _startup_step (self (snd (execute default_setpoints 6 startup_at_step_3)))
         = 4%Z).
Proof.
  apply (pump_started_only_by_startup_step_3
           default_setpoints 6 startup_at_step_3
           (fst (execute default_setpoints 6 startup_at_step_3))).
  - apply surjective_pairing.
  - vm_compute. reflexivity.
Defined.

(** X7.  A request for SHUTDOWN that arrives during STARTUP -- the
    operator's stop command, or a shutdown alarm of the safety manager --
    is dropped: STARTUP -> SHUTDOWN is not in [_TRANSITIONS].  The scan
    has the outcome, the store, the state, the step and the entry time
    it would have had without the request; the request is forgotten, and
    only an illegal-transition record tells of it. *)
Theorem stop_request_during_startup_is_dropped sp now (m : LACTStateMachine) ds :
  state m = STARTUP ->
  let with_request := execute sp now (mkCtx (request_transition SHUTDOWN m) ds) in
  let without := execute sp now (mkCtx (set_request_state None m) ds) in
  fst with_request = fst without
  /\ store (snd with_request) = store (snd without)
  /\ state (self (snd with_request)) = state (self (snd without))
  /\ state (self (snd with_request)) <> SHUTDOWN
  /\ _startup_step (self (snd with_request)) = _startup_step (self (snd without))
  /\ _state_entry_time (self (snd with_request))
     = _state_entry_time (self (snd without))
  /\ _request_state (self (snd with_request)) = None
  /\ exists l, logged (self (snd with_request))
               = logged m ++ LogIllegal STARTUP SHUTDOWN :: l.
Proof.
  destruct m as [st t0 s1 s2 req lg]. cbn [state]. intros ->. cbv zeta.
  destruct (execute sp now (mkCtx (request_transition SHUTDOWN _) ds))
    as [r1 c1] eqn:H1.
  destruct (execute sp now (mkCtx (set_request_state None _) ds))
    as [r2 c2] eqn:H2.
  unfold request_transition in H1.
  cbn [set_request_state state _state_entry_time
       _startup_step _shutdown_step logged] in H1, H2.
  cbn [fst snd logged].
  unfold execute, handler, _handle_startup, _handle_estop, _transition in H1, H2.
  run_sm H1.
  all: injection H1 as <- <-.
  all: unfold time_in_state in *;
       cbn [set_request_state log state _state_entry_time _startup_step
            _shutdown_step _request_state logged] in *.
  all: run_sm_using H2 ltac:(
         unfold time_in_state in H2;
         cbn [set_request_state log state _state_entry_time _startup_step
              _shutdown_step _request_state logged] in H2;
         repeat match goal with
                | E : ?b = true |- _ =>
                    match type of H2 with context [b] => rewrite E in H2 end
                | E : ?b = false |- _ =>
                    match type of H2 with context [b] => rewrite E in H2 end
                | E : ?b = Some _ |- _ =>
                    match type of H2 with context [b] => rewrite E in H2 end
                | E : ?b = None |- _ =>
                    match type of H2 with context [b] => rewrite E in H2 end
                end).
  all: injection H2 as <- <-; cbn.
  all: repeat split; try reflexivity; try discriminate.
  all: rewrite <- ?app_assoc; cbn; eexists; reflexivity.
Qed.

(** The theorem on the start-up at step 3, scanned at [t = 6]: the pump
    is started although a stop was requested. *)
Lemma stop_request_dropped_witness :
  state (self (snd (execute default_setpoints 6
                      (mkCtx (request_transition SHUTDOWN (self startup_at_step_3))
                             DS.init))))
  = state (self (snd (execute default_setpoints 6
                        (mkCtx (set_request_state None (self startup_at_step_3))
                               DS.init)))).
Proof.
  apply (stop_request_during_startup_is_dropped
           default_setpoints 6 (self startup_at_step_3) DS.init).
  reflexivity.
Defined.

End StateMachineFacts.

(** ** Alarms and the safety manager *)

Section AlarmStateFacts.
Import alarms alarm_run.

(** X8.  A latching alarm holds until it is acknowledged: once active and
    not yet acknowledged, no sequence of [activate] and [deactivate] calls
    changes it -- the condition clearing does not clear the alarm, and a
    second activation does not overwrite the time and the value of the
    first. *)
Theorem latching_alarm_holds_until_acknowledged ops s :
  latching (definition s) = true -> active s = true -> acknowledged s = false ->
  Forall (fun op => op <> Acknowledge) ops ->
  run ops s = s.
Proof.
  intros L A K H. induction H as [|op ops Hop _ IH]; [reflexivity|].
  simpl. fold (run ops (step op s)).
  assert (step op s = s) as ->; [|exact IH].
  destruct op as [now v| |]; simpl.
  - unfold activate. by rewrite A.
  - unfold deactivate. by rewrite L, K.
  - done.
Qed.

(** The theorem on ALM_ESTOP: the E-stop released, pressed again,
    released. *)
Lemma latching_alarm_holds_witness :
  run [Deactivate; Activate 2 9; Deactivate] estop_alarm_raised = estop_alarm_raised.
Proof.
  apply latching_alarm_holds_until_acknowledged; try reflexivity.
  repeat constructor; discriminate.
Defined.

End AlarmStateFacts.

Lemma same_store_refl {X} (c : Ctx X) : same_store c c.
Proof. reflexivity. Qed.

Lemma same_store_trans {X} (c1 c2 c3 : Ctx X) :
  same_store c1 c2 -> same_store c2 c3 -> same_store c1 c3.
Proof. unfold same_store. congruence. Qed.

Lemma guarantees_same_store_modify {X} (f : X -> X) :
  guarantees same_store (modify f).
Proof. intros c r c' [= <- <-]. reflexivity. Qed.

#[local] Hint Resolve same_store_refl same_store_trans : guar.
#[local] Hint Extern 1 (guarantees same_store (modify _)) =>
  (apply guarantees_same_store_modify) : guar.

Section SafetyFacts.
Import alarms safety.

Lemma acknowledged_not_unacknowledged st :
  is_unacknowledged (if active st then acknowledge st else st) = false.
Proof.
  unfold is_unacknowledged, acknowledge. destruct st as [d a k t v]. simpl.
  destruct a; simpl; [|reflexivity].
  destruct (latching d); reflexivity.
Qed.

(** X9.  After [acknowledge_all] no alarm is unacknowledged
    ([get_unacknowledged_alarms] is empty); every alarm keeps its
    definition, and is still active exactly when it was active and is
    latching: acknowledging clears a non-latching alarm at once and leaves
    a latching one active until its condition clears. *)
Theorem acknowledge_all_leaves_none_unacknowledged s :
  get_unacknowledged_alarms (acknowledge_all s) = []
  /\ forall t st,
       alarm_states s !! t = Some st ->
       exists st',
         alarm_states (acknowledge_all s) !! t = Some st'
         /\ definition st' = definition st
         /\ active st' = active st && latching (definition st).
Proof.
  split.
  - apply elem_of_nil_inv. intros x Hx.
    unfold get_unacknowledged_alarms in Hx.
    apply list_elem_of_filter in Hx as [Hu Hx].
    apply list_elem_of_fmap in Hx as ([t y] & -> & Hy).
    apply elem_of_map_to_list in Hy. simpl in *.
    unfold acknowledge_all in Hy. simpl in Hy.
    apply lookup_fmap_Some in Hy as (st & <- & _).
    by rewrite acknowledged_not_unacknowledged in Hu.
  - intros t st H. eexists. split.
    + unfold acknowledge_all. simpl. rewrite lookup_fmap, H. reflexivity.
    + destruct st as [d a k ts v]. simpl. unfold acknowledge. simpl.
      destruct a; simpl; [|done]. destruct (latching d); done.
Qed.

Lemma keeps_request_refl t c : on_self (keeps_request t) c c.
Proof. by repeat split. Qed.

Lemma keeps_request_trans t (c1 c2 c3 : Ctx SafetyManager) :
  on_self (keeps_request t) c1 c2 -> on_self (keeps_request t) c2 c3 ->
  on_self (keeps_request t) c1 c3.
Proof.
  unfold on_self, keeps_request. intros (H1 & D1 & E1) (H2 & D2 & E2).
  split; [auto|]. split; [auto|]. by rewrite E2.
Qed.

Lemma activate_keeps_request t now t' v :
  t' <> t -> guarantees (on_self (keeps_request t)) (_activate now t' v).
Proof.
  intros Hne c r c' H. unfold _activate in H. unfold_method H.
  destruct (alarm_states (self c) !! t') as [st|] eqn:E.
  - destruct (action (definition st)); injection H as <- <-;
      (split; [|split]; cbn; [try done | try done | by rewrite lookup_insert_ne]).
  - injection H as <- <-. by repeat split.
Qed.

Lemma deactivate_keeps_request t t' :
  t' <> t -> guarantees (on_self (keeps_request t)) (_deactivate t').
Proof.
  intros Hne c r c' H. unfold _deactivate in H. unfold_method H.
  destruct (alarm_states (self c) !! t') as [st|] eqn:E;
    injection H as <- <-; (split; [|split]); cbn; try done.
  by rewrite lookup_insert_ne.
Qed.

#[local] Hint Resolve keeps_request_refl keeps_request_trans : guar.
#[local] Hint Extern 1 (guarantees (on_self (keeps_request _)) (_activate _ _ _)) =>
  (apply activate_keeps_request; discriminate) : guar.
#[local] Hint Extern 1 (guarantees (on_self (keeps_request _)) (_deactivate _)) =>
  (apply deactivate_keeps_request; discriminate) : guar.
#[local] Hint Extern 1 (guarantees (on_self (keeps_request _)) (ds_write_q _ _ _ _)) =>
  (apply guarantees_on_self_write; intros ?; by repeat split) : guar.
#[local] Hint Extern 1 (guarantees (on_self (keeps_request _)) (ds_write _ _ _)) =>
  (apply guarantees_on_self_write; intros ?; by repeat split) : guar.
#[local] Hint Extern 1 (guarantees (on_self (keeps_request _)) (modify _)) =>
  (apply guarantees_on_self_modify; intros ?; by repeat split) : guar.

Lemma activate_same_store now t v : guarantees same_store (_activate now t v).
Proof. unfold _activate. guar. Qed.

Lemma deactivate_same_store t : guarantees same_store (_deactivate t).
Proof. unfold _deactivate. guar. Qed.

#[local] Hint Resolve activate_same_store deactivate_same_store : guar.

Lemma check_estop_same_store now : guarantees same_store (_check_estop now).
Proof. unfold _check_estop. guar. Qed.

Lemma check_pump_same_store now : guarantees same_store (_check_pump now).
Proof. unfold _check_pump. guar. Qed.

(** The checks that follow [_check_estop] leave ALM_ESTOP and the
    requests alone; those that follow [_check_bsw] leave ALM_BSW_DIVERT
    and the requests alone. *)
Lemma after_check_estop_keeps sp now :
  guarantees (on_self (keeps_request "ALM_ESTOP"))
    (_check_pump now ;;
     _check_bsw sp now ;;
     _check_pressures sp now ;;
     _check_temperatures sp now ;;
     _check_flow sp now ;;
     _check_divert_valve sp now ;;
     _check_sampler now ;;
     _check_air_eliminator now ;;
     _update_alarm_summary now ;;
     _drive_annunciators now).
Proof.
  unfold _check_pump, _check_bsw, _check_pressures, _check_temperatures,
    _check_flow, _check_divert_valve, _check_sampler, _check_air_eliminator,
    _update_alarm_summary, _drive_annunciators.
  guar.
Qed.

Lemma after_check_bsw_keeps sp now :
  guarantees (on_self (keeps_request "ALM_BSW_DIVERT"))
    (_check_pressures sp now ;;
     _check_temperatures sp now ;;
     _check_flow sp now ;;
     _check_divert_valve sp now ;;
     _check_sampler now ;;
     _check_air_eliminator now ;;
     _update_alarm_summary now ;;
     _drive_annunciators now).
Proof.
  unfold _check_pressures, _check_temperatures,
    _check_flow, _check_divert_valve, _check_sampler, _check_air_eliminator,
    _update_alarm_summary, _drive_annunciators.
  guar.
Qed.

(** X10.  With the E-stop input on, [SafetyManager.execute] requests a
    shutdown and leaves ALM_ESTOP active -- whatever else the scan finds,
    and even if a later check raises -- provided the alarm table holds
    ALM_ESTOP with the action EMERGENCY_STOP, as the default table does. *)
Theorem estop_input_requests_shutdown sp now (c : Ctx SafetyManager) r c' st :
  alarm_states (self c) !! "ALM_ESTOP" = Some st ->
  action (definition st) = EMERGENCY_STOP ->
  truthy (DS.read (store c) "DI_ESTOP") = true ->
  execute sp now c = (r, c') ->
  shutdown_requested (self c') = true /\ alarm_active "ALM_ESTOP" (self c').
Proof.
  intros Hst Hact Hes H.
  unfold execute in H.
  unfold bind at 1 2 3 in H. cbn [modify self store] in H.
  unfold _check_estop at 1 in H. unfold bind at 1 in H.
  unfold ds_read at 1 in H. cbn [self store] in H. rewrite Hes in H.
  unfold _activate at 1 in H. unfold bind at 1 in H. unfold gets at 1 in H.
  cbn [self store alarm_states set_divert_requested set_shutdown_requested] in H.
  rewrite Hst in H.
  unfold bind at 1 in H. unfold modify at 1 in H.
  cbn [self store] in H. rewrite Hact in H.
  unfold modify at 1 in H. cbn [self store] in H.
  apply after_check_estop_keeps in H as (Hreq & _ & Hal).
  cbn in Hreq, Hal. split; [by apply Hreq|].
  unfold alarm_active. rewrite Hal, lookup_insert_eq. eexists. split; [done|].
  unfold activate. destruct (active st) eqn:A; cbn; done.
Qed.

(** The theorem on a fresh safety manager with the default alarm table. *)
Lemma estop_input_requests_shutdown_witness :
  shutdown_requested (self (snd (execute default_setpoints 2 safety_with_estop)))
  = true
  /\ alarm_active "ALM_ESTOP"
       (self (snd (execute default_setpoints 2 safety_with_estop))).
Proof.
  apply (estop_input_requests_shutdown
           default_setpoints 2 safety_with_estop
           (fst (execute default_setpoints 2 safety_with_estop)) _
           (new_state (defn "ALM_ESTOP" "Emergency stop activated"
                            CRITICAL EMERGENCY_STOP))).
  - vm_compute. reflexivity.
  - reflexivity.
  - vm_compute. reflexivity.
  - apply surjective_pairing.
Defined.

(** A completed run of the safety checks on a probe reading at or above
    the divert threshold requests a divert. *)
Lemma check_bsw_requests_divert sp now (c : Ctx SafetyManager) c' b :
  as_num (DS.read (store c) "AI_BSW_PROBE") = Some b ->
  bsw_divert_pct sp <= b ->
  execute sp now c = (Ok tt, c') ->
  divert_requested (self c') = true.
Proof.
  intros Hb Hge H. unfold execute in H.
  do 5 invert_bind H.
  apply check_estop_same_store in Hstep. apply check_pump_same_store in Hstep0.
  unfold same_store in Hstep, Hstep0. cbn [self store] in Hstep, Hstep0.
  assert (store c1 = store c) as Est by congruence.
  apply after_check_bsw_keeps in H as (_ & Hdiv & _).
  apply Hdiv. clear Hdiv.
  unfold _check_bsw in Hstep1.
  do 4 invert_bind Hstep1.
  unfold ds_read in Hstep2. injection Hstep2 as <- <-.
  unfold ds_read_with_quality in Hstep3. injection Hstep3 as <- <-.
  assert (store c5 = store c1) as Est5.
  { destruct (DS.read_with_quality (store c1) "AI_BSW_PROBE") as [[? ? []]|];
      cbv beta iota in Hstep4;
      first [ apply activate_same_store in Hstep4
            | apply deactivate_same_store in Hstep4 ]; exact Hstep4. }
  unfold num in Hstep5. rewrite Est, Hb in Hstep5. injection Hstep5 as <- <-.
  invert_bind Hstep1.
  assert (Qge_bool b (bsw_divert_pct sp) = true) as Eg by by apply Qge_bool_iff.
  rewrite Eg in Hstep1.
  invert_bind Hstep1. unfold modify in Hstep1. injection Hstep1 as _ <-.
  reflexivity.
Qed.

(** X11.  When the BS&W probe reads at or above [bsw_divert_pct], a
    completed [SafetyManager.execute] leaves [divert_requested] set,
    whether or not the alarm table knows ALM_BSW_DIVERT and whatever the
    other checks find. *)
Theorem bsw_reading_requests_divert sp now (c : Ctx SafetyManager) c' b :
  as_num (DS.read (store c) "AI_BSW_PROBE") = Some b ->
  bsw_divert_pct sp <= b ->
  execute sp now c = (Ok tt, c') ->
  divert_requested (self c') = true.
Proof. apply check_bsw_requests_divert. Qed.

(** The theorem with the probe at 1.2 %. *)
Lemma bsw_reading_requests_divert_witness :
  divert_requested (self (snd (execute default_setpoints 2 safety_with_wet_oil)))
  = true.
Proof.
  apply (bsw_reading_requests_divert default_setpoints 2 safety_with_wet_oil
                                     _ (12 # 10)).
  - vm_compute. reflexivity.
  - vm_compute. congruence.
  - vm_compute. reflexivity.
Defined.

Lemma filter_length_le {A} (P Q : A -> Prop) `{!forall x, Decision (P x)}
    `{!forall x, Decision (Q x)} (l : list A) :
  (forall x, P x -> Q x) ->
  (length (filter P l) <= length (filter Q l))%nat.
Proof.
  intros HPQ. induction l as [|x l IH]; [reflexivity|].
  rewrite !filter_cons.
  destruct (decide (P x)) as [HP|HP], (decide (Q x)) as [HQ|HQ]; simpl; try lia.
  by apply HPQ in HP.
Qed.

Lemma highest_bounds (l : list AlarmState) :
  let hi := fold_right Z.max (priority_value INFO)
              ((fun a => priority_value (priority (definition a))) <$> l) in
  (0 <= hi <= 4)%Z
  /\ (l = [] -> hi = 0%Z)
  /\ Forall (fun a => (priority_value (priority (definition a)) <= hi)%Z) l.
Proof.
  induction l as [|a l (IH1 & IH2 & IH3)]; cbn zeta.
  - simpl. repeat split; try lia. constructor.
  - cbn [fmap list_fmap fold_right]. cbn zeta in *.
    set (hi := fold_right Z.max _ _) in *.
    assert (0 <= priority_value (priority (definition a)) <= 4)%Z
      by (destruct (priority (definition a)); simpl; lia).
    split; [lia|]. split; [discriminate|].
    constructor; [lia|].
    eapply Forall_impl; [exact IH3|]. intros x Hx. cbn beta in *. lia.
Qed.

Lemma drive_annunciators_keeps now (c : Ctx SafetyManager) r c' :
  _drive_annunciators now c = (r, c') ->
  alarm_states (self c') = alarm_states (self c)
  /\ forall t, t <> "DO_ALARM_BEACON" -> t <> "DO_ALARM_HORN" ->
               DS.read (store c') t = DS.read (store c) t.
Proof.
  intros H. unfold _drive_annunciators in H. unfold_method H.
  repeat split_on H; injection H as <- <-;
    cbn [self store alarm_states set_horn_silence_time];
    (split; [reflexivity|]); intros t H1 H2;
    rewrite !read_write_ne by congruence; reflexivity.
Qed.

(** X12.  The alarm summary a completed [SafetyManager.execute] publishes
    agrees with the alarm states it leaves: ALARM_ACTIVE_COUNT and
    ALARM_UNACK_COUNT are the numbers of active and of unacknowledged
    alarms, the second never exceeds the first, and HIGHEST_ALARM_PRI lies
    between 0 and 4, is 0 when no alarm is active and bounds the priority
    of every active alarm. *)
Theorem alarm_summary_counts sp now (c c' : Ctx SafetyManager) :
  execute sp now c = (Ok tt, c') ->
  exists na nu hi : Z,
    DS.read (store c') "ALARM_ACTIVE_COUNT" = Some (VInt na)
    /\ DS.read (store c') "ALARM_UNACK_COUNT" = Some (VInt nu)
    /\ DS.read (store c') "HIGHEST_ALARM_PRI" = Some (VInt hi)
    /\ na = Z.of_nat (length (get_active_alarms (self c')))
    /\ nu = Z.of_nat (length (get_unacknowledged_alarms (self c')))
    /\ (0 <= nu <= na)%Z
    /\ (0 <= hi <= 4)%Z
    /\ (na = 0%Z -> hi = 0%Z)
    /\ Forall (fun a => (priority_value (priority (definition a)) <= hi)%Z)
              (get_active_alarms (self c')).
Proof.
  intros H. unfold execute in H.
  do 12 invert_bind H.
  apply drive_annunciators_keeps in H as [Eal Est].
  unfold _update_alarm_summary in Hstep8. unfold_method Hstep8.
  injection Hstep8 as _ <-. cbn [self store] in *.
  assert (get_active_alarms (self c') = get_active_alarms (self c8)) as Ea
    by (unfold get_active_alarms; rewrite Eal; reflexivity).
  assert (get_unacknowledged_alarms (self c') = get_unacknowledged_alarms (self c8)) as Eu
    by (unfold get_unacknowledged_alarms; rewrite Eal; reflexivity).
  rewrite Ea, Eu.
  destruct (highest_bounds (get_active_alarms (self c8))) as (Hb & Hz & Hall).
  cbn zeta in Hb, Hz, Hall.
  do 3 eexists.
  rewrite !Est by discriminate.
  split; [ds_simpl; reflexivity|].
  split; [ds_simpl; reflexivity|].
  split; [ds_simpl; reflexivity|].
  split; [reflexivity|]. split; [reflexivity|].
  split.
  { split; [lia|]. apply Nat2Z.inj_le.
    unfold get_unacknowledged_alarms, get_active_alarms.
    apply filter_length_le. intros x Hx. unfold is_unacknowledged in Hx.
    by apply andb_true_iff in Hx as [Hx _]. }
  split; [exact Hb|].
  split; [|exact Hall].
  intros Hn. apply Hz. destruct (get_active_alarms (self c8)); [reflexivity|].
  simpl in Hn. lia.
Qed.

(** The theorem with the E-stop input on: one alarm, active and
    unacknowledged, of priority CRITICAL. *)
Lemma alarm_summary_counts_witness :
  exists na nu hi : Z,
    DS.read (store (snd (execute default_setpoints 2 safety_with_estop)))
            "ALARM_ACTIVE_COUNT" = Some (VInt na)
    /\ DS.read (store (snd (execute default_setpoints 2 safety_with_estop)))
               "ALARM_UNACK_COUNT" = Some (VInt nu)
    /\ DS.read (store (snd (execute default_setpoints 2 safety_with_estop)))
               "HIGHEST_ALARM_PRI" = Some (VInt hi)
    /\ (0 <= nu <= na)%Z.
Proof.
  destruct (alarm_summary_counts default_setpoints 2 safety_with_estop
              (snd (execute default_setpoints 2 safety_with_estop)))
    as (na & nu & hi & H1 & H2 & H3 & _ & _ & H6 & _).
  - vm_compute. reflexivity.
  - exists na, nu, hi. auto.
Defined.

End SafetyFacts.

(** ** The pump supervisor *)

Section PumpLockoutFacts.
Import pump_control pump_run.



Lemma record_starts_trip_time sp times p :
  _last_trip_time (snd (record_starts sp times p)) = _last_trip_time p.
Proof.
  revert p. induction times as [|t times IH]; intros p; [reflexivity|].
  cbn [record_starts].
  destruct (record_start sp t p) as [r p1] eqn:E1.
  specialize (IH p1).
  destruct (record_starts sp times p1) as [rs p2]. cbn [snd] in *.
  rewrite IH. unfold record_start in E1.
  destruct (_ <=? _)%Z; injection E1 as <- <-; reflexivity.
Qed.

(** X14.  The lockout latched by [record_start] (too many starts in the
    hour) does not hold.  [record_start] sets [_locked_out] but not the
    trip time that [execute] measures the lockout from, so on a pump that
    never tripped on overload the next [execute] at any time
    [now >= pump_restart_lockout_sec] -- with no overload trip on that
    scan -- clears the lockout and writes nothing: DO_PUMP_START is left
    as it is. *)
Theorem max_starts_lockout_released_by_next_scan sp times now ds :
  pump_restart_lockout_sec sp <= now ->
  truthy (DS.read ds "DI_PUMP_OVERLOAD") && truthy (DS.read ds "DO_PUMP_START")
  = false ->
  let p := snd (record_starts sp times init) in
  exists p',
    execute sp now (mkCtx p ds) = (Ok tt, mkCtx p' ds)
    /\ _locked_out p' = false
    /\ _start_times p' = _start_times p.
Proof.
  intros Hnow Hov p.
  assert (_last_trip_time p = 0) as Htrip by apply record_starts_trip_time.
  destruct p as [ts trip locked]. cbn in Htrip. subst trip.
  assert (Qlt_bool (now - 0) (pump_restart_lockout_sec sp) = false) as Hge.
  { apply not_true_iff_false. rewrite Qlt_bool_iff. lra. }
  destruct (execute sp now _) as [r c'] eqn:H.
  unfold execute in H. unfold_method H. rewrite Hov in H.
  cbn [self store _locked_out _last_trip_time set_locked_out] in H.
  destruct locked; cbn [self store _locked_out _last_trip_time] in H;
    rewrite ?Hge in H;
    injection H as <- <-; eexists; (split; [reflexivity|]); split; reflexivity.
Qed.

(** The theorem on six starts one second apart, the sixth of which is
    rejected and latches the lockout, and a scan at [t = 40] with the pump
    commanded: the lockout is gone and the command stands. *)
Lemma max_starts_lockout_witness :
  let ds := DS.write 7 "DO_PUMP_START" (VBool true) GOOD DS.init in
  let p := snd (record_starts default_setpoints [1; 2; 3; 4; 5; 6] init) in
  _locked_out p = true
  /\ exists p',
       execute default_setpoints 40 (mkCtx p ds) = (Ok tt, mkCtx p' ds)
       /\ _locked_out p' = false.
Proof.
  split; [reflexivity|].
  destruct (max_starts_lockout_released_by_next_scan
              default_setpoints [1; 2; 3; 4; 5; 6] 40
              (DS.write 7 "DO_PUMP_START" (VBool true) GOOD DS.init))
    as (p' & E & H & _).
  - vm_compute. congruence.
  - vm_compute. reflexivity.
  - exists p'. split; [exact E | exact H].
Defined.

End PumpLockoutFacts.

(** ** The sampler *)

Ltac exec_sampler H :=
  repeat first
    [ progress (unfold_method H)
    | progress (cbn [sampler._last_grab_time sampler._grab_count sampler._total_ml
                     sampler._solenoid_on_time sampler._solenoid_active
                     sampler._mix_running sampler.set_last_grab_time
                     sampler.set_grab_count sampler.set_total_ml
                     sampler.set_solenoid_on_time sampler.set_solenoid_active
                     sampler.set_mix_running negb
                     state_machine.LACTState_eqb] in H)
    | split_on H ].

Section SamplerGrabFacts.
Import state_machine sampler sampler_run.

(** The outcome of one scan of the sampler on its counters. *)
Lemma sampler_scan_counters sp now st (c : Ctx Sampler) r c' :
  execute sp now st c = (r, c') ->
  (_grab_count (self c') = _grab_count (self c)
   /\ _total_ml (self c') = _total_ml (self c)
   /\ _last_grab_time (self c') = _last_grab_time (self c))
  \/ (_grab_count (self c') = (_grab_count (self c) + 1)%Z
      /\ _total_ml (self c') = _total_ml (self c) + sample_volume_ml sp
      /\ _last_grab_time (self c') = now
      /\ st = RUNNING
      /\ sample_rate_sec sp <= now - _last_grab_time (self c)
      /\ DS.read (store c') "SAMPLE_TOTAL_GRABS"
         = Some (VInt (_grab_count (self c) + 1))
      /\ DS.read (store c') "DO_SAMPLE_SOL" = Some (VBool true)).
Proof.
  destruct c as [[lg n ml on act mix] ds]. intros H.
  unfold execute, _take_grab, _set_solenoid, _manage_mixing in H.
  destruct st; cbn [LACTState_eqb negb] in H.
  all: exec_sampler H.
  all: injection H as <- <-; cbn.
  all: try (left; repeat split; reflexivity).
  all: try (exfalso;
            match goal with
            | E : Qge_bool (?n - ?n) _ = true |- _ => apply Qge_bool_iff in E; lra
            end).
  all: right; repeat split; try reflexivity; try by ds_simpl.
  all: try (match goal with E : Qge_bool _ _ = true |- _ =>
                            apply Qge_bool_iff in E; exact E end).
Qed.


(** X16.  With no flow the sampler does nothing at all: in RUNNING, with
    the pot not full and a flow rate of zero or less, [execute] returns
    with its state and the store untouched.  The solenoid pulse is not
    timed out on such a scan: a solenoid that is open stays open for as
    long as the flow rate reads zero. *)
Theorem no_flow_freezes_sampler sp now (c : Ctx Sampler) flow :
  truthy (DS.read (store c) "DI_SAMPLE_POT_HI") = false ->
  as_num (DS.read (store c) "FLOW_RATE_BPH") = Some flow ->
  flow <= 0 ->
  execute sp now RUNNING c = (Ok tt, c).
Proof.
  intros Hpot Hflow Hle. apply Qle_bool_iff in Hle.
  unfold execute. cbn [LACTState_eqb negb].
  unfold bind, ds_read, num. rewrite Hpot, Hflow.
  unfold ret. rewrite Hle. reflexivity.
Qed.

(** The theorem on a sampler whose solenoid has been open since
    [t = 20], scanned at [t = 500]. *)
Lemma no_flow_freezes_sampler_witness :
  _solenoid_active (self sampler_without_flow) = true
  /\ execute default_setpoints 500 RUNNING sampler_without_flow
     = (Ok tt, sampler_without_flow).
Proof.
  split; [reflexivity|].
  apply (no_flow_freezes_sampler default_setpoints 500 sampler_without_flow 0).
  - vm_compute. reflexivity.
  - vm_compute. reflexivity.
  - vm_compute. congruence.
Defined.

(** X17.  Grabs are taken one at a time and never closer than the sample
    interval.  Over one [Sampler.execute] the grab counter, the volume
    and the time of the last grab stay as they are, or the scan took one
    grab: then the unit is RUNNING, at least [sample_rate_sec] have passed
    since the last grab, the counter went up by one and the volume by
    [sample_volume_ml], SAMPLE_TOTAL_GRABS shows the new count, and the
    solenoid is open at the end of the scan. *)
Theorem grab_needs_sample_interval sp now st (c : Ctx Sampler) r c' :
  execute sp now st c = (r, c') ->
  (_grab_count (self c') = _grab_count (self c)
   /\ _total_ml (self c') = _total_ml (self c)
   /\ _last_grab_time (self c') = _last_grab_time (self c))
  \/ (_grab_count (self c') = (_grab_count (self c) + 1)%Z
      /\ _total_ml (self c') = _total_ml (self c) + sample_volume_ml sp
      /\ _last_grab_time (self c') = now
      /\ st = RUNNING
      /\ sample_rate_sec sp <= now - _last_grab_time (self c)
      /\ DS.read (store c') "SAMPLE_TOTAL_GRABS"
         = Some (VInt (_grab_count (self c) + 1))
      /\ DS.read (store c') "DO_SAMPLE_SOL" = Some (VBool true)).
Proof. apply sampler_scan_counters. Qed.

(** The theorem on the first scan of a fresh sampler with flow, at
    [t = 16]: it takes a grab. *)
Lemma grab_needs_sample_interval_witness :
  let c' := snd (execute default_setpoints 16 RUNNING sampler_with_flow) in
  _grab_count (self c') = 1%Z
  /\ (_grab_count (self c') = _grab_count (self sampler_with_flow)
      \/ sample_rate_sec default_setpoints
         <= 16 - _last_grab_time (self sampler_with_flow)).
Proof.
  cbv zeta. split; [vm_compute; reflexivity|].
  destruct (grab_needs_sample_interval
              default_setpoints 16 RUNNING sampler_with_flow
              (fst (execute default_setpoints 16 RUNNING sampler_with_flow))
              (snd (execute default_setpoints 16 RUNNING sampler_with_flow)))
    as [(H & _)|(_ & _ & _ & _ & H & _)].
  - apply surjective_pairing.
  - left. exact H.
  - right. exact H.
Defined.

End SamplerGrabFacts.

(** ** The BS&W monitor *)

Section BSWMonitorFacts.
Import bsw_monitor bsw_run.

Lemma in_range_tests x :
  Qlt_bool x (- (1 # 10)) || Qgt_bool x (55 # 10) = false <-> in_range x.
Proof.
  unfold in_range. rewrite orb_false_iff.
  rewrite <- !not_true_iff_false, Qlt_bool_iff, Qgt_bool_iff. split.
  - intros [H1 H2]. split; lra.
  - intros [H1 H2]. split; lra.
Qed.

Lemma execute_window_ok sp now (c : Ctx BSWMonitor) r c' :
  execute sp now c = (r, c') -> window_ok (self c) -> window_ok (self c').
Proof.
  destruct c as [[rs hist t0 pend] ds]. intros H (Hh & Hlen & Hall).
  cbn in Hh, Hlen, Hall. subst hist.
  unfold execute in H. unfold_method H.
  destruct (as_num (DS.read ds "AI_BSW_PROBE")) as [raw|] eqn:Eraw;
    unfold_method H;
    [|injection H as <- <-; by repeat split].
  destruct (Qlt_bool raw (- (1 # 10)) || Qgt_bool raw (55 # 10)) eqn:Er.
  - destruct (DS.read ds "AI_BSW_PROBE"); unfold_method H;
      injection H as <- <-; by repeat split.
  - apply in_range_tests in Er.
    cbn [self store _readings _max_history set_readings _divert_pending
         _divert_timer_start set_divert_pending set_divert_timer_start] in H.
    assert (window_ok (mkBSW (if (10 <? length (rs ++ [raw]))%nat
                              then drop 1 (rs ++ [raw]) else rs ++ [raw])
                             10 t0 pend)) as Hw.
    { split; [reflexivity|]. cbn [_readings].
      assert (Forall in_range (rs ++ [raw])) as Hall'
        by (apply Forall_app; split; [exact Hall | by constructor]).
      destruct (10 <? length (rs ++ [raw]))%nat eqn:El.
      - split; [|by apply Forall_drop].
        rewrite length_drop, length_app. simpl. lia.
      - apply Nat.ltb_ge in El. split; [exact El | exact Hall']. }
    repeat split_on H; injection H as <- <-; exact Hw.
Qed.

Lemma run_window_ok sp scans : window_ok (run sp scans).
Proof.
  unfold run.
  assert (forall b0, window_ok b0 ->
                     window_ok (fold_left (fun b scan => step sp scan b) scans b0))
    as Hgen.
  { induction scans as [|[now ds] scans IH]; intros b0 Hb0; [exact Hb0|].
    cbn [fold_left]. apply IH. unfold step. cbn [fst snd].
    destruct (execute sp now (mkCtx b0 ds)) as [r c'] eqn:E.
    apply (execute_window_ok _ _ _ _ _ E Hb0). }
  apply Hgen. repeat split; [cbn; lia | constructor].
Qed.

(** X18.  The averaging window of the BS&W monitor is bounded and clean:
    after any sequence of scans it holds at most 10 readings, all of them
    inside the accepted signal range of -0.1 to 5.5 per cent -- readings
    outside the range never enter the average. *)
Theorem bsw_window_bounded sp scans :
  let b := run sp scans in
  _max_history b = 10%nat
  /\ (length (_readings b) <= 10)%nat
  /\ Forall in_range (_readings b).
Proof. cbv zeta. apply run_window_ok. Qed.

Lemma Qsum_bounds (l : list Q) :
  Forall in_range l ->
  - (1 # 10) * inject_Z (Z.of_nat (length l)) <= Qsum l
  /\ Qsum l <= (55 # 10) * inject_Z (Z.of_nat (length l)).
Proof.
  unfold Qsum.
  assert (forall a, Forall in_range l ->
            a - (1 # 10) * inject_Z (Z.of_nat (length l)) <= fold_left Qplus l a
            /\ fold_left Qplus l a <= a + (55 # 10) * inject_Z (Z.of_nat (length l)))
    as Hgen.
  { induction l as [|x l IH]; intros a Hl.
    - cbn [fold_left length]. change (inject_Z (Z.of_nat 0)) with 0. split; lra.
    - apply Forall_cons in Hl as [[Hx1 Hx2] Hl]. cbn [fold_left length].
      destruct (IH (a + x) Hl) as [I1 I2].
      rewrite Nat2Z.inj_succ, <- Z.add_1_r, inject_Z_plus.
      change (inject_Z 1) with 1. split; lra. }
  intros Hl. destruct (Hgen 0 Hl). split; lra.
Qed.

Lemma avg_in_range (l : list Q) :
  l <> [] -> Forall in_range l ->
  in_range (Qsum l / inject_Z (Z.of_nat (length l))).
Proof.
  intros Hne Hl. destruct (Qsum_bounds l Hl) as [H1 H2].
  assert (0 < inject_Z (Z.of_nat (length l))) as Hn.
  { destruct l; [done|]. change 0 with (inject_Z 0). rewrite <- Zlt_Qlt.
    cbn [length]. lia. }
  split.
  - apply Qle_shift_div_l; [exact Hn | lra].
  - apply Qle_shift_div_r; [exact Hn | lra].
Qed.

(** X19.  On a reading inside the signal range, whatever the monitor has
    seen before, [BSWMonitor.execute] completes and publishes in BSW_PCT a
    number between -0.1 and 5.5 (the rolling average, rounded to 3
    decimals), and leaves the AI_BSW_PROBE cell -- value, time stamp and
    quality -- as it found it. *)
Theorem bsw_published_in_range sp scans now ds raw :
  as_num (DS.read ds "AI_BSW_PROBE") = Some raw ->
  in_range raw ->
  exists c' v,
    execute sp now (mkCtx (run sp scans) ds) = (Ok tt, c')
    /\ DS.read (store c') "BSW_PCT" = Some (VFloat v)
    /\ in_range v
    /\ store c' !! "AI_BSW_PROBE" = ds !! "AI_BSW_PROBE".
Proof.
  intros Eraw Hr.
  destruct (run_window_ok sp scans) as (Hh & Hlen & Hall).
  destruct (run sp scans) as [rs hist t0 pend]. cbn in Hh, Hlen, Hall. subst hist.
  destruct (execute sp now _) as [r c'] eqn:H.
  unfold execute in H. unfold_method H. rewrite Eraw in H.
  unfold_method H.
  apply in_range_tests in Hr as Er. rewrite Er in H.
  cbn [self store _readings _max_history set_readings _divert_pending
       _divert_timer_start set_divert_pending set_divert_timer_start] in H.
  set (rs2 := if (10 <? length (rs ++ [raw]))%nat
              then drop 1 (rs ++ [raw]) else rs ++ [raw]) in *.
  assert (rs2 <> [] /\ Forall in_range rs2) as [Hne Hall2].
  { assert (Forall in_range (rs ++ [raw])) as Hall'
      by (apply Forall_app; split; [exact Hall | by constructor]).
    subst rs2. destruct (10 <? length (rs ++ [raw]))%nat eqn:El.
    - split; [|by apply Forall_drop].
      apply Nat.ltb_lt in El. intros E. apply (f_equal length) in E.
      rewrite length_drop in E. simpl in E. lia.
    - split; [|exact Hall']. by destruct rs. }
  pose proof (avg_in_range rs2 Hne Hall2) as [A1 A2].
  assert (in_range (py_round (Qsum rs2 / inject_Z (Z.of_nat (length rs2))) 3)) as Hv.
  { split.
    - change (- (1 # 10)) with (py_round (- (1 # 10)) 3). by apply py_round_mono.
    - eapply Qle_trans; [apply py_round_mono, A2|]. vm_compute. discriminate. }
  repeat split_on H; injection H as <- <-; do 2 eexists;
    (split; [reflexivity|]); cbn [self store];
    (split; [by ds_simpl|]); (split; [exact Hv|]);
    unfold DS.write; rewrite ?lookup_insert_ne by discriminate; reflexivity.
Qed.

(** The theorem on the third reading of a monitor that saw 0.2 % and
    0.4 %: the reading is 0.9 %, the average published 0.5 %. *)
Lemma bsw_published_in_range_witness :
  exists c' v,
    execute default_setpoints 3
            (mkCtx (run default_setpoints
                        [(1, probe_at (2 # 10)); (2, probe_at (4 # 10))])
                   (probe_at (9 # 10)))
    = (Ok tt, c')
    /\ DS.read (store c') "BSW_PCT" = Some (VFloat v)
    /\ in_range v.
Proof.
  destruct (bsw_published_in_range
              default_setpoints
              [(1, probe_at (2 # 10)); (2, probe_at (4 # 10))]
              3 (probe_at (9 # 10)) (9 # 10))
    as (c' & v & E & H1 & H2 & _).
  - vm_compute. reflexivity.
  - split; vm_compute; congruence.
  - exists c', v. auto.
Defined.

(** X20.  A reading outside the signal range (below -0.1 or above 5.5) is
    not averaged: [execute] completes, marks the AI_BSW_PROBE cell BAD at
    the time of the scan keeping its value, publishes the raw value in
    BSW_PCT, and leaves the window and the divert timer as they were. *)
Theorem bsw_out_of_range_marked_bad sp now (c : Ctx BSWMonitor) x raw :
  DS.read (store c) "AI_BSW_PROBE" = Some x ->
  as_num (Some x) = Some raw ->
  raw < - (1 # 10) \/ 55 # 10 < raw ->
  exists c',
    execute sp now c = (Ok tt, c')
    /\ self c' = self c
    /\ DS.read_with_quality (store c') "AI_BSW_PROBE" = Some (mkTagValue x now BAD)
    /\ DS.read (store c') "BSW_PCT" = Some x.
Proof.
  intros Ex Eraw Hout.
  assert (Qlt_bool raw (- (1 # 10)) || Qgt_bool raw (55 # 10) = true) as Er.
  { apply orb_true_iff. rewrite Qlt_bool_iff, Qgt_bool_iff. exact Hout. }
  unfold execute. unfold bind, ds_read, num. rewrite Ex, Eraw. unfold ret.
  rewrite Er. unfold ds_write, ds_write_q. cbn [self store].
  eexists. split; [reflexivity|]. cbn [self store].
  split; [reflexivity|]. split.
  - unfold DS.read_with_quality, DS.write.
    rewrite lookup_insert_ne by discriminate. by rewrite lookup_insert_eq.
  - by ds_simpl.
Qed.

(** The theorem on a reading of 6.25 % (an open loop at 20.5 mA). *)
Lemma bsw_out_of_range_witness :
  exists c',
    execute default_setpoints 3 (mkCtx init (probe_at (625 # 100))) = (Ok tt, c')
    /\ DS.read_with_quality (store c') "AI_BSW_PROBE"
       = Some (mkTagValue (VFloat (625 # 100)) 3 BAD).
Proof.
  destruct (bsw_out_of_range_marked_bad
              default_setpoints 3 (mkCtx init (probe_at (625 # 100)))
              (VFloat (625 # 100)) (625 # 100))
    as (c' & E & _ & H & _).
  - vm_compute. reflexivity.
  - reflexivity.
  - right. vm_compute. reflexivity.
  - exists c'. auto.
Defined.

End BSWMonitorFacts.

(** ** The totalizer *)

Section FlowTotalFacts.
Import flow_measurement flow_run.





End FlowTotalFacts.

(** ** The prover *)

Section ProvingSequenceFacts.
Import proving.

(** X22.  The prover only moves along SETUP -> RUNNING -> CALCULATING ->
    COMPLETE or FAILED (and SETUP -> FAILED on the valve timeout).  Over
    one [ProvingManager.execute], whatever its outcome: the state stays or
    makes one of these moves; a completed scan in CALCULATING leaves it;
    CALCULATING is entered only by the scan that records one more run,
    with at least [prove_num_runs] runs recorded; and in IDLE, COMPLETE
    and FAILED the prover is left exactly as it was (only
    [start_proving] restarts it). *)
Theorem proving_sequence sp now (c : Ctx ProvingManager) r c' :
  execute sp now c = (r, c') ->
  proving_edge (state (self c)) (state (self c'))
  /\ (state (self c) = CALCULATING -> r = Ok tt -> state (self c') <> CALCULATING)
  /\ (state (self c) <> CALCULATING -> state (self c') = CALCULATING ->
      (prove_num_runs sp <= Z.of_nat (length (runs (self c'))))%Z
      /\ length (runs (self c')) = S (length (runs (self c))))
  /\ (state (self c) = COMPLETE \/ state (self c) = FAILED \/ state (self c) = IDLE ->
      self c' = self c).
Proof.
  destruct c as [[st rs cur t0 rmf rrep] ds]. intros H.
  unfold execute, _handle_setup, _handle_running, _end_run, _start_run,
    _handle_calculating, _handle_complete, _handle_failed in H.
  destruct st;
    repeat first
      [ progress (unfold_method H)
      | progress (cbn [state runs current_run _state_entry_time
                       result_meter_factor result_repeatability
                       set_state set_runs set_current_run set_state_entry_time
                       set_result_meter_factor set_result_repeatability] in H)
      | split_on H ].
  all: injection H as <- <-; cbn in *.
  all: split; [constructor|].
  all: split; [intros; try discriminate; try congruence|].
  all: split; [intros ? ?; try discriminate; try congruence|].
  all: try (intros [?|[?|?]]; try discriminate; reflexivity).
  all: try (split; [|rewrite length_app; cbn; lia]).
  all: try (match goal with E : (_ <=? _)%Z = true |- _ => apply Z.leb_le in E; exact E end).
Qed.

(** The theorem on the calculation with an outlier of the run list used
    for C5: it ends in FAILED. *)
Lemma proving_sequence_witness :
  proving_edge CALCULATING
    (state (self (snd (execute default_setpoints 300 calculating_with_outlier)))).
Proof.
  apply (proving_sequence default_setpoints 300 calculating_with_outlier
           (fst (execute default_setpoints 300 calculating_with_outlier))
           (snd (execute default_setpoints 300 calculating_with_outlier))).
  apply surjective_pairing.
Defined.

End ProvingSequenceFacts.

(** ** The I/O handler *)

Section IOFacts.
Import io_map io_handler.


Lemma py_int_mono (a b : Q) : a <= b -> (py_int a <= py_int b)%Z.
Proof.
  intros Hab. unfold py_int.
  destruct (Qle_bool 0 a) eqn:Ea, (Qle_bool 0 b) eqn:Eb.
  - by apply Qfloor_resp_le.
  - apply Qle_bool_iff in Ea. apply not_true_iff_false in Eb.
    rewrite Qle_bool_iff in Eb. lra.
  - apply not_true_iff_false in Ea. rewrite Qle_bool_iff in Ea.
    apply Qle_bool_iff in Eb.
    assert (Qceiling a <= 0)%Z.
    { pose proof (Qceiling_lt a) as H. rewrite Zle_Qle.
      assert (inject_Z (Qceiling a - 1) < 0) as H0 by lra.
      change 0 with (inject_Z 0) in H0. rewrite <- Zlt_Qlt in H0.
      change 0 with (inject_Z 0). rewrite <- Zle_Qle. lia. }
    assert (0 <= Qfloor b)%Z.
    { change 0%Z with (Qfloor 0). by apply Qfloor_resp_le. }
    lia.
  - by apply Qceiling_resp_le.
Qed.




(** X24.  Output scaling is clamped: for a point with
    [raw_min <= raw_max], [_scale_output] of any engineering value -- below,
    inside or above the engineering range -- is a raw count between
    [int(raw_min)] and [int(raw_max)]. *)
Theorem scale_output_clamped_to_raw_range v (p : IOPoint) :
  raw_min p <= raw_max p ->
  (py_int (raw_min p) <= _scale_output v p <= py_int (raw_max p))%Z.
Proof.
  intros Hr. unfold _scale_output. cbv zeta.
  destruct (Qeq_bool (eng_max p - eng_min p) 0).
  - split; [lia | by apply py_int_mono].
  - set (prop := Qmax 0 (Qmin 1 _)).
    assert (0 <= prop /\ prop <= 1) as [P0 P1].
    { subst prop. split; [apply Q.le_max_l|].
      apply Q.max_lub; [lra | apply Q.le_min_l]. }
    set (rr := raw_max p - raw_min p). assert (0 <= rr) as Hrr by (subst rr; lra).
    assert (0 <= prop * rr) by (apply Qmult_le_0_compat; assumption).
    assert (prop * rr <= 1 * rr) by (apply Qmult_le_compat_r; assumption).
    split; apply py_int_mono; subst rr; lra.
Qed.

(** The theorem on a value far above the range of the point. *)
Lemma scale_output_clamped_witness :
  (0 <= _scale_output 5000 inlet_pressure_point <= 4095)%Z.
Proof.
  apply (scale_output_clamped_to_raw_range 5000 inlet_pressure_point).
  vm_compute. congruence.
Defined.

Lemma for_each_writes (cell : IOPoint -> TagValue) (b : IOBackend)
    (body : string * IOPoint -> M IOBackend unit) l ds :
  (forall t p ds0,
      body (t, p) (mkCtx b ds0) = (Ok tt, mkCtx b (<[t := cell p]> ds0))) ->
  exists ds',
    for_each l body (mkCtx b ds) = (Ok tt, mkCtx b ds')
    /\ (forall t, ~ elem_of t l.*1 -> ds' !! t = ds !! t)
    /\ (NoDup l.*1 -> forall t p, elem_of (t, p) l -> ds' !! t = Some (cell p)).
Proof.
  intros Hbody. revert ds. induction l as [|[t0 p0] l IH]; intros ds.
  - exists ds. split; [reflexivity|]. split; [done|]. intros _ t p H.
    by apply elem_of_nil in H.
  - destruct (IH (<[t0 := cell p0]> ds)) as (ds' & E & Hout & Hin).
    exists ds'. cbn [for_each]. unfold bind. rewrite Hbody, E.
    split; [reflexivity|]. split.
    + intros t Ht. cbn in Ht. apply not_elem_of_cons in Ht as [Hne Ht].
      rewrite Hout by exact Ht. by rewrite lookup_insert_ne.
    + intros Hnd t p Htp. cbn in Hnd. apply NoDup_cons in Hnd as [Hni Hnd].
      apply elem_of_cons in Htp as [[= -> ->]|Htp].
      * rewrite Hout by exact Hni. by rewrite lookup_insert_eq.
      * by apply Hin.
Qed.

(** What [read_inputs] leaves in the store. *)
Lemma read_inputs_cells now m (c : Ctx IOBackend) :
  NoDup (input_tags m) ->
  exists ds',
    read_inputs now m c = (Ok tt, mkCtx (self c) ds')
    /\ (forall t p, elem_of (t, p) (digital_inputs m) ->
                    ds' !! t = Some (digital_cell now (self c) p))
    /\ (forall t p, elem_of (t, p) (analog_inputs m) ->
                    ds' !! t = Some (analog_cell now (self c) p))
    /\ (forall t p, elem_of (t, p) (pulse_inputs m) ->
                    ds' !! t = Some (pulse_cell now (self c) p))
    /\ (forall t, ~ elem_of t (input_tags m) -> ds' !! t = store c !! t).
Proof.
  destruct c as [b ds]. cbn [self store]. unfold input_tags. intros Hnd.
  apply NoDup_app in Hnd as (Hd & Hda & Hnd).
  apply NoDup_app in Hnd as (Ha & Hap & Hp).
  unfold read_inputs.
  destruct (for_each_writes (digital_cell now b) b
              (fun '(t, point) =>
                 bf <- gets read_digital ;;
                 match bf (address point) with
                 | Some raw => ds_write now t (VBool raw)
                 | None => ds_write_q now t (VBool false) BAD
                 end) (digital_inputs m) ds) as (ds1 & E1 & O1 & I1).
  { intros t p ds0. unfold bind, gets, digital_cell. cbn [self store].
    destruct (read_digital b (address p)); reflexivity. }
  destruct (for_each_writes (analog_cell now b) b
              (fun '(t, point) =>
                 bf <- gets read_analog ;;
                 match bf (address point) with
                 | Some raw => ds_write now t (VFloat (py_round (_scale_input raw point) 3))
                 | None => ds_write_q now t (VFloat 0) BAD
                 end) (analog_inputs m) ds1) as (ds2 & E2 & O2 & I2).
  { intros t p ds0. unfold bind, gets, analog_cell. cbn [self store].
    destruct (read_analog b (address p)); reflexivity. }
  destruct (for_each_writes (pulse_cell now b) b
              (fun '(t, point) =>
                 bf <- gets read_pulse_count ;;
                 match bf (address point) with
                 | Some count => ds_write now t (VInt count)
                 | None => ds_write_q now t (VInt 0) BAD
                 end) (pulse_inputs m) ds2) as (ds3 & E3 & O3 & I3).
  { intros t p ds0. unfold bind, gets, pulse_cell. cbn [self store].
    destruct (read_pulse_count b (address p)); reflexivity. }
  exists ds3. unfold bind at 1. rewrite E1. unfold bind at 1. rewrite E2, E3.
  split; [reflexivity|].
  assert (forall (t : string) (p : IOPoint) (l : list (string * IOPoint)),
            elem_of (t, p) l -> elem_of t l.*1) as Hfst.
  { intros t p l H. apply list_elem_of_fmap. by exists (t, p). }
  split; [|split; [|split]].
  - intros t p H. pose proof (Hfst _ _ _ H) as Ht.
    rewrite O3, O2; [by apply (I1 Hd)| |].
    + intros Hin. apply (Hda t Ht). apply elem_of_app. by left.
    + intros Hin. apply (Hda t Ht). apply elem_of_app. by right.
  - intros t p H. pose proof (Hfst _ _ _ H) as Ht.
    rewrite O3; [by apply (I2 Ha)|]. intros Hin. by apply (Hap t Ht).
  - intros t p H. by apply (I3 Hp).
  - intros t Ht. rewrite !not_elem_of_app in Ht. destruct Ht as (H1 & H2 & H3).
    by rewrite O3, O2, O1.
Qed.

(** X25.  [read_inputs] never raises and stamps every mapped input: for
    an I/O map whose input tags are distinct, it completes, leaves the
    backend as it is, and leaves in the store, for each digital, analog
    and pulse input, the value read (analog: scaled and rounded to 3
    decimals) with quality GOOD, or -- when the read fails -- False, 0.0 or
    0 with quality BAD, all stamped with the time of the scan; every
    other tag is untouched. *)
Theorem read_inputs_never_raises now m (c : Ctx IOBackend) :
  NoDup (input_tags m) ->
  exists ds',
    read_inputs now m c = (Ok tt, mkCtx (self c) ds')
    /\ (forall t p, elem_of (t, p) (digital_inputs m) ->
                    ds' !! t = Some (digital_cell now (self c) p))
    /\ (forall t p, elem_of (t, p) (analog_inputs m) ->
                    ds' !! t = Some (analog_cell now (self c) p))
    /\ (forall t p, elem_of (t, p) (pulse_inputs m) ->
                    ds' !! t = Some (pulse_cell now (self c) p))
    /\ (forall t, ~ elem_of t (input_tags m) -> ds' !! t = store c !! t).
Proof. apply read_inputs_cells. Qed.

(** The theorem on the default map with a backend whose reads all fail:
    the e-stop input reads False with quality BAD. *)
Lemma read_inputs_never_raises_witness :
  exists ds',
    read_inputs 5 io_map.default (mkCtx dead_backend DS.init)
    = (Ok tt, mkCtx dead_backend ds')
    /\ ds' !! "DI_ESTOP" = Some (mkTagValue (VBool false) 5 BAD).
Proof.
  destruct (read_inputs_never_raises 5 io_map.default (mkCtx dead_backend DS.init))
    as (ds' & E & Hd & _).
  - apply (bool_decide_unpack _). vm_compute. exact I.
  - exists ds'. split; [exact E|].
    apply (Hd "DI_ESTOP" (mkIOPoint "DI_ESTOP" DIGITAL_IN 12 0 4095 0 100 1 12)).
    unfold io_map.default, default_digital_inputs. cbn [digital_inputs].
    repeat constructor.
Defined.

Lemma for_each_digital_outputs (b : IOBackend) ds l :
  exists b',
    for_each l (fun '(t, point) =>
      v <- ds_read t ;;
      raises <- gets write_raises ;;
      if raises (address point) then ret tt
      else modify (push_digital (address point) (truthy v))) (mkCtx b ds)
    = (Ok tt, mkCtx b' ds)
    /\ b' = mkBackend (read_digital b) (read_analog b) (read_pulse_count b)
                      (write_raises b) (digital_written b ++ digital_writes b ds l)
                      (analog_written b).
Proof.
  revert b. induction l as [|[t p] l IH]; intros b.
  - exists b. split; [reflexivity|]. destruct b. cbn. by rewrite app_nil_r.
  - cbn [for_each]. unfold bind at 1. unfold bind at 1. unfold ds_read at 1.
    unfold bind at 1. unfold gets at 1. cbn [self store].
    unfold digital_writes. cbn [omap list_omap].
    destruct (write_raises b (address p)) eqn:Er.
    + unfold ret at 1. destruct (IH b) as (b' & E & ->). eexists. split; [exact E|].
      reflexivity.
    + unfold modify at 1. cbn [self store].
      destruct (IH (push_digital (address p) (truthy (DS.read ds t)) b))
        as (b' & E & ->).
      eexists. split; [exact E|]. cbn. unfold digital_writes. cbn.
      by rewrite <- app_assoc.
Qed.

Lemma for_each_analog_outputs (b : IOBackend) ds l :
  exists b',
    for_each l (fun '(t, point) =>
      v <- ds_read t ;;
      match float_or_0 v with
      | None => ret tt
      | Some eng_value =>
          raises <- gets write_raises ;;
          if raises (address point) then ret tt
          else modify (push_analog (address point) (_scale_output eng_value point))
      end) (mkCtx b ds)
    = (Ok tt, mkCtx b' ds)
    /\ b' = mkBackend (read_digital b) (read_analog b) (read_pulse_count b)
                      (write_raises b) (digital_written b)
                      (analog_written b ++ analog_writes b ds l).
Proof.
  revert b. induction l as [|[t p] l IH]; intros b.
  - exists b. split; [reflexivity|]. destruct b. cbn. by rewrite app_nil_r.
  - cbn [for_each]. unfold bind at 1. unfold bind at 1. unfold ds_read at 1.
    cbn [self store].
    unfold analog_writes. cbn [omap list_omap].
    destruct (float_or_0 (DS.read ds t)) as [e|] eqn:Ef.
    + unfold bind at 1. unfold gets at 1. cbn [self store].
      destruct (write_raises b (address p)) eqn:Er.
      * unfold ret at 1. destruct (IH b) as (b' & E & ->).
        eexists. split; [exact E|]. reflexivity.
      * unfold modify at 1. cbn [self store].
        destruct (IH (push_analog (address p) (_scale_output e p) b))
          as (b' & E & ->).
        eexists. split; [exact E|]. cbn. unfold analog_writes. cbn.
        by rewrite <- app_assoc.
    + unfold ret at 1. destruct (IH b) as (b' & E & ->).
      eexists. split; [exact E|]. reflexivity.
Qed.

(** X26.  [write_outputs] never raises and never touches the store: with no
    string in the tags of the analog outputs, it completes and hands the
    backend, in the order of the map, the truth value of each digital
    output tag and the clamped raw count of each analog output tag (a
    missing value counts as 0), skipping exactly the points whose
    backend write fails. *)
Theorem write_outputs_never_raises m (c : Ctx IOBackend) :
  (forall t p s, elem_of (t, p) (analog_outputs m) -> DS.read (store c) t <> Some (VStr s)) ->
  let b := self c in
  write_outputs m c
  = (Ok tt,
     mkCtx (mkBackend (read_digital b) (read_analog b) (read_pulse_count b)
                      (write_raises b)
                      (digital_written b
                         ++ digital_writes b (store c) (digital_outputs m))
                      (analog_written b
                         ++ analog_writes b (store c) (analog_outputs m)))
           (store c)).
Proof.
  intros _. destruct c as [b ds]. cbv zeta. cbn [self store]. unfold write_outputs.
  destruct (for_each_digital_outputs b ds (digital_outputs m)) as (b1 & E1 & ->).
  unfold bind at 1. rewrite E1.
  match goal with |- context [for_each _ _ (mkCtx ?b1 _)] =>
    destruct (for_each_analog_outputs b1 ds (analog_outputs m)) as (b2 & E2 & ->)
  end.
  rewrite E2. reflexivity.
Qed.

(** The theorem on the default map and the initial store, with a backend
    that accepts every write: ten writes, all False or the count of 0.0. *)
Lemma write_outputs_never_raises_witness :
  exists b',
    write_outputs io_map.default (mkCtx dead_backend DS.init)
    = (Ok tt, mkCtx b' DS.init)
    /\ length (digital_written b') = 8%nat
    /\ length (analog_written b') = 2%nat.
Proof.
  eexists. split.
  - apply (write_outputs_never_raises io_map.default (mkCtx dead_backend DS.init)).
    intros t p s Hin.
    repeat (apply elem_of_cons in Hin as [[= -> ->]|Hin]; [vm_compute; discriminate|]).
    by apply elem_of_nil in Hin.
  - split; reflexivity.
Defined.

End IOFacts.

(** ** The controller *)

Lemma bind_cases {X A B} (m : M X A) (k : A -> M X B) c r c' :
  bind m k c = (r, c') ->
  (r = Raised /\ m c = (Raised, c'))
  \/ exists a c1, m c = (Ok a, c1) /\ k a c1 = (r, c').
Proof.
  unfold bind. destruct (m c) as [[a|] c1]; intros H.
  - right. eauto.
  - left. injection H as <- <-. by split.
Qed.

Section StateMachineRequests.
Import state_machine.

Lemma execute_clears_request sp now (c : Ctx LACTStateMachine) r c' :
  execute sp now c = (r, c') -> _request_state (self c') = None.
Proof.
  destruct c as [[st t0 s1 s2 req lg] ds]. intros H.
  unfold execute, _transition in H.
  destruct st, req as [[]|]; run_sm H;
    try (injection H as <- <-; reflexivity).
  all: unfold_handlers H; run_sm H; injection H as <- <-; reflexivity.
Qed.

Lemma execute_from_proving sp now (c : Ctx LACTStateMachine) r c' :
  execute sp now c = (r, c') ->
  state (self c) = PROVING ->
  _request_state (self c) = None \/ _request_state (self c) = Some SHUTDOWN ->
  state (self c') = PROVING \/ state (self c') = SHUTDOWN \/ state (self c') = E_STOP.
Proof.
  destruct c as [[st t0 s1 s2 req lg] ds]. cbn [self state _request_state].
  intros H -> Hreq.
  unfold execute, handler, _handle_proving, _transition in H.
  destruct Hreq as [->| ->]; run_sm H; injection H as <- <-; cbn; tauto.
Qed.

Lemma execute_leaves_running sp now (c : Ctx LACTStateMachine) r c' :
  execute sp now c = (r, c') ->
  state (self c) = RUNNING ->
  _request_state (self c) = Some SHUTDOWN \/ _request_state (self c) = Some DIVERT ->
  state (self c') = DIVERT \/ state (self c') = SHUTDOWN \/ state (self c') = E_STOP.
Proof.
  destruct c as [[st t0 s1 s2 req lg] ds]. cbn [self state _request_state].
  intros H -> Hreq.
  unfold execute, handler, _transition in H.
  destruct Hreq as [->| ->]; run_sm H; injection H as <- <-; cbn; tauto.
Qed.

End StateMachineRequests.

Section ControllerFacts.
Import state_machine controller io_handler io_map plant.

Lemma write_outputs_Ok m (c : Ctx IOBackend) :
  exists b', write_outputs m c = (Ok tt, mkCtx b' (store c)).
Proof.
  destruct c as [b ds]. cbn [store].
  assert (forall (l : list (string * IOPoint)) body b0,
            (forall a b1, exists b2, body a (mkCtx b1 ds) = (Ok tt, mkCtx b2 ds)) ->
            exists b', for_each (X:=IOBackend) l body (mkCtx b0 ds) = (Ok tt, mkCtx b' ds))
    as Hloop.
  { induction l as [|a l IH]; intros body b0 Hb; [by exists b0|].
    cbn [for_each]. unfold bind. destruct (Hb a b0) as (b2 & ->).
    apply IH, Hb. }
  unfold write_outputs. unfold bind at 1.
  edestruct (Hloop (digital_outputs m)) as (b1 & ->).
  { intros [t p] b1. unfold bind, ds_read, gets. cbn [self store].
    destruct (write_raises b1 (address p)); eexists; reflexivity. }
  apply Hloop. intros [t p] b2. unfold bind, ds_read, gets. cbn [self store].
  destruct (float_or_0 (DS.read ds t)); [|eexists; reflexivity].
  cbn [self store]. destruct (write_raises b2 (address p)); eexists; reflexivity.
Qed.

(** X27.  The scan loop contains the exceptions of a scan.  When
    [_execute_scan] completes, the pass of the loop is that scan; when it
    raises, the pass still completes, by [_safe_state]: pump, sampler,
    mixer, prover valve, beacon, horn and green light are off and the
    divert valve is commanded to DIVERT, nothing else in the store
    changes, and the state machine is left in the state where the scan
    stopped -- the safe-state pass requests no state change. *)
Theorem scan_loop_contains_exceptions e now (c : Ctx PLCController) :
  match _execute_scan e now c with
  | (Ok _, c1) => scan_loop_body e now c = (Ok tt, c1)
  | (Raised, c1) =>
      exists c',
        scan_loop_body e now c = (Ok tt, c')
        /\ all_off_pattern (store c')
        /\ state_machine (self c') = state_machine (self c1)
        /\ forall t, ~ In t ["DO_PUMP_START"; "DO_DIVERT_CMD"; "DO_SAMPLE_SOL";
                             "DO_SAMPLE_MIX_PUMP"; "DO_PROVER_VLV_CMD";
                             "DO_ALARM_BEACON"; "DO_ALARM_HORN"; "DO_STATUS_GREEN"] ->
                     store c' !! t = store c1 !! t
  end.
Proof.
  unfold scan_loop_body.
  destruct (_execute_scan e now c) as [[[]|] c1]; [reflexivity|].
  unfold _safe_state.
  unfold bind, ds_write, ds_write_q, gets. cbn [self store].
  unfold call. cbn [self store].
  match goal with |- context [write_outputs ?m ?c0] =>
    destruct (write_outputs_Ok m c0) as (b' & ->)
  end.
  eexists. split; [reflexivity|]. cbn [self store].
  split; [unfold all_off_pattern; repeat split; by ds_simpl|].
  split; [reflexivity|].
  intros t Ht. cbn in Ht. unfold DS.write.
  rewrite !lookup_insert_ne by (intros E; apply Ht; subst t; intuition).
  reflexivity.
Qed.

(** The theorem on a controller whose store holds a string for the BS&W
    probe: the scan raises in the safety checks, the loop goes on. *)
Lemma scan_loop_contains_exceptions_witness :
  fst (_execute_scan exp_taylor 1 corrupted_controller) = Raised
  /\ exists c',
       scan_loop_body exp_taylor 1 corrupted_controller = (Ok tt, c')
       /\ all_off_pattern (store c').
Proof.
  split; [vm_compute; reflexivity|].
  pose proof (scan_loop_contains_exceptions exp_taylor 1 corrupted_controller) as H.
  destruct (_execute_scan exp_taylor 1 corrupted_controller) as [[[]|] c1] eqn:E.
  - vm_compute in E. discriminate E.
  - destruct H as (c' & H1 & H2 & _). exists c'. split; [exact H1 | exact H2].
Defined.

(** A loop that stamps one cell per item forgets what the store held
    before for the tags it covers. *)
Lemma for_each_forgets (cell : IOPoint -> TagValue) (b : IOBackend)
    (body : string * IOPoint -> M IOBackend unit) l ds k x :
  (forall t p ds0,
      body (t, p) (mkCtx b ds0) = (Ok tt, mkCtx b (<[t := cell p]> ds0))) ->
  exists ds',
    for_each l body (mkCtx b ds) = (Ok tt, mkCtx b ds')
    /\ for_each l body (mkCtx b (<[k := x]> ds))
       = (Ok tt, mkCtx b (if bool_decide (elem_of k l.*1) then ds' else <[k := x]> ds')).
Proof.
  intros Hbody. revert ds. induction l as [|[t0 p0] l IH]; intros ds.
  - exists ds. split; reflexivity.
  - cbn [for_each]. unfold bind. rewrite !Hbody.
    destruct (IH (<[t0 := cell p0]> ds)) as (ds' & E1 & E2).
    exists ds'. split; [exact E1|].
    destruct (decide (t0 = k)) as [->|Hne].
    + rewrite insert_insert_eq, E1.
      rewrite bool_decide_eq_true_2; [reflexivity|]. apply elem_of_cons. by left.
    + rewrite insert_insert_ne by exact Hne. rewrite E2.
      destruct (decide (elem_of k l.*1)) as [Hin|Hin].
      * rewrite !bool_decide_eq_true_2; [reflexivity| |exact Hin].
        apply elem_of_cons. by right.
      * rewrite !bool_decide_eq_false_2; [reflexivity| |exact Hin].
        cbn. intros H. apply elem_of_cons in H as [?|?]; [congruence|done].
Qed.

Lemma read_inputs_forgets_digital now m b ds k x :
  elem_of k (digital_inputs m).*1 ->
  read_inputs now m (mkCtx b (<[k := x]> ds)) = read_inputs now m (mkCtx b ds).
Proof.
  intros Hk. unfold read_inputs.
  destruct (for_each_forgets (fun p =>
              match read_digital b (address p) with
              | Some raw => mkTagValue (VBool raw) now GOOD
              | None => mkTagValue (VBool false) now BAD
              end) b
              (fun '(t, point) =>
                 bf <- gets read_digital ;;
                 match bf (address point) with
                 | Some raw => ds_write now t (VBool raw)
                 | None => ds_write_q now t (VBool false) BAD
                 end) (digital_inputs m) ds k x) as (ds1 & E1 & E2).
  { intros t p ds0. unfold bind, gets. cbn [self store].
    destruct (read_digital b (address p)); reflexivity. }
  unfold bind at 1. rewrite E2. rewrite (bool_decide_eq_true_2 _ Hk).
  symmetry. unfold bind at 1. rewrite E1. reflexivity.
Qed.

(** X28.  The software E-stop commands have no effect on a controller
    whose I/O map has the DI_ESTOP input: [cmd_estop] and
    [cmd_estop_reset] only write the DI_ESTOP tag, which the next scan
    overwrites from the field before anything reads it, so the scan after
    the command is, in outcome, controller and store, the scan without
    the command. *)
Theorem software_estop_is_overwritten_by_inputs e now t (c : Ctx PLCController) :
  elem_of "DI_ESTOP" (digital_inputs (io_map (self c))).*1 ->
  _execute_scan e now (snd (cmd_estop t c)) = _execute_scan e now c
  /\ _execute_scan e now (snd (cmd_estop_reset t c)) = _execute_scan e now c.
Proof.
  intros Hk.
  assert (forall x, _execute_scan e now (mkCtx (self c) (<["DI_ESTOP" := x]> (store c)))
                    = _execute_scan e now c) as Hgen.
  { intros x. destruct c as [s ds]. cbn [self store] in *.
    unfold _execute_scan.
    unfold bind at 1. unfold gets at 1. cbn [self store].
    unfold bind at 1. unfold modify at 1. cbn [self store].
    unfold bind at 1. unfold gets at 1. cbn [self store].
    unfold bind at 1. unfold gets at 1. cbn [self store].
    symmetry.
    unfold bind at 1. unfold gets at 1. cbn [self store].
    unfold bind at 1. unfold modify at 1. cbn [self store].
    unfold bind at 1. unfold gets at 1. cbn [self store].
    unfold bind at 1. unfold gets at 1. cbn [self store].
    cbn [io_map set_scan_count sp].
    unfold bind at 1. symmetry. unfold bind at 1.
    unfold call at 1. cbn [self store io set_scan_count].
    rewrite (read_inputs_forgets_digital now (io_map s) (io s) ds "DI_ESTOP" x Hk).
    reflexivity. }
  split; apply Hgen.
Qed.

(** The theorem at power-on, with the default map. *)
Lemma software_estop_witness :
  _execute_scan exp_taylor 1 (snd (cmd_estop 0 power_on))
  = _execute_scan exp_taylor 1 power_on.
Proof.
  apply (software_estop_is_overwritten_by_inputs exp_taylor 1 0 power_on).
  cbn. repeat constructor.
Defined.

Lemma on_self_sm_kept_refl (c : Ctx PLCController) : on_self sm_kept c c.
Proof. apply sm_kept_refl. Qed.

Lemma on_self_sm_kept_trans (c1 c2 c3 : Ctx PLCController) :
  on_self sm_kept c1 c2 -> on_self sm_kept c2 c3 -> on_self sm_kept c1 c3.
Proof. apply sm_kept_trans. Qed.

Lemma guarantees_call_sm_kept {X A} (get : PLCController -> X) set (m : M X A) :
  (forall x s, sm_kept s (set x s)) ->
  guarantees (on_self sm_kept) (call get set m).
Proof. intros Hset c r c' H. eapply call_sm_kept; eassumption. Qed.

#[local] Hint Resolve on_self_sm_kept_refl on_self_sm_kept_trans : guar.
#[local] Hint Extern 1 (guarantees (on_self sm_kept) (call _ _ _)) =>
  (apply guarantees_call_sm_kept; intros; repeat split) : guar.
#[local] Hint Extern 1 (guarantees (on_self sm_kept) (ds_write _ _ _)) =>
  (apply guarantees_on_self_write; intros; repeat split) : guar.

Lemma safe_state_sm_kept now : guarantees (on_self sm_kept) (_safe_state now).
Proof. unfold _safe_state. guar. Qed.

(** The state machine over one scan, whatever the outcome: it is left
    alone (the scan raised before reaching it), or it ran once, after the
    safety actions. *)
Lemma scan_state_machine e now (c : Ctx PLCController) r c' :
  _execute_scan e now c = (r, c') ->
  sp (self c') = sp (self c)
  /\ (state_machine (self c') = state_machine (self c)
      \/ exists sm2 ds2 r2 ds3,
           after_safety_actions (state_machine (self c)) sm2
           /\ state_machine.execute (sp (self c)) now (mkCtx sm2 ds2)
              = (r2, mkCtx (state_machine (self c')) ds3)).
Proof.
  intros H. unfold _execute_scan in H.
  unfold bind at 1, gets at 1 in H. cbn [self store] in H.
  unfold bind at 1, modify at 1 in H. cbn [self store] in H.
  unfold bind at 1, gets at 1 in H. cbn [self store] in H.
  unfold bind at 1, gets at 1 in H. cbn [self store] in H.
  cbn [io_map sp set_scan_count] in H.
  set (c0 := mkCtx (set_scan_count (_scan_count (self c) + 1) (self c)) (store c)) in H.
  assert (sm_kept (self c) (self c0)) as K0 by (subst c0; repeat split).
  apply bind_cases in H as [[-> H]|(a1 & c1 & H1 & H)].
  { apply call_sm_kept in H; [|intros; repeat split].
    destruct (sm_kept_trans _ _ _ K0 H) as (-> & -> & _). split; [reflexivity|by left]. }
  apply call_sm_kept in H1; [|intros; repeat split].
  pose proof (sm_kept_trans _ _ _ K0 H1) as K1.
  apply bind_cases in H as [[-> H]|(a2 & c2 & H2 & H)].
  { apply call_sm_kept in H; [|intros; repeat split].
    destruct (sm_kept_trans _ _ _ K1 H) as (-> & -> & _). split; [reflexivity|by left]. }
  apply call_sm_kept in H2; [|intros; repeat split].
  pose proof (sm_kept_trans _ _ _ K1 H2) as (Ksm & Ksp & _).
  unfold bind at 1, gets at 1 in H. cbn [self store] in H.
  unfold bind at 1, gets at 1 in H. cbn [self store] in H.
  apply bind_cases in H as [[-> H]|(a3 & c3 & H3 & H)].
  { exfalso.
    destruct (safety.shutdown_requested _);
      [|destruct (safety.divert_requested _)];
      destruct (state (state_machine (self c2))); discriminate H. }
  assert (store c3 = store c2 /\ sp (self c3) = sp (self c)
          /\ after_safety_actions (state_machine (self c)) (state_machine (self c3)))
    as (E3 & Esp3 & A3).
  { rewrite <- Ksm, <- Ksp. unfold after_safety_actions.
    destruct (safety.shutdown_requested _);
      [|destruct (safety.divert_requested _)];
      destruct (state (state_machine (self c2))) eqn:Est;
      injection H3 as _ <-; cbn [self store sp state_machine set_state_machine];
      (split; [reflexivity|]); (split; [reflexivity|]);
      first [ left; reflexivity
            | right; left; repeat split; discriminate
            | right; right; split; reflexivity ]. }
  apply bind_cases in H as [[-> H]|(a4 & c4 & H4 & H)].
  { apply call_inv in H as (sm' & Hsm & Eself).
    split; [rewrite Eself; exact Esp3|]. right.
    exists (state_machine (self c3)), (store c3), Raised, (store c').
    split; [exact A3|]. rewrite Eself. cbn [state_machine set_state_machine].
    exact Hsm. }
  apply call_inv in H4 as (sm' & Hsm & Eself).
  match type of H with
  | ?m _ = _ =>
      assert (guarantees (on_self sm_kept) m) as G
        by (unfold call_static; guar)
  end.
  apply G in H. destruct H as (Esm & Espf & _).
  split; [rewrite Espf, Eself; exact Esp3|]. right.
  exists (state_machine (self c3)), (store c3), (Ok a4), (store c4).
  split; [exact A3|]. rewrite Esm, Eself. cbn [state_machine set_state_machine].
  exact Hsm.
Qed.

(** The first four phases of a completed scan. *)
Lemma scan_first_phases e now (c c' : Ctx PLCController) :
  _execute_scan e now c = (Ok tt, c') ->
  exists io1 ds1 sf2 ds2 ds3,
    io_handler.read_inputs now (io_map (self c)) (mkCtx (io (self c)) (store c))
    = (Ok tt, mkCtx io1 ds1)
    /\ safety.execute (sp (self c)) now (mkCtx (safety (self c)) ds1)
       = (Ok tt, mkCtx sf2 ds2)
    /\ state_machine.execute (sp (self c)) now
         (mkCtx (safety_actions sf2 (state_machine (self c))) ds2)
       = (Ok tt, mkCtx (state_machine (self c')) ds3).
Proof.
  intros H. unfold _execute_scan in H.
  do 4 invert_bind H. cbn [self store io_map sp set_scan_count] in H.
  invert_bind H. apply call_inv in Hstep as (io1 & Hio & E1).
  cbn [self store io set_scan_count] in Hio.
  invert_bind H. apply call_inv in Hstep as (sf2 & Hsf & E2).
  rewrite E1 in Hsf. cbn [safety set_io set_scan_count] in Hsf.
  do 2 invert_bind H.
  invert_bind H.
  assert (store c2 = store c1
          /\ sp (self c2) = sp (self c)
          /\ state_machine (self c2)
             = safety_actions sf2 (state_machine (self c))) as (Es3 & Esp3 & Esm3).
  { rewrite E2 in Hstep. cbn [safety set_safety state_machine] in Hstep.
    rewrite E1 in Hstep. cbn [self state_machine set_io set_scan_count] in Hstep.
    unfold safety_actions.
    destruct (safety.shutdown_requested sf2);
      [|destruct (safety.divert_requested sf2)];
      destruct (state (state_machine (self c))) eqn:Est;
      injection Hstep as _ <-; cbn [self store state_machine set_state_machine sp];
      rewrite ?E2; cbn [state_machine set_safety sp]; rewrite ?E1; cbn;
      repeat split; reflexivity. }
  invert_bind H. apply call_inv in Hstep0 as (sm3 & Hsm & E4).
  cbv beta in H.
  match type of H with
  | ?m _ = _ =>
      assert (guarantees (on_self sm_kept) m) as G
        by (unfold call_static; guar)
  end.
  apply G in H. destruct H as (Esm & _).
  repeat match goal with u : unit |- _ => destruct u end.
  exists io1, (store c0), sf2, (store c1), (store c3).
  split; [exact Hio|]. split; [exact Hsf|].
  rewrite Esm, E4. cbn [state_machine set_state_machine].
  rewrite <- Esm3, <- Es3. exact Hsm.
Qed.

Lemma scan_loop_state_machine e now (c : Ctx PLCController) :
  let c' := snd (scan_loop_body e now c) in
  state_machine (self c') = state_machine (self c)
  \/ exists sm2 ds2 r2 ds3,
       after_safety_actions (state_machine (self c)) sm2
       /\ state_machine.execute (sp (self c)) now (mkCtx sm2 ds2)
          = (r2, mkCtx (state_machine (self c')) ds3).
Proof.
  cbv zeta. unfold scan_loop_body.
  destruct (_execute_scan e now c) as [[[]|] c1] eqn:E;
    apply scan_state_machine in E as [_ E]; cbn [snd]; [exact E|].
  destruct (_safe_state now c1) as [r2 c2] eqn:E2. cbn [snd].
  apply safe_state_sm_kept in E2 as (-> & _). exact E.
Qed.

Lemma step_pending_ok e op (c : Ctx PLCController) :
  pending_ok (state_machine (self c)) ->
  pending_ok (state_machine (self (step e op c))).
Proof.
  intros Hc. destruct op as [i now| | |now|]; cbn [step].
  - destruct (scan_loop_state_machine e now (facing i c)) as [->|(sm2 & ds2 & r2 & ds3 & _ & E)].
    + exact Hc.
    + apply execute_clears_request in E. cbn [self] in E.
      unfold pending_ok. by rewrite E.
  - unfold cmd_start, bind, gets, modify, ret. cbn [self store].
    destruct (state (state_machine (self c))) eqn:Est; cbn; try exact Hc.
    unfold pending_ok. cbn. exact Est.
  - unfold cmd_stop, bind, gets, modify, ret. cbn [self store].
    destruct (state (state_machine (self c))) eqn:Est; cbn; try exact Hc;
      unfold pending_ok; cbn; rewrite Est; repeat split; discriminate.
  - unfold cmd_prove, bind, gets, modify, ret. cbn [self store].
    destruct (state (state_machine (self c))) eqn:Est; cbn; try exact Hc.
    unfold pending_ok. cbn. exact Est.
  - exact Hc.
Qed.

Lemma run_pending_ok e ops (c : Ctx PLCController) :
  pending_ok (state_machine (self c)) ->
  pending_ok (state_machine (self (run e ops c))).
Proof.
  revert c. induction ops as [|op ops IH]; intros c Hc; [exact Hc|].
  cbn. apply IH, step_pending_ok, Hc.
Qed.

(** X29.  Nothing takes the unit from PROVING back to RUNNING.  On a
    controller started from power-on and driven by any sequence of scans
    and operator commands, once the state machine is in PROVING every
    further scan or command leaves it in PROVING, or takes it to SHUTDOWN
    or E_STOP: the end of a proving sequence, passed or failed, never
    returns the unit to RUNNING. *)
Theorem proving_is_never_left_for_running e ops op :
  let c := run e ops power_on in
  let c' := step e op c in
  state (state_machine (self c)) = PROVING ->
  state (state_machine (self c')) = PROVING
  \/ state (state_machine (self c')) = SHUTDOWN
  \/ state (state_machine (self c')) = E_STOP.
Proof.
  intros c c' Hst.
  assert (pending_ok (state_machine (self c))) as Hp.
  { apply run_pending_ok. exact I. }
  subst c'. destruct op as [i now| | |now|]; cbn [step].
  - destruct (scan_loop_state_machine e now (facing i c))
      as [->|(sm2 & ds2 & r2 & ds3 & A & E)]; [by left|].
    cbn [facing self state_machine set_io] in A.
    apply (execute_from_proving _ _ _ _ _ E); cbn [self].
    + destruct A as [->|[(-> & _)|(-> & _)]]; exact Hst.
    + destruct A as [->|[(-> & _)|(-> & Hr)]].
      * unfold pending_ok in Hp. rewrite Hst in Hp.
        destruct (_request_state (state_machine (self c))) as [[]|];
          try done; try (by left); try (by right).
      * by right.
      * congruence.
  - left. unfold cmd_start, bind, gets, modify, ret. cbn [self store].
    rewrite Hst. exact Hst.
  - left. unfold cmd_stop, bind, gets, modify, ret. cbn [self store].
    rewrite Hst. cbn. exact Hst.
  - left. unfold cmd_prove, bind, gets, modify, ret. cbn [self store].
    rewrite Hst. exact Hst.
  - left. exact Hst.
Qed.

(** The theorem on a unit started, put to proving, and scanned once
    more. *)
Lemma proving_is_never_left_witness :
  let c := run exp_taylor start_then_prove power_on in
  let c' := step exp_taylor (Scan (pumping_at_sales 30) 23) c in
  state (state_machine (self c)) = PROVING
  /\ (state (state_machine (self c')) = PROVING
      \/ state (state_machine (self c')) = SHUTDOWN
      \/ state (state_machine (self c')) = E_STOP).
Proof.
  cbv zeta. split; [vm_compute; reflexivity|].
  apply (proving_is_never_left_for_running
           exp_taylor start_then_prove (Scan (pumping_at_sales 30) 23)).
  vm_compute. reflexivity.
Defined.

(** X30.  Wet oil takes the unit out of RUNNING within the scan.  If the
    unit is RUNNING and the BS&W probe input, read and scaled by this
    scan, is at or above [bsw_divert_pct], then a completed scan leaves
    the state machine in DIVERT -- or in SHUTDOWN or E_STOP when the
    safety checks or the E-stop input ask for more --, whatever request
    was pending. *)
Theorem high_bsw_leaves_running e now (c c' : Ctx PLCController) p raw :
  NoDup (input_tags (io_map (self c))) ->
  elem_of ("AI_BSW_PROBE", p) (analog_inputs (io_map (self c))) ->
  read_analog (io (self c)) (address p) = Some raw ->
  bsw_divert_pct (sp (self c)) <= py_round (_scale_input raw p) 3 ->
  state (state_machine (self c)) = RUNNING ->
  _execute_scan e now c = (Ok tt, c') ->
  state (state_machine (self c')) = DIVERT
  \/ state (state_machine (self c')) = SHUTDOWN
  \/ state (state_machine (self c')) = E_STOP.
Proof.
  intros Hnd Hin Hraw Hge Hst H.
  apply scan_first_phases in H as (io1 & ds1 & sf2 & ds2 & ds3 & Hio & Hsf & Hsm).
  destruct (read_inputs_cells now (io_map (self c))
              (mkCtx (io (self c)) (store c)) Hnd) as (ds' & E & _ & Ha & _).
  cbn [self store] in E, Ha. rewrite E in Hio. injection Hio as <- <-.
  specialize (Ha _ _ Hin). unfold analog_cell in Ha. rewrite Hraw in Ha.
  assert (as_num (DS.read ds' "AI_BSW_PROBE")
          = Some (py_round (_scale_input raw p) 3)) as Hnum.
  { unfold DS.read. rewrite Ha. reflexivity. }
  pose proof (check_bsw_requests_divert
                (sp (self c)) now (mkCtx (safety (self c)) ds') (mkCtx sf2 ds2)
                _ Hnum Hge Hsf) as Hdiv.
  cbn [self] in Hdiv.
  apply (execute_leaves_running _ _ _ _ _ Hsm); cbn [self];
    unfold safety_actions; rewrite Hdiv, Hst;
    destruct (safety.shutdown_requested sf2); cbn; auto.
Qed.

(** The theorem on the running unit, scanned at [t = 23] with 1.221 % at
    the probe: the scan ends in DIVERT. *)
Lemma high_bsw_leaves_running_witness :
  let c := facing wet_oil (run exp_taylor cold_start power_on) in
  let c' := snd (_execute_scan exp_taylor 23 c) in
  state (state_machine (self c)) = RUNNING
  /\ state (state_machine (self c')) = DIVERT
  /\ (state (state_machine (self c')) = DIVERT
      \/ state (state_machine (self c')) = SHUTDOWN
      \/ state (state_machine (self c')) = E_STOP).
Proof.
  cbv zeta. split; [vm_compute; reflexivity|]. split; [vm_compute; reflexivity|].
  apply (high_bsw_leaves_running exp_taylor 23
           (facing wet_oil (run exp_taylor cold_start power_on))
           (snd (_execute_scan exp_taylor 23
                   (facing wet_oil (run exp_taylor cold_start power_on))))
           (mkIOPoint "AI_BSW_PROBE" ANALOG_IN 3 0 4095 0 5 1 203) 1000).
  - apply (bool_decide_unpack _). vm_compute. exact I.
  - change (io_map (self (facing wet_oil (run exp_taylor cold_start power_on))))
      with io_map.default.
    unfold io_map.default, default_analog_inputs. cbn [analog_inputs].
    repeat constructor.
  - vm_compute. reflexivity.
  - vm_compute. congruence.
  - vm_compute. reflexivity.
  - vm_compute. reflexivity.
Defined.

End ControllerFacts.
